(** * eSIM manager (esim.py): a shallow embedding and its verified properties

    The development follows the layout of the Python module:
    - [Py]        : the few Python primitives the code relies on
                    (truthiness, [str] of an int, subscripting, slicing);
    - [World]     : what the program reads from outside (the [random]
                    module, [os.urandom], the wall clock), threaded through
                    a small state monad;
    - [random], [hashlib], [uuid] : the library calls made by the generators;
    - [eSIM]      : class [eSIM];
    - [eSIMManagerApp] : the non-graphical state of class [eSIMManagerApp]
                    (the list [esims], the reference [selected_esim]) with
                    the objects kept in a store, so that the aliasing between
                    [esims] and [selected_esim] is the one Python has.

    Strings are byte strings: a Python [str] is embedded by its UTF-8
    encoding, which is also what [str.encode()] produces. *)

From Stdlib Require Import ZArith NArith DecimalString String Ascii Lia.
From stdpp Require Import base list strings.

Local Open Scope string_scope.

(** ** Python primitives *)

Module Py.

(** [bool(x)] for [x : str | None], as used by [x or default] and [if x:]. *)
Definition truthy (x : option string) : bool :=
  match x with
  | None => false
  | Some s => negb (String.eqb s "")
  end.

(** Outcome of a conversion that may raise [ValueError]. *)
Inductive result (A : Type) : Type :=
| Ok (a : A)
| ValueError.
Arguments Ok {A} a.
Arguments ValueError {A}.

(** The decimal numeral of an int: a minus sign if negative, then the digits. *)
Definition decimal (n : Z) : string := NilZero.string_of_int (Z.to_int n).

(** The number of decimal digits of an int, sign left out. *)
Definition digits (n : Z) : nat := String.length (decimal (Z.abs n)).

(** [sys.get_int_max_str_digits()], at its default. *)
Definition int_max_str_digits : nat := 4300.

(** [str(n)] for an int, which is also [f"{n}"]: the decimal numeral, unless
    [n] has more digits than the interpreter converts, in which case
    [ValueError] is raised. *)
Definition str_int (n : Z) : result string :=
  if Nat.ltb int_max_str_digits (digits n) then ValueError else Ok (decimal n).

(** [''.join(parts)]. *)
Definition join (parts : list string) : string := String.concat "" parts.

(** [s.encode()]: the bytes of the string. *)
Definition encode (s : string) : list N :=
  N_of_ascii <$> list_ascii_of_string s.

(** [s[:n]].  Slices count bytes here and characters in Python; the two
    agree on ASCII strings, the only ones the code slices (the hexadecimal
    keys and the hexadecimal digest). *)
Definition slice_to (n : nat) (s : string) : string := String.substring 0 n s.

(** [s[i:j]] for [0 <= i <= j]. *)
Definition slice (i j : nat) (s : string) : string := String.substring i (j - i) s.

(** [s[i:]] for [0 <= i]. *)
Definition slice_from (i : nat) (s : string) : string :=
  String.substring i (String.length s - i) s.

(** [s[-n:]] for [n > 0]: the last [n] characters, or all of [s] if it has
    fewer (bytes for characters, as for [slice_to]). *)
Definition slice_last (n : nat) (s : string) : string :=
  String.substring (String.length s - n) n s.

(** Outcome of an expression that may raise [IndexError]. *)
Inductive raising (A : Type) : Type :=
| Returns (a : A)
| IndexError.
Arguments Returns {A} a.
Arguments IndexError {A}.

(** [l[i]]: positions count from the end when [i] is negative. *)
Definition getitem {A : Type} (l : list A) (i : Z) : raising A :=
  let n := Z.of_nat (length l) in
  let j := if (i <? 0)%Z then (i + n)%Z else i in
  if ((j <? 0) || (n <=? j))%Z then IndexError
  else match l !! Z.to_nat j with
       | Some a => Returns a
       | None => IndexError
       end.

End Py.

(** ** The outside world *)

(** A source of successive readings: the [cursor]-th reading is next. *)
Record Source (A : Type) : Type := mkSource { stream : nat -> A; cursor : nat }.
Arguments mkSource {A} stream cursor.
Arguments stream {A} s n.
Arguments cursor {A} s.

Definition draw {A : Type} (s : Source A) : A * Source A :=
  (stream s (cursor s), mkSource (stream s) (S (cursor s))).

Record World : Type := mkWorld {
  prng : Source N;        (* raw outcomes behind the [random] module *)
  urandom : Source N;     (* raw outcomes behind [os.urandom] *)
  clock : Source string   (* [datetime.now().strftime("%Y-%m-%d %H:%M:%S")] *)
}.

(** State monad over the world. *)
Definition M (A : Type) : Type := World -> A * World.

#[global] Instance M_ret : MRet M := fun A (a : A) (w : World) => (a, w).

#[global] Instance M_bind : MBind M :=
  fun A B (k : A -> M B) (m : M A) (w : World) => let (a, w') := m w in k a w'.

Definition draw_prng : M N :=
  fun w => let (r, g) := draw (prng w) in (r, mkWorld g (urandom w) (clock w)).

Definition draw_urandom : M N :=
  fun w => let (r, g) := draw (urandom w) in (r, mkWorld (prng w) g (clock w)).

(** [datetime.now().strftime("%Y-%m-%d %H:%M:%S")]. *)
Definition now : M string :=
  fun w => let (t, c) := draw (clock w) in (t, mkWorld (prng w) (urandom w) c).

(** [x or d()] for [x : str | None]: the right operand is evaluated only
    when [x] is falsy. *)
Definition or_else (x : option string) (d : M string) : M string :=
  match x with
  | Some v => if Py.truthy x then mret v else d
  | None => d
  end.

(** [[f() for _ in range(n)]]: [n] successive evaluations, in order. *)
Fixpoint replicateM {A : Type} (n : nat) (m : M A) : M (list A) :=
  match n with
  | O => mret []
  | S n' => x ← m; xs ← replicateM n' m; mret (x :: xs)
  end.

(** ** Module [random] *)

Module random.

(** [random.randint(a, b)] for [a <= b]: [a + k] with [k] in [0, b - a].
    The raw outcome of the generator is reduced into that range, so every
    value of the range, and no other, can come out. *)
Definition randint (a b : Z) : M Z :=
  r ← draw_prng; mret (a + Z.of_N r mod (b - a + 1))%Z.

End random.

(** ** Module [hashlib]: SHA-256 (FIPS 180-4) on byte lists *)

Module hashlib.

Local Open Scope N_scope.

Definition add32 (x y : N) : N := (x + y) mod 2 ^ 32.
Definition rotr (n x : N) : N :=
  N.lor (N.shiftr x n) (N.shiftl x (32 - n) mod 2 ^ 32).
Definition not32 (x : N) : N := N.lxor x 0xffffffff.

Definition Ch (x y z : N) : N := N.lxor (N.land x y) (N.land (not32 x) z).
Definition Maj (x y z : N) : N :=
  N.lxor (N.lxor (N.land x y) (N.land x z)) (N.land y z).
Definition Sigma0 (x : N) : N := N.lxor (N.lxor (rotr 2 x) (rotr 13 x)) (rotr 22 x).
Definition Sigma1 (x : N) : N := N.lxor (N.lxor (rotr 6 x) (rotr 11 x)) (rotr 25 x).
Definition sigma0 (x : N) : N := N.lxor (N.lxor (rotr 7 x) (rotr 18 x)) (N.shiftr x 3).
Definition sigma1 (x : N) : N := N.lxor (N.lxor (rotr 17 x) (rotr 19 x)) (N.shiftr x 10).

(** Reading constants written as runs of eight hexadecimal digits. *)
Definition hex_digit_value (c : ascii) : N :=
  let n := N_of_ascii c in if n <? 58 then n - 48 else n - 87.

Fixpoint hex_value (acc : N) (s : string) : N :=
  match s with
  | EmptyString => acc
  | String c s' => hex_value (16 * acc + hex_digit_value c) s'
  end.

Fixpoint hex_words (fuel : nat) (s : string) : list N :=
  match fuel with
  | O => []
  | S fuel' =>
      match s with
      | EmptyString => []
      | _ => hex_value 0 (String.substring 0 8 s)
             :: hex_words fuel' (String.substring 8 (String.length s - 8) s)
      end
  end.

(** The sixty-four round constants, eight per row. *)
Definition K : list N :=
  Eval vm_compute in
  flat_map (hex_words 8)
   ["428a2f9871374491b5c0fbcfe9b5dba53956c25b59f111f1923f82a4ab1c5ed5";
    "d807aa9812835b01243185be550c7dc372be5d7480deb1fe9bdc06a7c19bf174";
    "e49b69c1efbe47860fc19dc6240ca1cc2de92c6f4a7484aa5cb0a9dc76f988da";
    "983e5152a831c66db00327c8bf597fc7c6e00bf3d5a7914706ca635114292967";
    "27b70a852e1b21384d2c6dfc53380d13650a7354766a0abb81c2c92e92722c85";
    "a2bfe8a1a81a664bc24b8b70c76c51a3d192e819d6990624f40e3585106aa070";
    "19a4c1161e376c082748774c34b0bcb5391c0cb34ed8aa4a5b9cca4f682e6ff3";
    "748f82ee78a5636f84c878148cc7020890befffaa4506cebbef9a3f7c67178f2"].

(** The eight working variables, also the chaining value. *)
Record regs : Type := mkRegs { ra : N; rb : N; rc : N; rd : N; re : N; rf : N; rg : N; rh : N }.

(** The initial chaining value. *)
Definition H0 : regs :=
  match hex_words 8 "6a09e667bb67ae853c6ef372a54ff53a510e527f9b05688c1f83d9ab5be0cd19" with
  | [a; b; c; d; e; f; g; h] => mkRegs a b c d e f g h
  | _ => mkRegs 0 0 0 0 0 0 0 0
  end.

(** Big-endian serialisation and parsing. *)
Definition be_bytes (width : nat) (x : N) : list N :=
  (fun k => N.shiftr x (8 * N.of_nat k) mod 256) <$> rev (seq 0 width).

Definition be_value (bs : list N) : N := fold_left (fun acc b => acc * 256 + b) bs 0.

(** Message padding: 0x80, zero bytes up to 56 modulo 64, the bit length. *)
Definition pad (msg : list N) : list N :=
  let len := length msg in
  (msg ++ [0x80] ++ replicate ((119 - len mod 64) mod 64)%nat 0
       ++ be_bytes 8 (8 * N.of_nat len))%list.

(** Consecutive groups of [size] elements; [fuel] bounds the number of groups. *)
Fixpoint chunks {A : Type} (fuel size : nat) (l : list A) : list (list A) :=
  match fuel with
  | O => []
  | S fuel' =>
      match l with
      | [] => []
      | _ => take size l :: chunks fuel' size (drop size l)
      end
  end.

Definition words_of_block (block : list N) : list N :=
  be_value <$> chunks 16 4 block.

(** Message schedule: extends the 16 block words by [n] more. *)
Fixpoint schedule (n : nat) (ws : list N) : list N :=
  match n with
  | O => ws
  | S n' =>
      let t := length ws in
      let wt := add32 (add32 (add32 (sigma1 (nth (t - 2) ws 0)) (nth (t - 7) ws 0))
                             (sigma0 (nth (t - 15) ws 0)))
                      (nth (t - 16) ws 0) in
      schedule n' (ws ++ [wt])
  end.

Definition round (s : regs) (kw : N * N) : regs :=
  let (k, w) := kw in
  let t1 := add32 (add32 (add32 (add32 (rh s) (Sigma1 (re s))) (Ch (re s) (rf s) (rg s))) k) w in
  let t2 := add32 (Sigma0 (ra s)) (Maj (ra s) (rb s) (rc s)) in
  mkRegs (add32 t1 t2) (ra s) (rb s) (rc s) (add32 (rd s) t1) (re s) (rf s) (rg s).

Definition compress (h : regs) (block : list N) : regs :=
  let ws := schedule 48 (words_of_block block) in
  let s := fold_left round (zip K ws) h in
  mkRegs (add32 (ra h) (ra s)) (add32 (rb h) (rb s)) (add32 (rc h) (rc s))
         (add32 (rd h) (rd s)) (add32 (re h) (re s)) (add32 (rf h) (rf s))
         (add32 (rg h) (rg s)) (add32 (rh h) (rh s)).

Definition regs_bytes (h : regs) : list N :=
  (be_bytes 4 (ra h) ++ be_bytes 4 (rb h) ++ be_bytes 4 (rc h) ++ be_bytes 4 (rd h)
   ++ be_bytes 4 (re h) ++ be_bytes 4 (rf h) ++ be_bytes 4 (rg h) ++ be_bytes 4 (rh h))%list.

(** [hashlib.sha256(data).digest()]. *)
Definition sha256 (data : list N) : list N :=
  let padded := pad data in
  regs_bytes (fold_left compress (chunks (length padded) 64 padded) H0).

(** One lowercase hexadecimal digit. *)
Definition hex_digit (n : N) : ascii :=
  let d := n mod 16 in
  if d <? 10 then ascii_of_N (48 + d) else ascii_of_N (87 + d).

Definition hex_byte (b : N) : string :=
  String (hex_digit (b / 16)) (String (hex_digit b) EmptyString).

(** [bytes.hex()]. *)
Definition hex (bs : list N) : string := Py.join (hex_byte <$> bs).

(** [hashlib.sha256(data).hexdigest()]. *)
Definition hexdigest (data : list N) : string := hex (sha256 data).

End hashlib.

(** ** Module [uuid] *)

Module uuid.

Local Open Scope N_scope.

(** [os.urandom(n)]. *)
Definition os_urandom (n : nat) : M (list N) :=
  replicateM n (r ← draw_urandom; mret (r mod 256)).

(** [uuid.uuid4()]: sixteen random bytes read as a big-endian integer, with
    the variant and version bits forced (the [int] field of the UUID). *)
Definition uuid4 : M N :=
  bs ← os_urandom 16;
  mret (let i := hashlib.be_value bs in
        let i := N.ldiff i (N.shiftl 0xc000 48) in
        let i := N.lor i (N.shiftl 0x8000 48) in
        let i := N.ldiff i (N.shiftl 0xf000 64) in
        N.lor i (N.shiftl 4 76)).

(** ['%032x' % i] for [i < 2 ^ 128]. *)
Definition hex32 (i : N) : string :=
  string_of_list_ascii
    ((fun k => hashlib.hex_digit (N.shiftr i (4 * N.of_nat k))) <$> rev (seq 0 32)).

(** [str(u)]: the 8-4-4-4-12 form. *)
Definition str (i : N) : string :=
  let h := hex32 i in
  Py.slice_to 8 h +:+ "-" +:+ Py.slice 8 12 h +:+ "-" +:+ Py.slice 12 16 h
    +:+ "-" +:+ Py.slice 16 20 h +:+ "-" +:+ Py.slice_from 20 h.

End uuid.

(** ** Class [eSIM] *)

Module eSIM.

Record t : Type := mk {
  imsi : string;
  iccid : string;
  msisdn : string;
  operator : string;
  profile_state : string;
  ki : string;
  opc : string;
  data_usage : Z;          (* an int; float amounts are outside this embedding *)
  data_limit : Z;
  events : list string
}.

(** Attribute assignments [self.x = v]. *)
Definition set_operator (v : string) (self : t) : t :=
  mk (imsi self) (iccid self) (msisdn self) v (profile_state self)
     (ki self) (opc self) (data_usage self) (data_limit self) (events self).

Definition set_profile_state (v : string) (self : t) : t :=
  mk (imsi self) (iccid self) (msisdn self) (operator self) v
     (ki self) (opc self) (data_usage self) (data_limit self) (events self).

Definition set_data_usage (v : Z) (self : t) : t :=
  mk (imsi self) (iccid self) (msisdn self) (operator self) (profile_state self)
     (ki self) (opc self) v (data_limit self) (events self).

Definition set_events (v : list string) (self : t) : t :=
  mk (imsi self) (iccid self) (msisdn self) (operator self) (profile_state self)
     (ki self) (opc self) (data_usage self) (data_limit self) v.

(** The text [log_event] stores for a description read at time [timestamp]. *)
Definition entry (timestamp description : string) : string :=
  "[" +:+ timestamp +:+ "] " +:+ description.

Definition log_event (description : string) (self : t) : M t :=
  timestamp ← now;
  mret (set_events (events self ++ [entry timestamp description]) self).

(** [str(d)] below is the numeral itself: [d] has one digit, far from the
    conversion limit. *)
Definition random_digits (n : nat) : M string :=
  ds ← replicateM n (d ← random.randint 0 9; mret (Py.decimal d));
  mret (Py.join ds).

Definition _generate_imsi : M string :=
  let mcc := "208" in
  let mnc := "01" in
  msin ← random_digits 10;
  mret (mcc +:+ mnc +:+ msin).

Definition _generate_iccid : M string :=
  let iin := "8933" in
  ccn ← random_digits 15;
  mret (iin +:+ ccn).

Definition _generate_msisdn : M string :=
  ds ← random_digits 8;
  mret ("336" +:+ ds).

Definition _generate_auth_key : M string :=
  u ← uuid.uuid4;
  mret (Py.slice_to 32 (hashlib.hexdigest (Py.encode (uuid.str u)))).

Definition __init__ (imsi iccid msisdn operator : option string) : M t :=
  imsi ← or_else imsi _generate_imsi;
  iccid ← or_else iccid _generate_iccid;
  msisdn ← or_else msisdn _generate_msisdn;
  operator ← or_else operator (mret "OpérateurDemo");
  ki ← _generate_auth_key;
  opc ← _generate_auth_key;
  log_event "Création de l'eSIM"
    (mk imsi iccid msisdn operator "Inactive" ki opc 0 10000 []).

Definition activate (self : t) : M (bool * t) :=
  if negb (String.eqb (profile_state self) "Active") then
    self ← log_event "Activation du profil" (set_profile_state "Active" self);
    mret (true, self)
  else mret (false, self).

Definition deactivate (self : t) : M (bool * t) :=
  if negb (String.eqb (profile_state self) "Inactive") then
    self ← log_event "Désactivation du profil" (set_profile_state "Inactive" self);
    mret (true, self)
  else mret (false, self).

Definition disable (self : t) : M (bool * t) :=
  if negb (String.eqb (profile_state self) "Disabled") then
    self ← log_event "Désactivation définitive du profil"
             (set_profile_state "Disabled" self);
    mret (true, self)
  else mret (false, self).

(** [add_data_usage], for an int [amount]: whether the call returns or
    raises, and the object as the call leaves it.  The counter is updated
    first; the f-string is evaluated next, and raises [ValueError] when
    [amount] is beyond the conversion limit, so that nothing is logged. *)
Definition add_data_usage_call (amount : Z) (self : t) : M (Py.result unit * t) :=
  let self := set_data_usage (data_usage self + amount) self in
  match Py.str_int amount with
  | Py.Ok text =>
      self ← log_event ("Consommation de " +:+ text +:+ " Mo de données") self;
      mret (Py.Ok tt, self)
  | Py.ValueError => mret (Py.ValueError, self)
  end.

(** The object as [add_data_usage] leaves it. *)
Definition add_data_usage (amount : Z) (self : t) : M t :=
  out ← add_data_usage_call amount self; mret out.2.

(** [reset_data_usage]: whether the call returns or raises, and the object
    as the call leaves it.  The counter is set to 0 before the f-string is
    evaluated, which raises [ValueError] when the old value is beyond the
    conversion limit. *)
Definition reset_data_usage_call (self : t) : M (Py.result unit * t) :=
  let old_usage := data_usage self in
  let self := set_data_usage 0 self in
  match Py.str_int old_usage with
  | Py.Ok text =>
      self ← log_event ("Réinitialisation du compteur de données (ancien: "
                          +:+ text +:+ " Mo)") self;
      mret (Py.Ok tt, self)
  | Py.ValueError => mret (Py.ValueError, self)
  end.

(** The object as [reset_data_usage] leaves it. *)
Definition reset_data_usage (self : t) : M t :=
  out ← reset_data_usage_call self; mret out.2.

Definition change_operator (new_operator : string) (self : t) : M t :=
  let old_operator := operator self in
  log_event ("Changement d'opérateur: " +:+ old_operator +:+ " -> " +:+ new_operator)
    (set_operator new_operator self).

End eSIM.

(** ** Class [eSIMManagerApp]

    Only the state the commands act on is kept: the objects created so far
    (the [store]), the list [esims] of references to them, and the reference
    [selected_esim].  Widgets, message boxes and dialogs are presentation: the
    answer a dialog returns is an argument of the command that opens it, and
    the refresh calls ([update_esim_list], [update_esim_details],
    [update_history]) read the state without changing it.  A handler is
    embedded as the state it leaves: an exception raised by a method or by a
    refresh call leaves through the handler after the changes made so far,
    and those are what the embedding keeps.  Where the class
    defines a method twice, the later definition is the one bound to the name
    and is the one embedded; both definitions of [create_new_esim],
    [change_operator] and [reset_data] act alike on this state. *)

Module eSIMManagerApp.

(** A reference to an [eSIM] object: its position in the store. *)
Definition ref : Type := nat.

Record t : Type := mk {
  store : list eSIM.t;
  esims : list ref;
  selected_esim : option ref
}.

Definition set_store (v : list eSIM.t) (self : t) : t :=
  mk v (esims self) (selected_esim self).
Definition set_esims (v : list ref) (self : t) : t :=
  mk (store self) v (selected_esim self).
Definition set_selected_esim (v : option ref) (self : t) : t :=
  mk (store self) (esims self) v.

(** Object creation: the new object gets the next free position. *)
Definition alloc (e : eSIM.t) (self : t) : ref * t :=
  (length (store self), set_store (store self ++ [e]) self).

(** [r.method(...)] for a method returning [None]: the object behind [r]
    is replaced by its mutated version.  References are created by [alloc]
    only, so the lookup finds the object. *)
Definition call (r : ref) (method : eSIM.t -> M eSIM.t) (self : t) : M t :=
  match store self !! r with
  | Some e => e' ← method e; mret (set_store (<[r := e']> (store self)) self)
  | None => mret self
  end.

(** [r.method(...)] for a method returning a [bool]. *)
Definition call_bool (r : ref) (method : eSIM.t -> M (bool * eSIM.t)) (self : t)
  : M (bool * t) :=
  match store self !! r with
  | Some e =>
      '(b, e') ← method e;
      mret (b, set_store (<[r := e']> (store self)) self)
  | None => mret (false, self)
  end.

(** [eSIM(operator=operator)]. *)
Definition new_eSIM (operator : string) (self : t) : M (ref * t) :=
  e ← eSIM.__init__ None None None (Some operator);
  mret (alloc e self).

(** The amounts 1250 and 450 are formatted without error, so both calls of
    [add_data_usage] return and the method runs to its end. *)
Definition create_demo_esims (self : t) : M t :=
  '(esim1, self) ← new_eSIM "Orange" self;
  '(_, self) ← call_bool esim1 eSIM.activate self;
  self ← call esim1 (eSIM.add_data_usage 1250) self;
  '(esim2, self) ← new_eSIM "SFR" self;
  '(esim3, self) ← new_eSIM "Bouygues Telecom" self;
  '(_, self) ← call_bool esim3 eSIM.activate self;
  self ← call esim3 (eSIM.add_data_usage 450) self;
  mret (set_esims [esim1; esim2; esim3] self).

(** [on_esim_select], with [curselection] the tuple the listbox reports
    (positions of the highlighted rows, hence natural numbers).
    [try_select] is the part of the [try] body that decides the selection:
    the two subscripts, either of which may raise [IndexError], and the
    assignment.  The refresh calls that follow in the [try] body do not
    change this state; should one of them raise (an [OverflowError] or a
    [ValueError] while the details are formatted), the exception is not one
    the handler catches and the assignment stands.  [on_esim_select] is the
    state the handler leaves: [except (IndexError, KeyError): pass] keeps the
    state when a subscript raised. *)
Definition try_select (curselection : list N) (self : t) : Py.raising t :=
  match Py.getitem curselection 0 with
  | Py.Returns index =>
      match Py.getitem (esims self) (Z.of_N index) with
      | Py.Returns r => Py.Returns (set_selected_esim (Some r) self)
      | Py.IndexError => Py.IndexError
      end
  | Py.IndexError => Py.IndexError
  end.

Definition on_esim_select (curselection : list N) (self : t) : t :=
  match try_select curselection self with
  | Py.Returns self' => self'
  | Py.IndexError => self
  end.

(** The [bool] tells which branch of the [if] reported to the user. *)
Definition activate_esim (self : t) : M t :=
  match selected_esim self with
  | None => mret self
  | Some r => '(_, self) ← call_bool r eSIM.activate self; mret self
  end.

Definition deactivate_esim (self : t) : M t :=
  match selected_esim self with
  | None => mret self
  | Some r => '(_, self) ← call_bool r eSIM.deactivate self; mret self
  end.

(** [confirm] is the answer to the yes/no question. *)
Definition disable_esim (confirm : bool) (self : t) : M t :=
  match selected_esim self with
  | None => mret self
  | Some r =>
      if negb confirm then mret self
      else '(_, self) ← call_bool r eSIM.disable self; mret self
  end.

(** [answer] is what [simpledialog.askstring] returned ([None] on cancel). *)
Definition create_new_esim (answer : option string) (self : t) : M t :=
  match answer with
  | Some operator =>
      if Py.truthy answer then
        '(new_esim, self) ← new_eSIM operator self;
        mret (set_selected_esim (Some new_esim)
                (set_esims (esims self ++ [new_esim]) self))
      else mret self
  | None => mret self
  end.

Definition change_operator (answer : option string) (self : t) : M t :=
  match selected_esim self with
  | None => mret self
  | Some r =>
      match answer with
      | Some new_operator =>
          if Py.truthy answer then call r (eSIM.change_operator new_operator) self
          else mret self
      | None => mret self
      end
  end.

Definition reset_data (self : t) : M t :=
  match selected_esim self with
  | None => mret self
  | Some r => call r eSIM.reset_data_usage self
  end.

(** The ticker, as bound to the name [simulate_data_usage] (the second
    definition).  Re-arming the timer with [root.after] belongs to the
    toolkit; one call of this function is one firing. *)
Definition simulate_data_usage (self : t) : M t :=
  match selected_esim self with
  | None => mret self
  | Some r =>
      match store self !! r with
      | Some e =>
          if String.eqb (eSIM.profile_state e) "Active" then
            used_data ← random.randint 1 20;
            call r (eSIM.add_data_usage used_data) self
          else mret self
      | None => mret self
      end
  end.

(** The state part of [__init__]: the demonstration objects, the initial
    selection, and the first firing of the ticker. *)
Definition __init__ : M t :=
  self ← create_demo_esims (mk [] [] None);
  let self :=
    match esims self with
    | r :: _ => set_selected_esim (Some r) self
    | [] => set_selected_esim None self
    end in
  simulate_data_usage self.

(** *** What the refresh methods put on screen

    The widgets are not part of the state above; each refresh is embedded as
    the content it gives its widget. *)

(** The row [update_esim_list] inserts for one profile. *)
Definition row (e : eSIM.t) : string :=
  eSIM.operator e +:+ " (" +:+ eSIM.profile_state e +:+ ")".

(** [update_esim_list]: the rows of the listbox, emptied and filled again
    from [esims]. *)
Definition update_esim_list (self : t) : list string :=
  omap (fun r => row <$> store self !! r) (esims self).

(** [update_history]: the text of the history widget, given what it held;
    without a selection the method returns before touching the widget,
    otherwise the text is emptied and every event is inserted, each followed
    by a line feed. *)
Definition update_history (history_text : string) (self : t) : string :=
  match selected_esim self with
  | None => history_text
  | Some r =>
      match store self !! r with
      | Some e =>
          Py.join ((fun event => event +:+ String (ascii_of_nat 10) "") <$> eSIM.events e)
      | None => history_text
      end
  end.

(** The form under which [update_esim_details] shows a key (both for Ki and
    for OPc): [key[:8]], three dots, [key[-8:]]. *)
Definition masked_key (key : string) : string :=
  Py.slice_to 8 key +:+ "..." +:+ Py.slice_last 8 key.

End eSIMManagerApp.

(** ** Vocabulary of the statements *)

Local Open Scope list_scope.

(** The timestamp the next [log_event] will read, and the world after it. *)
Definition stamp (w : World) : string := (now w).1.
Definition after_now (w : World) : World := (now w).2.

(** The outcome of the next [random] draw, and the world after it. *)
Definition after_draw (w : World) : World := (draw_prng w).2.

(** Everything a profile has besides its state, operator, usage and log. *)
Definition same_identity (e e' : eSIM.t) : Prop :=
  eSIM.imsi e' = eSIM.imsi e /\ eSIM.iccid e' = eSIM.iccid e /\
  eSIM.msisdn e' = eSIM.msisdn e /\ eSIM.ki e' = eSIM.ki e /\
  eSIM.opc e' = eSIM.opc e /\ eSIM.data_limit e' = eSIM.data_limit e.

(** [needle in hay]. *)
Definition contains (needle hay : string) : Prop :=
  exists pre post : string, hay = pre +:+ needle +:+ post.

(** A concrete world, for examples: the raw outcomes are arithmetic
    progressions and the clock reads t0, t1, t2, ... *)
Definition sample_world : World :=
  mkWorld (mkSource (fun n => N.of_nat n * 7 + 3)%N 0)
          (mkSource (fun n => N.of_nat n * 37 + 11)%N 0)
          (mkSource (fun n => "t" +:+ Py.decimal (Z.of_nat n)) 0).

(** A concrete profile: the one [eSIM(operator="SFR")] builds there. *)
Definition sample_profile : eSIM.t :=
  Eval vm_compute in (eSIM.__init__ None None None (Some "SFR") sample_world).1.

(** The same profile once [disable()] has been called on it. *)
Definition sample_disabled : eSIM.t :=
  Eval vm_compute in (eSIM.disable sample_profile sample_world).1.2.

(** "A negative amount is refused": usage and log stay as they were. *)
Definition refuses_negative_usage (e : eSIM.t) (w : World) (amount : Z) : Prop :=
  (amount < 0)%Z ->
  eSIM.data_usage (eSIM.add_data_usage amount e w).1 = eSIM.data_usage e
  /\ eSIM.events (eSIM.add_data_usage amount e w).1 = eSIM.events e.

(** "An empty operator name is refused": the profile stays as it was. *)
Definition refuses_empty_operator (e : eSIM.t) (w : World) : Prop :=
  (eSIM.change_operator "" e w).1 = e.

(** Character classes and the shapes of the identifiers. *)
Definition is_digit (c : ascii) : bool :=
  let n := N_of_ascii c in ((48 <=? n) && (n <=? 57))%N.

Definition is_lower_hex (c : ascii) : bool :=
  let n := N_of_ascii c in
  (((48 <=? n) && (n <=? 57)) || ((97 <=? n) && (n <=? 102)))%N.

Fixpoint all_chars (p : ascii -> bool) (s : string) : bool :=
  match s with
  | EmptyString => true
  | String c s' => p c && all_chars p s'
  end.

(** What is left of [s] after the prefix [p], if [s] starts with [p]. *)
Fixpoint strip_prefix (p s : string) : option string :=
  match p with
  | EmptyString => Some s
  | String a p' =>
      match s with
      | EmptyString => None
      | String b s' => if Ascii.eqb a b then strip_prefix p' s' else None
      end
  end.

(** [re.fullmatch(prefix + r"[0-9]{n}", s)], for a literal [prefix]. *)
Definition prefix_then_digits (prefix : string) (n : nat) (s : string) : bool :=
  match strip_prefix prefix s with
  | Some rest => Nat.eqb (String.length rest) n && all_chars is_digit rest
  | None => false
  end.

(** [re.fullmatch(r"[0-9a-f]{n}", s)]. *)
Definition lower_hex_of_length (n : nat) (s : string) : bool :=
  Nat.eqb (String.length s) n && all_chars is_lower_hex s.

(** A string made of one decimal digit. *)
Definition one_digit (s : string) : Prop :=
  exists c : ascii, s = String c EmptyString /\ is_digit c = true.

(** The shapes, gathered in the vocabulary of the regular expressions. *)
Definition imsi_ok (s : string) : Prop :=
  prefix_then_digits "208" 12 s = true
  /\ prefix_then_digits "20801" 10 s = true
  /\ String.length s = 15.

Definition iccid_ok (s : string) : Prop :=
  prefix_then_digits "8933" 15 s = true /\ String.length s = 19.

Definition msisdn_ok (s : string) : Prop :=
  prefix_then_digits "336" 8 s = true /\ String.length s = 11.

(** The application state [eSIMManagerApp(root)] starts from there: three
    profiles (Orange, SFR, Bouygues Telecom), the first one selected. *)
Definition sample_app : eSIMManagerApp.t :=
  Eval vm_compute in (eSIMManagerApp.__init__ sample_world).1.

(** The first object of that state (Orange: active, selected) and its third one
    (Bouygues Telecom: active, not selected). *)
Definition sample_first : eSIM.t :=
  Eval vm_compute in nth 0 (eSIMManagerApp.store sample_app) sample_profile.

Definition sample_third : eSIM.t :=
  Eval vm_compute in nth 2 (eSIMManagerApp.store sample_app) sample_profile.

(** The registry with no profile. *)
Definition empty_app : eSIMManagerApp.t := eSIMManagerApp.mk [] [] None.

(** The object [selected_esim] refers to. *)
Definition selected_profile (app : eSIMManagerApp.t) : option eSIM.t :=
  match eSIMManagerApp.selected_esim app with
  | Some r => eSIMManagerApp.store app !! r
  | None => None
  end.

(** The amount the next firing of the ticker draws. *)
Definition tick_amount (w : World) : Z := (random.randint 1 20 w).1.


(** *** The public surface, as commands

    A method of an [eSIM] object may be called on any object ([Direct]); the
    other commands are the handlers and the ticker of the application.
    Amounts are ints.  A command leaves the state its call leaves, also when
    the call raises ([add_data_usage] and [reset_data_usage] beyond the
    conversion limit): a run is then what a caller that goes on after the
    exception observes. *)

Inductive method : Type :=
| Activate
| Deactivate
| Disable
| AddDataUsage (amount : Z)
| ResetDataUsage
| ChangeOperator (new_operator : string)
| LogEvent (description : string).

Definition invoke (m : method) (e : eSIM.t) : M eSIM.t :=
  match m with
  | Activate => out ← eSIM.activate e; mret out.2
  | Deactivate => out ← eSIM.deactivate e; mret out.2
  | Disable => out ← eSIM.disable e; mret out.2
  | AddDataUsage amount => eSIM.add_data_usage amount e
  | ResetDataUsage => eSIM.reset_data_usage e
  | ChangeOperator new_operator => eSIM.change_operator new_operator e
  | LogEvent description => eSIM.log_event description e
  end.

Inductive command : Type :=
| Direct (r : eSIMManagerApp.ref) (m : method)
| OnEsimSelect (curselection : list N)
| ActivateEsim
| DeactivateEsim
| DisableEsim (confirm : bool)
| CreateNewEsim (answer : option string)
| ChangeOperatorOfSelected (answer : option string)
| ResetData
| SimulateDataUsage.

Definition step (c : command) (app : eSIMManagerApp.t) : M eSIMManagerApp.t :=
  match c with
  | Direct r m => eSIMManagerApp.call r (invoke m) app
  | OnEsimSelect curselection => mret (eSIMManagerApp.on_esim_select curselection app)
  | ActivateEsim => eSIMManagerApp.activate_esim app
  | DeactivateEsim => eSIMManagerApp.deactivate_esim app
  | DisableEsim confirm => eSIMManagerApp.disable_esim confirm app
  | CreateNewEsim answer => eSIMManagerApp.create_new_esim answer app
  | ChangeOperatorOfSelected answer => eSIMManagerApp.change_operator answer app
  | ResetData => eSIMManagerApp.reset_data app
  | SimulateDataUsage => eSIMManagerApp.simulate_data_usage app
  end.

Fixpoint run (cs : list command) (app : eSIMManagerApp.t) : M eSIMManagerApp.t :=
  match cs with
  | [] => mret app
  | c :: cs' => app' ← step c app; run cs' app'
  end.

(** Every object holds a non-negative [data_usage]. *)
Definition usage_nonneg (app : eSIMManagerApp.t) : Prop :=
  Forall (fun e => (0 <= eSIM.data_usage e)%Z) (eSIMManagerApp.store app).

(** No object of [s] has a larger [data_usage] than it has in [s']. *)
Definition usage_le (s s' : list eSIM.t) : Prop :=
  forall (r : eSIMManagerApp.ref) (e : eSIM.t),
    s !! r = Some e ->
    exists e' : eSIM.t, s' !! r = Some e' /\ (eSIM.data_usage e <= eSIM.data_usage e')%Z.

(** Commands that pass no negative amount to [add_data_usage]. *)
Definition method_benign (m : method) : Prop :=
  match m with
  | AddDataUsage amount => (0 <= amount)%Z
  | _ => True
  end.

Definition benign (c : command) : Prop :=
  match c with
  | Direct _ m => method_benign m
  | _ => True
  end.

(** Commands that reset the counter. *)
Definition method_is_reset (m : method) : bool :=
  match m with
  | ResetDataUsage => true
  | _ => false
  end.

Definition is_reset (c : command) : bool :=
  match c with
  | Direct _ m => method_is_reset m
  | ResetData => true
  | _ => false
  end.

(** The three ways a command can leave the store. *)
Inductive store_change (c : command) (s s' : list eSIM.t) : Prop :=
| Untouched : s' = s -> store_change c s s'
| Created (e : eSIM.t) : s' = s ++ [e] -> eSIM.data_usage e = 0%Z -> store_change c s s'
| Invoked (r : nat) (e : eSIM.t) (m : method) (w0 : World) :
    s !! r = Some e ->
    s' = <[r := (invoke m e w0).1]> s ->
    (benign c -> method_benign m) ->
    (is_reset c = false -> method_is_reset m = false) ->
    store_change c s s'.

(** *** Vocabulary of the further properties *)

(** The three states the code ever assigns. *)
Definition valid_state (s : string) : Prop :=
  s = "Inactive" \/ s = "Active" \/ s = "Disabled".

Definition states_valid (app : eSIMManagerApp.t) : Prop :=
  Forall (fun e => valid_state (eSIM.profile_state e)) (eSIMManagerApp.store app).

(** Every object carries the default limit. *)
Definition limits_default (app : eSIMManagerApp.t) : Prop :=
  Forall (fun e => eSIM.data_limit e = 10000%Z) (eSIMManagerApp.store app).

(** What [eSIM(operator=operator)] returns for a non-empty [operator]. *)
Definition fresh_profile (operator : string) (e : eSIM.t) : Prop :=
  eSIM.operator e = operator
  /\ eSIM.profile_state e = "Inactive"
  /\ eSIM.data_usage e = 0%Z
  /\ eSIM.data_limit e = 10000%Z
  /\ exists timestamp : string,
       eSIM.events e = [eSIM.entry timestamp "Création de l'eSIM"].

(** Every object of [s] is still in [s'], at the same place, related by [R]
    to what it was. *)
Definition objects_related (R : eSIM.t -> eSIM.t -> Prop) (s s' : list eSIM.t) : Prop :=
  forall (r : eSIMManagerApp.ref) (e : eSIM.t),
    s !! r = Some e -> exists e' : eSIM.t, s' !! r = Some e' /\ R e e'.

(** The log of [e'] is the log of [e] with at most one more entry. *)
Definition logged_at_most_once (e e' : eSIM.t) : Prop :=
  eSIM.events e' = eSIM.events e
  \/ exists ev : string, eSIM.events e' = eSIM.events e ++ [ev].

(** The log of [e'] starts with the log of [e]. *)
Definition log_extends (e e' : eSIM.t) : Prop :=
  exists more : list string, eSIM.events e' = eSIM.events e ++ more.

(** [esims] lists every object created so far exactly once, in creation
    order, and the selection, if any, is one of them. *)
Definition refs_sound (app : eSIMManagerApp.t) : Prop :=
  eSIMManagerApp.esims app = seq 0 (length (eSIMManagerApp.store app))
  /\ forall r : eSIMManagerApp.ref,
       eSIMManagerApp.selected_esim app = Some r ->
       r < length (eSIMManagerApp.store app).

(** The handlers that act on the selected profile, and the ticker. *)
Definition is_handler (c : command) : bool :=
  match c with
  | ActivateEsim | DeactivateEsim | DisableEsim _
  | ChangeOperatorOfSelected _ | ResetData | SimulateDataUsage => true
  | _ => false
  end.

(** How a command leaves the store: as it was, with one new object at the
    end, or with one object replaced by what a method makes of it. *)
Inductive store_effect (s s' : list eSIM.t) : Prop :=
| Kept : s' = s -> store_effect s s'
| Appended (operator : string) (e : eSIM.t) :
    s' = s ++ [e] -> fresh_profile operator e -> store_effect s s'
| Replaced (r : nat) (e : eSIM.t) (m : method) (w0 : World) :
    s !! r = Some e -> s' = <[r := (invoke m e w0).1]> s -> store_effect s s'.

(** A summary of a profile: operator, state, usage, default limit, number
    of logged events. *)
Definition profile_is (operator state : string) (usage : Z) (logged : nat)
    (e : eSIM.t) : Prop :=
  eSIM.operator e = operator
  /\ eSIM.profile_state e = state
  /\ eSIM.data_usage e = usage
  /\ eSIM.data_limit e = 10000%Z
  /\ length (eSIM.events e) = logged.

(** The test vector of FIPS 180-4 for the embedded hash. *)
Example sha256_abc :
  hashlib.hexdigest (Py.encode "abc")
  = "ba7816bf8f01cfea414140de5dae2223b00361a396177a9cb410ff61f20015ad".
Proof. vm_compute. reflexivity. Qed.

(** ** The event log *)

Lemma log_event_eq (description : string) (e : eSIM.t) (w : World) :
  eSIM.log_event description e w
  = (eSIM.set_events (eSIM.events e ++ [eSIM.entry (stamp w) description]) e,
     after_now w).
Proof.
  unfold eSIM.log_event, stamp, after_now, mbind, M_bind, mret, M_ret.
  destruct (now w) as [ts w']. reflexivity.
Qed.

Lemma same_identity_refl (e : eSIM.t) : same_identity e e.
Proof. repeat split. Qed.

Lemma string_eqb_neq (a b : string) : negb (String.eqb a b) = true <-> a <> b.
Proof.
  rewrite negb_true_iff. split.
  - intros H. apply String.eqb_neq. exact H.
  - intros H. apply String.eqb_neq. exact H.
Qed.

(** ** Transitions *)

Lemma activate_fires (e : eSIM.t) (w : World) :
  eSIM.profile_state e <> "Active" ->
  eSIM.activate e w
  = ((true, eSIM.set_events
              (eSIM.events e ++ [eSIM.entry (stamp w) "Activation du profil"])
              (eSIM.set_profile_state "Active" e)),
     after_now w).
Proof.
  intros H. unfold eSIM.activate.
  apply string_eqb_neq in H. rewrite H.
  unfold mbind, M_bind. rewrite log_event_eq. reflexivity.
Qed.

Lemma activate_idle (e : eSIM.t) (w : World) :
  eSIM.profile_state e = "Active" -> eSIM.activate e w = ((false, e), w).
Proof.
  intros H. unfold eSIM.activate. rewrite H. reflexivity.
Qed.

Lemma deactivate_fires (e : eSIM.t) (w : World) :
  eSIM.profile_state e <> "Inactive" ->
  eSIM.deactivate e w
  = ((true, eSIM.set_events
              (eSIM.events e ++ [eSIM.entry (stamp w) "Désactivation du profil"])
              (eSIM.set_profile_state "Inactive" e)),
     after_now w).
Proof.
  intros H. unfold eSIM.deactivate.
  apply string_eqb_neq in H. rewrite H.
  unfold mbind, M_bind. rewrite log_event_eq. reflexivity.
Qed.

(** C1. [activate] succeeds exactly when the state is not "Active" (so from
    "Inactive" and from "Disabled"); a successful call returns [True], sets
    the state to "Active" and appends the single event
    "[timestamp] Activation du profil", touching nothing else; on an "Active"
    profile it returns [False] and leaves the profile, log included, as it
    was. *)
Theorem C1_activate (e : eSIM.t) (w : World) :
  let ok := (eSIM.activate e w).1.1 in
  let e' := (eSIM.activate e w).1.2 in
  (ok = true <-> eSIM.profile_state e <> "Active")
  /\ (eSIM.profile_state e = "Inactive" \/ eSIM.profile_state e = "Disabled" ->
      ok = true)
  /\ (ok = true ->
      eSIM.profile_state e' = "Active"
      /\ eSIM.events e' = eSIM.events e ++ ["[" +:+ stamp w +:+ "] Activation du profil"]
      /\ eSIM.operator e' = eSIM.operator e
      /\ eSIM.data_usage e' = eSIM.data_usage e
      /\ same_identity e e')
  /\ (eSIM.profile_state e = "Active" -> ok = false /\ e' = e).
Proof.
  intros ok e'. subst ok e'.
  destruct (String.eqb_spec (eSIM.profile_state e) "Active") as [Hact | Hne].
  - rewrite (activate_idle e w Hact). cbn.
    split; [ split; [discriminate | congruence] | ].
    split; [ intros [H | H]; rewrite H in Hact; discriminate | ].
    split; [ discriminate | auto ].
  - rewrite (activate_fires e w Hne). cbn.
    split; [ split; auto | ].
    split; [ auto | ].
    split; [ intros _; repeat split | intros H; contradiction ].
Qed.

Lemma C1_activate_witness :
  (eSIM.activate sample_profile sample_world).1.1 = true
  /\ eSIM.profile_state (eSIM.activate sample_profile sample_world).1.2 = "Active"
  /\ eSIM.events (eSIM.activate sample_profile sample_world).1.2
     = ["[t0] Création de l'eSIM"; "[t0] Activation du profil"].
Proof.
  destruct (C1_activate sample_profile sample_world) as (_ & Hfrom & Hdoes & _).
  assert (Hok : (eSIM.activate sample_profile sample_world).1.1 = true)
    by (apply Hfrom; left; reflexivity).
  destruct (Hdoes Hok) as (Hstate & Hevents & _).
  split; [ exact Hok | ]. split; [ exact Hstate | ].
  rewrite Hevents. reflexivity.
Defined.

(** ** Usage and operator *)

Lemma str_int_within (n : Z) :
  Py.digits n <= 4300 -> Py.str_int n = Py.Ok (Py.decimal n).
Proof.
  intros H. unfold Py.str_int, Py.int_max_str_digits.
  replace (Nat.ltb 4300 (Py.digits n)) with false; [ reflexivity | ].
  symmetry. apply Nat.ltb_ge. exact H.
Qed.

Lemma str_int_beyond (n : Z) :
  4300 < Py.digits n -> Py.str_int n = Py.ValueError.
Proof.
  intros H. unfold Py.str_int, Py.int_max_str_digits.
  replace (Nat.ltb 4300 (Py.digits n)) with true; [ reflexivity | ].
  symmetry. apply Nat.ltb_lt. exact H.
Qed.

Lemma add_data_usage_call_returns (amount : Z) (e : eSIM.t) (w : World) :
  Py.digits amount <= 4300 ->
  eSIM.add_data_usage_call amount e w
  = ((Py.Ok tt,
      eSIM.set_events
        (eSIM.events e
           ++ [eSIM.entry (stamp w)
                 ("Consommation de " +:+ Py.decimal amount +:+ " Mo de données")])
        (eSIM.set_data_usage (eSIM.data_usage e + amount) e)),
     after_now w).
Proof.
  intros H. unfold eSIM.add_data_usage_call. rewrite (str_int_within amount H).
  unfold mbind, M_bind. rewrite log_event_eq. reflexivity.
Qed.

Lemma add_data_usage_call_raises (amount : Z) (e : eSIM.t) (w : World) :
  4300 < Py.digits amount ->
  eSIM.add_data_usage_call amount e w
  = ((Py.ValueError, eSIM.set_data_usage (eSIM.data_usage e + amount) e), w).
Proof.
  intros H. unfold eSIM.add_data_usage_call. rewrite (str_int_beyond amount H).
  reflexivity.
Qed.

Lemma add_data_usage_eq (amount : Z) (e : eSIM.t) (w : World) :
  Py.digits amount <= 4300 ->
  eSIM.add_data_usage amount e w
  = (eSIM.set_events
       (eSIM.events e
          ++ [eSIM.entry (stamp w)
                ("Consommation de " +:+ Py.decimal amount +:+ " Mo de données")])
       (eSIM.set_data_usage (eSIM.data_usage e + amount) e),
     after_now w).
Proof.
  intros H. unfold eSIM.add_data_usage, mbind, M_bind.
  rewrite (add_data_usage_call_returns amount e w H). reflexivity.
Qed.

Lemma add_data_usage_beyond (amount : Z) (e : eSIM.t) (w : World) :
  4300 < Py.digits amount ->
  eSIM.add_data_usage amount e w
  = (eSIM.set_data_usage (eSIM.data_usage e + amount) e, w).
Proof.
  intros H. unfold eSIM.add_data_usage, mbind, M_bind.
  rewrite (add_data_usage_call_raises amount e w H). reflexivity.
Qed.

Lemma reset_data_usage_call_returns (e : eSIM.t) (w : World) :
  Py.digits (eSIM.data_usage e) <= 4300 ->
  eSIM.reset_data_usage_call e w
  = ((Py.Ok tt,
      eSIM.set_events
        (eSIM.events e
           ++ [eSIM.entry (stamp w)
                 ("Réinitialisation du compteur de données (ancien: "
                    +:+ Py.decimal (eSIM.data_usage e) +:+ " Mo)")])
        (eSIM.set_data_usage 0 e)),
     after_now w).
Proof.
  intros H. unfold eSIM.reset_data_usage_call. cbv zeta.
  rewrite (str_int_within _ H).
  unfold mbind, M_bind. rewrite log_event_eq. reflexivity.
Qed.

Lemma reset_data_usage_call_raises (e : eSIM.t) (w : World) :
  4300 < Py.digits (eSIM.data_usage e) ->
  eSIM.reset_data_usage_call e w = ((Py.ValueError, eSIM.set_data_usage 0 e), w).
Proof.
  intros H. unfold eSIM.reset_data_usage_call. cbv zeta.
  rewrite (str_int_beyond _ H). reflexivity.
Qed.

Lemma reset_data_usage_eq (e : eSIM.t) (w : World) :
  Py.digits (eSIM.data_usage e) <= 4300 ->
  eSIM.reset_data_usage e w
  = (eSIM.set_events
       (eSIM.events e
          ++ [eSIM.entry (stamp w)
                ("Réinitialisation du compteur de données (ancien: "
                   +:+ Py.decimal (eSIM.data_usage e) +:+ " Mo)")])
       (eSIM.set_data_usage 0 e),
     after_now w).
Proof.
  intros H. unfold eSIM.reset_data_usage, mbind, M_bind.
  rewrite (reset_data_usage_call_returns e w H). reflexivity.
Qed.

Lemma reset_data_usage_beyond (e : eSIM.t) (w : World) :
  4300 < Py.digits (eSIM.data_usage e) ->
  eSIM.reset_data_usage e w = (eSIM.set_data_usage 0 e, w).
Proof.
  intros H. unfold eSIM.reset_data_usage, mbind, M_bind.
  rewrite (reset_data_usage_call_raises e w H). reflexivity.
Qed.

(** What [add_data_usage] and [reset_data_usage] do whether they return or
    raise. *)
Lemma add_data_usage_always (amount : Z) (e : eSIM.t) (w : World) :
  eSIM.data_usage (eSIM.add_data_usage amount e w).1 = (eSIM.data_usage e + amount)%Z
  /\ eSIM.profile_state (eSIM.add_data_usage amount e w).1 = eSIM.profile_state e
  /\ eSIM.operator (eSIM.add_data_usage amount e w).1 = eSIM.operator e
  /\ same_identity e (eSIM.add_data_usage amount e w).1
  /\ (eSIM.events (eSIM.add_data_usage amount e w).1 = eSIM.events e
      \/ exists ev, eSIM.events (eSIM.add_data_usage amount e w).1 = eSIM.events e ++ [ev]).
Proof.
  destruct (Nat.le_gt_cases (Py.digits amount) 4300) as [H | H].
  - rewrite (add_data_usage_eq amount e w H). cbn [fst].
    split; [ reflexivity | ]. split; [ reflexivity | ]. split; [ reflexivity | ].
    split; [ repeat split | right; eexists; reflexivity ].
  - rewrite (add_data_usage_beyond amount e w H). cbn [fst].
    split; [ reflexivity | ]. split; [ reflexivity | ]. split; [ reflexivity | ].
    split; [ repeat split | left; reflexivity ].
Qed.

Lemma reset_data_usage_always (e : eSIM.t) (w : World) :
  eSIM.data_usage (eSIM.reset_data_usage e w).1 = 0%Z
  /\ eSIM.profile_state (eSIM.reset_data_usage e w).1 = eSIM.profile_state e
  /\ eSIM.operator (eSIM.reset_data_usage e w).1 = eSIM.operator e
  /\ same_identity e (eSIM.reset_data_usage e w).1
  /\ (eSIM.events (eSIM.reset_data_usage e w).1 = eSIM.events e
      \/ exists ev, eSIM.events (eSIM.reset_data_usage e w).1 = eSIM.events e ++ [ev]).
Proof.
  destruct (Nat.le_gt_cases (Py.digits (eSIM.data_usage e)) 4300) as [H | H].
  - rewrite (reset_data_usage_eq e w H). cbn [fst].
    split; [ reflexivity | ]. split; [ reflexivity | ]. split; [ reflexivity | ].
    split; [ repeat split | right; eexists; reflexivity ].
  - rewrite (reset_data_usage_beyond e w H). cbn [fst].
    split; [ reflexivity | ]. split; [ reflexivity | ]. split; [ reflexivity | ].
    split; [ repeat split | left; reflexivity ].
Qed.

(** Ints of at most twenty, as the ticker draws, are formatted. *)
Lemma digits_upto_20 (k : Z) : (0 <= k <= 20)%Z -> Py.digits k <= 4300.
Proof.
  intros [Hlo Hhi].
  assert (Hk : exists n : nat, n <= 20 /\ k = Z.of_nat n)
    by (exists (Z.to_nat k); split; lia).
  destruct Hk as (n & Hn & ->).
  do 21 (destruct n as [| n]; [ vm_compute; lia | ]). lia.
Qed.

Lemma change_operator_eq (name : string) (e : eSIM.t) (w : World) :
  eSIM.change_operator name e w
  = (eSIM.set_events
       (eSIM.events e
          ++ [eSIM.entry (stamp w)
                ("Changement d'opérateur: " +:+ eSIM.operator e +:+ " -> " +:+ name)])
       (eSIM.set_operator name e),
     after_now w).
Proof. unfold eSIM.change_operator. rewrite log_event_eq. reflexivity. Qed.

(** ** Construction *)

Lemma or_else_pure (x : option string) (d : string) (w : World) :
  or_else x (mret d) w = (if Py.truthy x then default "" x else d, w).
Proof.
  unfold or_else. destruct x as [v |]; [ | reflexivity ].
  destruct (Py.truthy (Some v)); reflexivity.
Qed.

(** What [eSIM(...)] builds: state "Inactive", no usage, the default limit,
    and a log holding the creation event alone. *)
Lemma init_spec (imsi iccid msisdn operator : option string) (w : World) :
  exists (i c m k o : string) (w' : World),
    eSIM.__init__ imsi iccid msisdn operator w
    = (eSIM.mk i c m
         (if Py.truthy operator then default "" operator else "OpérateurDemo")
         "Inactive" k o 0 10000
         [eSIM.entry (stamp w') "Création de l'eSIM"],
       after_now w').
Proof.
  unfold eSIM.__init__, mbind, M_bind.
  destruct (or_else imsi eSIM._generate_imsi w) as [i w1].
  destruct (or_else iccid eSIM._generate_iccid w1) as [c w2].
  destruct (or_else msisdn eSIM._generate_msisdn w2) as [m w3].
  rewrite or_else_pure.
  destruct (eSIM._generate_auth_key w3) as [k w4].
  destruct (eSIM._generate_auth_key w4) as [o w5].
  rewrite log_event_eq.
  exists i, c, m, k, o, w5. reflexivity.
Qed.

Lemma contains_intro (pre needle post : string) : contains needle (pre +:+ needle +:+ post).
Proof. exists pre, post. reflexivity. Qed.

Lemma append_cons (ch : ascii) (a b : string) : String ch a +:+ b = String ch (a +:+ b).
Proof. reflexivity. Qed.

Lemma append_empty (b : string) : "" +:+ b = b.
Proof. reflexivity. Qed.

Lemma string_append_assoc (a b c : string) : (a +:+ b) +:+ c = a +:+ (b +:+ c).
Proof.
  induction a as [| ch a IH]; [ reflexivity | ].
  rewrite !append_cons, IH. reflexivity.
Qed.

(** C5. On a freshly built profile, [add_data_usage(1250)] then
    [add_data_usage(450)] leaves [data_usage] at 1700; [reset_data_usage()]
    then sets it to 0 and appends exactly one event, whose text carries the
    value 1700 held before the reset. *)
Theorem C5_accumulate_then_reset
    (imsi iccid msisdn operator : option string) (w : World) :
  let r0 := eSIM.__init__ imsi iccid msisdn operator w in
  let r1 := eSIM.add_data_usage 1250 r0.1 r0.2 in
  let r2 := eSIM.add_data_usage 450 r1.1 r1.2 in
  let r3 := eSIM.reset_data_usage r2.1 r2.2 in
  eSIM.data_usage r2.1 = 1700%Z
  /\ eSIM.data_usage r3.1 = 0%Z
  /\ exists ev : string,
       eSIM.events r3.1 = eSIM.events r2.1 ++ [ev]
       /\ ev = eSIM.entry (stamp r2.2)
                 "Réinitialisation du compteur de données (ancien: 1700 Mo)"
       /\ contains "1700" ev.
Proof.
  intros r0 r1 r2 r3. subst r3 r2 r1 r0.
  destruct (init_spec imsi iccid msisdn operator w) as (i & c & m & k & o & w' & ->).
  rewrite (add_data_usage_eq 1250) by (vm_compute; lia). cbn [fst snd].
  rewrite (add_data_usage_eq 450) by (vm_compute; lia). cbn [fst snd].
  rewrite reset_data_usage_eq by (vm_compute; lia). cbn.
  split; [ reflexivity | split; [ reflexivity | ] ].
  eexists. split; [ reflexivity | split; [ reflexivity | ] ].
  unfold eSIM.entry.
  exists ("[" +:+ stamp (after_now (after_now (after_now w')))
            +:+ "] Réinitialisation du compteur de données (ancien: "), " Mo)".
  rewrite !string_append_assoc. reflexivity.
Qed.

(** C4, as the code has it, for int amounts.  [add_data_usage] validates
    nothing: a negative amount is accepted like any other.  For every amount
    the f-string can format (at most 4300 digits), whatever its sign, the
    call returns, having added [amount] to [data_usage] and appended exactly
    one event, "[timestamp] Consommation de <amount> Mo de données", which
    carries the amount as supplied; state, operator, identifiers, keys and
    limit are untouched. *)
Theorem C4_add_data_usage_any_amount (amount : Z) (e : eSIM.t) (w : World) :
  Py.digits amount <= 4300 ->
  let out := eSIM.add_data_usage_call amount e w in
  let e' := out.1.2 in
  out.1.1 = Py.Ok tt
  /\ (eSIM.add_data_usage amount e w).1 = e'
  /\ eSIM.data_usage e' = (eSIM.data_usage e + amount)%Z
  /\ eSIM.events e'
     = eSIM.events e
         ++ ["[" +:+ stamp w +:+ "] Consommation de " +:+ Py.decimal amount
               +:+ " Mo de données"]
  /\ contains (Py.decimal amount)
       ("[" +:+ stamp w +:+ "] Consommation de " +:+ Py.decimal amount
          +:+ " Mo de données")
  /\ eSIM.profile_state e' = eSIM.profile_state e
  /\ eSIM.operator e' = eSIM.operator e
  /\ same_identity e e'.
Proof.
  intros Hfmt out e'. subst e' out.
  rewrite (add_data_usage_eq amount e w Hfmt).
  rewrite (add_data_usage_call_returns amount e w Hfmt). cbn [fst snd].
  split; [ reflexivity | ]. split; [ reflexivity | ]. split; [ reflexivity | ].
  split; [ reflexivity | ].
  split; [ | repeat split ].
  exists ("[" +:+ stamp w +:+ "] Consommation de "), " Mo de données".
  rewrite !string_append_assoc. reflexivity.
Qed.

Lemma C4_add_data_usage_any_amount_witness :
  (eSIM.add_data_usage_call (-5) sample_profile sample_world).1.1 = Py.Ok tt
  /\ eSIM.data_usage (eSIM.add_data_usage_call (-5) sample_profile sample_world).1.2
     = (-5)%Z
  /\ eSIM.events (eSIM.add_data_usage_call (-5) sample_profile sample_world).1.2
     = ["[t0] Création de l'eSIM"; "[t0] Consommation de -5 Mo de données"].
Proof.
  destruct (C4_add_data_usage_any_amount (-5) sample_profile sample_world)
    as (Hret & _ & Husage & Hevents & _); [ vm_compute; lia | ].
  split; [ exact Hret | ]. split; [ exact Husage | ].
  rewrite Hevents. reflexivity.
Defined.

(** C4, as stated, fails: [add_data_usage(-5)] on a fresh profile is not
    refused, it lowers [data_usage] to -5 and logs the event. *)
Lemma C4_negative_amount_accepted :
  ~ refuses_negative_usage sample_profile sample_world (-5).
Proof.
  unfold refuses_negative_usage. intros H.
  destruct H as [Husage _]; [ reflexivity | ].
  vm_compute in Husage. discriminate Husage.
Qed.

(** C8, as the code has it. [eSIM.change_operator] validates nothing: for
    every name, the empty one included, it replaces the operator and appends
    exactly one event whose text carries the old and the new operator; the
    other fields are untouched.  The emptiness guard sits in the command of
    the application, which on an empty or cancelled answer changes nothing. *)
Theorem C8_change_operator_any_name (name : string) (e : eSIM.t) (w : World) :
  let e' := (eSIM.change_operator name e w).1 in
  eSIM.operator e' = name
  /\ (exists ev : string,
        eSIM.events e' = eSIM.events e ++ [ev]
        /\ ev = eSIM.entry (stamp w)
                  ("Changement d'opérateur: " +:+ eSIM.operator e +:+ " -> " +:+ name)
        /\ contains (eSIM.operator e) ev
        /\ contains name ev)
  /\ eSIM.profile_state e' = eSIM.profile_state e
  /\ eSIM.data_usage e' = eSIM.data_usage e
  /\ same_identity e e'
  /\ (forall app : eSIMManagerApp.t,
        eSIMManagerApp.change_operator (Some "") app w = (app, w)
        /\ eSIMManagerApp.change_operator None app w = (app, w)).
Proof.
  intros e'. subst e'. rewrite change_operator_eq. cbn.
  split; [ reflexivity | ].
  split.
  { eexists. split; [ reflexivity | split; [ reflexivity | ] ].
    unfold eSIM.entry. split.
    - exists ("[" +:+ stamp w +:+ "] Changement d'opérateur: "), (" -> " +:+ name).
      rewrite !string_append_assoc. reflexivity.
    - exists ("[" +:+ stamp w +:+ "] Changement d'opérateur: " +:+ eSIM.operator e +:+ " -> "), "".
      rewrite !string_append_assoc.
      replace (name +:+ "") with name; [ reflexivity | ].
      clear. induction name as [| ch name IH]; [ reflexivity | ].
      rewrite append_cons, <- IH. reflexivity. }
  split; [ reflexivity | ].
  split; [ reflexivity | ].
  split; [ repeat split | ].
  intros app. unfold eSIMManagerApp.change_operator.
  destruct (eSIMManagerApp.selected_esim app); split; reflexivity.
Qed.

(** C8, as stated, fails: [change_operator("")] on a fresh profile is not
    refused, it blanks the operator and logs the change. *)
Lemma C8_empty_name_accepted : ~ refuses_empty_operator sample_profile sample_world.
Proof.
  unfold refuses_empty_operator. intros H.
  apply (f_equal eSIM.operator) in H.
  vm_compute in H. discriminate H.
Qed.

(** C9. "Disabled" is not terminal: on a profile in that state [activate]
    returns [True], moves it to "Active" and appends the one event
    "[timestamp] Activation du profil"; [deactivate] returns [True], moves it
    to "Inactive" and appends the one event
    "[timestamp] Désactivation du profil"; either way operator, usage,
    identifiers, keys and limit are kept.  Usage and operator changes go
    through as in any other state. *)
Theorem C9_disabled_not_terminal (e : eSIM.t) (w : World) :
  eSIM.profile_state e = "Disabled" ->
  (let out := eSIM.activate e w in
   out.1.1 = true
   /\ eSIM.profile_state out.1.2 = "Active"
   /\ eSIM.events out.1.2 = eSIM.events e ++ ["[" +:+ stamp w +:+ "] Activation du profil"]
   /\ eSIM.operator out.1.2 = eSIM.operator e
   /\ eSIM.data_usage out.1.2 = eSIM.data_usage e
   /\ same_identity e out.1.2)
  /\ (let out := eSIM.deactivate e w in
      out.1.1 = true
      /\ eSIM.profile_state out.1.2 = "Inactive"
      /\ eSIM.events out.1.2
         = eSIM.events e ++ ["[" +:+ stamp w +:+ "] Désactivation du profil"]
      /\ eSIM.operator out.1.2 = eSIM.operator e
      /\ eSIM.data_usage out.1.2 = eSIM.data_usage e
      /\ same_identity e out.1.2)
  /\ (forall amount : Z,
        eSIM.data_usage (eSIM.add_data_usage amount e w).1
        = (eSIM.data_usage e + amount)%Z)
  /\ eSIM.data_usage (eSIM.reset_data_usage e w).1 = 0%Z
  /\ (forall name : string, eSIM.operator (eSIM.change_operator name e w).1 = name).
Proof.
  intros Hdis.
  split.
  { cbv zeta. rewrite (activate_fires e w) by (rewrite Hdis; discriminate).
    cbn [fst snd]. repeat split. }
  split.
  { cbv zeta. rewrite (deactivate_fires e w) by (rewrite Hdis; discriminate).
    cbn [fst snd]. repeat split. }
  split; [ intros amount; apply add_data_usage_always | ].
  split; [ apply reset_data_usage_always | ].
  intros name. rewrite change_operator_eq. reflexivity.
Qed.

Lemma C9_disabled_not_terminal_witness :
  eSIM.profile_state sample_disabled = "Disabled"
  /\ (eSIM.activate sample_disabled sample_world).1.1 = true
  /\ eSIM.profile_state (eSIM.activate sample_disabled sample_world).1.2 = "Active"
  /\ eSIM.events (eSIM.activate sample_disabled sample_world).1.2
     = ["[t0] Création de l'eSIM"; "[t0] Désactivation définitive du profil";
        "[t0] Activation du profil"]
  /\ eSIM.profile_state (eSIM.deactivate sample_disabled sample_world).1.2 = "Inactive"
  /\ eSIM.events (eSIM.deactivate sample_disabled sample_world).1.2
     = ["[t0] Création de l'eSIM"; "[t0] Désactivation définitive du profil";
        "[t0] Désactivation du profil"].
Proof.
  assert (Hdis : eSIM.profile_state sample_disabled = "Disabled") by reflexivity.
  destruct (C9_disabled_not_terminal sample_disabled sample_world Hdis)
    as (Hact & Hdeact & _).
  destruct Hact as (Hok & Hst & Hev & _). destruct Hdeact as (_ & Hst' & Hev' & _).
  split; [ exact Hdis | ]. split; [ exact Hok | ]. split; [ exact Hst | ].
  split; [ rewrite Hev; reflexivity | ].
  split; [ exact Hst' | rewrite Hev'; reflexivity ].
Defined.

(** ** Generators *)

Lemma append_length (a b : string) :
  String.length (a +:+ b) = String.length a + String.length b.
Proof.
  induction a as [| ch a IH]; [ reflexivity | ].
  rewrite append_cons. cbn [String.length]. rewrite IH. reflexivity.
Qed.

Lemma all_chars_append (p : ascii -> bool) (a b : string) :
  all_chars p (a +:+ b) = all_chars p a && all_chars p b.
Proof.
  induction a as [| ch a IH]; [ reflexivity | ].
  rewrite append_cons. cbn [all_chars]. rewrite IH.
  destruct (p ch); reflexivity.
Qed.

Lemma strip_prefix_append (p rest : string) : strip_prefix p (p +:+ rest) = Some rest.
Proof.
  induction p as [| ch p IH]; [ reflexivity | ].
  rewrite append_cons. cbn [strip_prefix]. rewrite Ascii.eqb_refl. exact IH.
Qed.

Lemma join_cons (x : string) (l : list string) : Py.join (x :: l) = x +:+ Py.join l.
Proof.
  unfold Py.join. destruct l as [| y l]; cbn [String.concat].
  - induction x as [| ch x IH]; [ reflexivity | ].
    rewrite append_cons, <- IH. reflexivity.
  - reflexivity.
Qed.

Lemma replicateM_Forall {A : Type} (P : A -> Prop) (m : M A) :
  (forall w, P (m w).1) ->
  forall n w, Forall P (replicateM n m w).1 /\ length (replicateM n m w).1 = n.
Proof.
  intros Hm n. induction n as [| n IH]; intros w.
  - split; [ constructor | reflexivity ].
  - cbn [replicateM]. unfold mbind, M_bind, mret, M_ret.
    specialize (Hm w). destruct (m w) as [x w1]. specialize (IH w1).
    destruct (replicateM n m w1) as [xs w2]. cbn in *.
    destruct IH as [Hall Hlen]. split; [ constructor; assumption | congruence ].
Qed.

Lemma randint_digit (w : World) :
  one_digit ((d ← random.randint 0 9; mret (Py.decimal d)) w).1.
Proof.
  unfold random.randint, mbind, M_bind, mret, M_ret.
  destruct (draw_prng w) as [r w']. cbn [fst].
  assert (Hr : (0 <= Z.of_N r mod (9 - 0 + 1) < 10)%Z) by (apply Z.mod_pos_bound; lia).
  destruct Hr as [Hlo Hhi].
  set (z := (Z.of_N r mod (9 - 0 + 1))%Z) in *.
  assert (Hz : (z = 0 \/ z = 1 \/ z = 2 \/ z = 3 \/ z = 4 \/ z = 5 \/ z = 6
               \/ z = 7 \/ z = 8 \/ z = 9)%Z) by lia.
  unfold one_digit.
  destruct Hz as [-> | [-> | [-> | [-> | [-> | [-> | [-> | [-> | [-> | ->]]]]]]]]];
    eexists; split; reflexivity.
Qed.

Lemma join_digits (l : list string) :
  Forall one_digit l ->
  String.length (Py.join l) = length l /\ all_chars is_digit (Py.join l) = true.
Proof.
  induction 1 as [| x l Hx _ [IHlen IHall]]; [ split; reflexivity | ].
  destruct Hx as (c & -> & Hc).
  rewrite join_cons, append_cons. cbn [String.length all_chars length].
  change ("" +:+ Py.join l) with (Py.join l).
  rewrite IHlen, IHall, Hc. split; reflexivity.
Qed.

Lemma random_digits_spec (n : nat) (w : World) :
  String.length (eSIM.random_digits n w).1 = n
  /\ all_chars is_digit (eSIM.random_digits n w).1 = true.
Proof.
  remember (eSIM.random_digits n w) as out eqn:Eout.
  unfold eSIM.random_digits in Eout. unfold mbind at 1 in Eout. unfold M_bind at 1 in Eout.
  destruct (replicateM_Forall one_digit _ randint_digit n w) as [Hall Hlen].
  destruct (replicateM n _ w) as [ds w']. subst out. unfold mret, M_ret. cbn [fst] in *.
  destruct (join_digits ds Hall) as [Hl Hd]. rewrite Hl, Hd, Hlen. split; reflexivity.
Qed.

Lemma prefix_then_digits_intro (prefix rest : string) (n : nat) :
  String.length rest = n -> all_chars is_digit rest = true ->
  prefix_then_digits prefix n (prefix +:+ rest) = true.
Proof.
  intros Hlen Hall. unfold prefix_then_digits.
  rewrite strip_prefix_append, Hall, Hlen, Nat.eqb_refl. reflexivity.
Qed.

Lemma hex_digit_lower (n : N) : is_lower_hex (hashlib.hex_digit n) = true.
Proof.
  unfold hashlib.hex_digit, is_lower_hex.
  assert (Hd : (n mod 16 < 16)%N) by (apply N.mod_lt; discriminate).
  set (d := (n mod 16)%N) in *.
  destruct (N.ltb_spec d 10) as [Hlt | Hge].
  - rewrite N_ascii_embedding by lia.
    apply orb_true_iff. left. apply andb_true_iff. split; apply N.leb_le; lia.
  - rewrite N_ascii_embedding by lia.
    apply orb_true_iff. right. apply andb_true_iff. split; apply N.leb_le; lia.
Qed.

Lemma hex_spec (bs : list N) :
  String.length (hashlib.hex bs) = 2 * length bs
  /\ all_chars is_lower_hex (hashlib.hex bs) = true.
Proof.
  unfold hashlib.hex. induction bs as [| b bs [IHlen IHall]]; [ split; reflexivity | ].
  rewrite fmap_cons, join_cons. unfold hashlib.hex_byte at 1 3.
  rewrite !append_cons, append_empty. cbn [String.length all_chars length].
  rewrite IHlen, IHall, !hex_digit_lower. split; [ lia | reflexivity ].
Qed.

Lemma sha256_length (data : list N) : length (hashlib.sha256 data) = 32.
Proof.
  unfold hashlib.sha256.
  generalize (fold_left hashlib.compress
                (hashlib.chunks (length (hashlib.pad data)) 64 (hashlib.pad data))
                hashlib.H0).
  intros h. reflexivity.
Qed.

Lemma slice_to_spec (p : ascii -> bool) (n : nat) (s : string) :
  n <= String.length s -> all_chars p s = true ->
  String.length (Py.slice_to n s) = n /\ all_chars p (Py.slice_to n s) = true.
Proof.
  unfold Py.slice_to. revert s. induction n as [| n IH]; intros s Hlen Hall.
  - destruct s; split; reflexivity.
  - destruct s as [| c s]; [ cbn in Hlen; lia | ].
    cbn [String.length all_chars] in Hlen, Hall.
    apply andb_true_iff in Hall. destruct Hall as [Hc Hs].
    destruct (IH s ltac:(lia) Hs) as [IHlen IHall].
    cbn [String.substring String.length all_chars].
    rewrite IHlen, IHall, Hc. split; reflexivity.
Qed.

Lemma auth_key_shape (w : World) :
  lower_hex_of_length 32 (eSIM._generate_auth_key w).1 = true.
Proof.
  unfold eSIM._generate_auth_key, mbind, M_bind, mret, M_ret.
  destruct (uuid.uuid4 w) as [u w']. cbn [fst].
  unfold hashlib.hexdigest.
  destruct (hex_spec (hashlib.sha256 (Py.encode (uuid.str u)))) as [Hlen Hall].
  rewrite sha256_length in Hlen.
  destruct (slice_to_spec is_lower_hex 32 _ ltac:(rewrite Hlen; lia) Hall) as [Hl Hh].
  unfold lower_hex_of_length. rewrite Hl, Hh. reflexivity.
Qed.

Lemma imsi_shape (w : World) :
  exists msin : string,
    (eSIM._generate_imsi w).1 = "20801" +:+ msin
    /\ String.length msin = 10 /\ all_chars is_digit msin = true.
Proof.
  unfold eSIM._generate_imsi, mbind, M_bind, mret, M_ret.
  destruct (random_digits_spec 10 w) as [Hlen Hall].
  destruct (eSIM.random_digits 10 w) as [msin w']. cbn [fst] in *.
  exists msin. repeat split; assumption.
Qed.

Lemma iccid_shape (w : World) :
  exists ccn : string,
    (eSIM._generate_iccid w).1 = "8933" +:+ ccn
    /\ String.length ccn = 15 /\ all_chars is_digit ccn = true.
Proof.
  unfold eSIM._generate_iccid, mbind, M_bind, mret, M_ret.
  destruct (random_digits_spec 15 w) as [Hlen Hall].
  destruct (eSIM.random_digits 15 w) as [ccn w']. cbn [fst] in *.
  exists ccn. repeat split; assumption.
Qed.

Lemma msisdn_shape (w : World) :
  exists ds : string,
    (eSIM._generate_msisdn w).1 = "336" +:+ ds
    /\ String.length ds = 8 /\ all_chars is_digit ds = true.
Proof.
  unfold eSIM._generate_msisdn, mbind, M_bind, mret, M_ret.
  destruct (random_digits_spec 8 w) as [Hlen Hall].
  destruct (eSIM.random_digits 8 w) as [ds w']. cbn [fst] in *.
  exists ds. repeat split; assumption.
Qed.

Lemma imsi_generated_ok (w : World) : imsi_ok (eSIM._generate_imsi w).1.
Proof.
  destruct (imsi_shape w) as (msin & -> & Hlen & Hall).
  split; [ | split ].
  - change ("20801" +:+ msin) with ("208" +:+ ("01" +:+ msin)).
    apply prefix_then_digits_intro.
    + rewrite append_length, Hlen. reflexivity.
    + rewrite all_chars_append, Hall. reflexivity.
  - apply prefix_then_digits_intro; assumption.
  - rewrite append_length, Hlen. reflexivity.
Qed.

Lemma iccid_generated_ok (w : World) : iccid_ok (eSIM._generate_iccid w).1.
Proof.
  destruct (iccid_shape w) as (ccn & -> & Hlen & Hall).
  split.
  - apply prefix_then_digits_intro; assumption.
  - rewrite append_length, Hlen. reflexivity.
Qed.

Lemma msisdn_generated_ok (w : World) : msisdn_ok (eSIM._generate_msisdn w).1.
Proof.
  destruct (msisdn_shape w) as (ds & -> & Hlen & Hall).
  split.
  - apply prefix_then_digits_intro; assumption.
  - rewrite append_length, Hlen. reflexivity.
Qed.

Lemma or_else_None (d : M string) : or_else None d = d.
Proof. reflexivity. Qed.

(** The identifiers and keys of a profile built without explicit identifiers
    are what the generators returned, each in the world left by the previous
    one. *)
Lemma init_generated_fields (operator : option string) (w : World) :
  exists w1 w2 w3 w4 : World,
    let e := (eSIM.__init__ None None None operator w).1 in
    eSIM.imsi e = (eSIM._generate_imsi w).1
    /\ eSIM.iccid e = (eSIM._generate_iccid w1).1
    /\ eSIM.msisdn e = (eSIM._generate_msisdn w2).1
    /\ eSIM.ki e = (eSIM._generate_auth_key w3).1
    /\ eSIM.opc e = (eSIM._generate_auth_key w4).1.
Proof.
  unfold eSIM.__init__, mbind, M_bind. rewrite !or_else_None.
  destruct (eSIM._generate_imsi w) as [i w1]. exists w1.
  destruct (eSIM._generate_iccid w1) as [c w2]. exists w2.
  destruct (eSIM._generate_msisdn w2) as [m w3]. exists w3.
  rewrite or_else_pure.
  destruct (eSIM._generate_auth_key w3) as [k w4]. exists w4.
  destruct (eSIM._generate_auth_key w4) as [o w5].
  rewrite log_event_eq. repeat split.
Qed.

(** C6. Whatever the random sources produce, the generated IMSI is "208"
    followed by 12 digits (15 characters, starting with "20801"), the ICCID
    is "8933" followed by 15 digits (19 characters), the MSISDN is "336"
    followed by 8 digits (11 characters), and an authentication key is 32
    lowercase hexadecimal characters; so are the five fields of a profile
    built without explicit identifiers. *)
Theorem C6_generated_shapes (w : World) :
  imsi_ok (eSIM._generate_imsi w).1
  /\ iccid_ok (eSIM._generate_iccid w).1
  /\ msisdn_ok (eSIM._generate_msisdn w).1
  /\ lower_hex_of_length 32 (eSIM._generate_auth_key w).1 = true
  /\ forall operator : option string,
       let e := (eSIM.__init__ None None None operator w).1 in
       imsi_ok (eSIM.imsi e) /\ iccid_ok (eSIM.iccid e) /\ msisdn_ok (eSIM.msisdn e)
       /\ lower_hex_of_length 32 (eSIM.ki e) = true
       /\ lower_hex_of_length 32 (eSIM.opc e) = true.
Proof.
  split; [ apply imsi_generated_ok | ].
  split; [ apply iccid_generated_ok | ].
  split; [ apply msisdn_generated_ok | ].
  split; [ apply auth_key_shape | ].
  intros operator e. subst e.
  destruct (init_generated_fields operator w) as (w1 & w2 & w3 & w4 & Hfields).
  destruct Hfields as (-> & -> & -> & -> & ->).
  split; [ apply imsi_generated_ok | ].
  split; [ apply iccid_generated_ok | ].
  split; [ apply msisdn_generated_ok | ].
  split; apply auth_key_shape.
Qed.

(** ** The store *)

Lemma call_eq (r : eSIMManagerApp.ref) (method : eSIM.t -> M eSIM.t)
    (app : eSIMManagerApp.t) (e : eSIM.t) (w : World) :
  eSIMManagerApp.store app !! r = Some e ->
  eSIMManagerApp.call r method app w
  = (eSIMManagerApp.set_store (<[r := (method e w).1]> (eSIMManagerApp.store app)) app,
     (method e w).2).
Proof.
  intros Hr. unfold eSIMManagerApp.call. rewrite Hr.
  unfold mbind, M_bind, mret, M_ret. destruct (method e w) as [e' w']. reflexivity.
Qed.

Lemma call_dangling (r : eSIMManagerApp.ref) (method : eSIM.t -> M eSIM.t)
    (app : eSIMManagerApp.t) (w : World) :
  eSIMManagerApp.store app !! r = None ->
  eSIMManagerApp.call r method app w = (app, w).
Proof. intros Hr. unfold eSIMManagerApp.call. rewrite Hr. reflexivity. Qed.

Lemma call_bool_eq (r : eSIMManagerApp.ref) (method : eSIM.t -> M (bool * eSIM.t))
    (app : eSIMManagerApp.t) (e : eSIM.t) (w : World) :
  eSIMManagerApp.store app !! r = Some e ->
  eSIMManagerApp.call_bool r method app w
  = (((method e w).1.1,
      eSIMManagerApp.set_store (<[r := (method e w).1.2]> (eSIMManagerApp.store app)) app),
     (method e w).2).
Proof.
  intros Hr. unfold eSIMManagerApp.call_bool. rewrite Hr.
  unfold mbind, M_bind, mret, M_ret. destruct (method e w) as [[b e'] w']. reflexivity.
Qed.

Lemma call_bool_dangling (r : eSIMManagerApp.ref) (method : eSIM.t -> M (bool * eSIM.t))
    (app : eSIMManagerApp.t) (w : World) :
  eSIMManagerApp.store app !! r = None ->
  eSIMManagerApp.call_bool r method app w = ((false, app), w).
Proof. intros Hr. unfold eSIMManagerApp.call_bool. rewrite Hr. reflexivity. Qed.

(** ** The ticker *)

Lemma tick_amount_range (w : World) : (1 <= tick_amount w <= 20)%Z.
Proof.
  unfold tick_amount, random.randint, mbind, M_bind, mret, M_ret.
  destruct (draw_prng w) as [raw w']. cbn [fst].
  assert (H : (0 <= Z.of_N raw mod (20 - 1 + 1) < 20 - 1 + 1)%Z)
    by (apply Z.mod_pos_bound; lia).
  lia.
Qed.


Lemma randint_eq (w : World) :
  random.randint 1 20 w = (tick_amount w, after_draw w).
Proof.
  unfold tick_amount, after_draw, random.randint, mbind, M_bind, mret, M_ret.
  destruct (draw_prng w) as [raw w']. reflexivity.
Qed.

(** One firing, case by case. *)
Lemma simulate_fires (app : eSIMManagerApp.t) (w : World)
    (r : eSIMManagerApp.ref) (e : eSIM.t) :
  eSIMManagerApp.selected_esim app = Some r ->
  eSIMManagerApp.store app !! r = Some e ->
  eSIM.profile_state e = "Active" ->
  eSIMManagerApp.simulate_data_usage app w
  = (eSIMManagerApp.set_store
       (<[r := (eSIM.add_data_usage (tick_amount w) e (after_draw w)).1]>
          (eSIMManagerApp.store app)) app,
     after_now (after_draw w)).
Proof.
  intros Hsel Hr Hact. unfold eSIMManagerApp.simulate_data_usage.
  rewrite Hsel, Hr, Hact, String.eqb_refl.
  unfold mbind, M_bind. rewrite randint_eq.
  rewrite (call_eq r _ app e _ Hr).
  rewrite add_data_usage_eq
    by (apply digits_upto_20; pose proof (tick_amount_range w); lia).
  reflexivity.
Qed.

Lemma simulate_idle (app : eSIMManagerApp.t) (w : World) :
  (forall r e, eSIMManagerApp.selected_esim app = Some r ->
               eSIMManagerApp.store app !! r = Some e ->
               eSIM.profile_state e <> "Active") ->
  eSIMManagerApp.simulate_data_usage app w = (app, w).
Proof.
  intros Hidle. unfold eSIMManagerApp.simulate_data_usage.
  destruct (eSIMManagerApp.selected_esim app) as [r |]; [ | reflexivity ].
  destruct (eSIMManagerApp.store app !! r) as [e |] eqn:Hr; [ | reflexivity ].
  specialize (Hidle r e eq_refl Hr).
  apply String.eqb_neq in Hidle. rewrite Hidle. reflexivity.
Qed.

Lemma add_data_usage_frame (amount : Z) (e : eSIM.t) (w : World) :
  Py.digits amount <= 4300 ->
  let e' := (eSIM.add_data_usage amount e w).1 in
  eSIM.data_usage e' = (eSIM.data_usage e + amount)%Z
  /\ eSIM.events e'
     = eSIM.events e
         ++ ["[" +:+ stamp w +:+ "] Consommation de " +:+ Py.decimal amount
               +:+ " Mo de données"]
  /\ eSIM.profile_state e' = eSIM.profile_state e
  /\ eSIM.operator e' = eSIM.operator e
  /\ same_identity e e'.
Proof.
  intros Hdigits e'. subst e'. rewrite add_data_usage_eq by exact Hdigits.
  repeat split.
Qed.

Lemma tick_amount_digits (w : World) : Py.digits (tick_amount w) <= 4300.
Proof. apply digits_upto_20. pose proof (tick_amount_range w). lia. Qed.

(** C10. One firing of the ticker keeps the list [esims], the reference
    [selected_esim] and the number of objects; every object other than the
    selected one is untouched; the selected one is untouched unless its state
    is "Active", in which case its [data_usage] grows by an integer between 1
    and 20, its log gains exactly one event, and its state, operator,
    identifiers, keys and limit stay as they were. *)
Theorem C10_ticker_frame (app : eSIMManagerApp.t) (w : World) :
  let app' := (eSIMManagerApp.simulate_data_usage app w).1 in
  eSIMManagerApp.esims app' = eSIMManagerApp.esims app
  /\ eSIMManagerApp.selected_esim app' = eSIMManagerApp.selected_esim app
  /\ length (eSIMManagerApp.store app') = length (eSIMManagerApp.store app)
  /\ (forall r : eSIMManagerApp.ref,
        eSIMManagerApp.selected_esim app <> Some r ->
        eSIMManagerApp.store app' !! r = eSIMManagerApp.store app !! r)
  /\ (forall (r : eSIMManagerApp.ref) (e : eSIM.t),
        eSIMManagerApp.selected_esim app = Some r ->
        eSIMManagerApp.store app !! r = Some e ->
        eSIM.profile_state e <> "Active" ->
        eSIMManagerApp.store app' !! r = Some e)
  /\ (forall (r : eSIMManagerApp.ref) (e : eSIM.t),
        eSIMManagerApp.selected_esim app = Some r ->
        eSIMManagerApp.store app !! r = Some e ->
        eSIM.profile_state e = "Active" ->
        exists (e' : eSIM.t) (k : Z) (ev : string),
          eSIMManagerApp.store app' !! r = Some e'
          /\ (1 <= k <= 20)%Z
          /\ eSIM.data_usage e' = (eSIM.data_usage e + k)%Z
          /\ eSIM.events e' = eSIM.events e ++ [ev]
          /\ eSIM.profile_state e' = eSIM.profile_state e
          /\ eSIM.operator e' = eSIM.operator e
          /\ same_identity e e').
Proof.
  intros app'. subst app'.
  destruct (eSIMManagerApp.selected_esim app) as [r0 |] eqn:Hsel.
  2:{ rewrite simulate_idle by (intros r e Hr; rewrite Hsel in Hr; discriminate).
      cbn [fst]. repeat split; try assumption; intros; discriminate. }
  destruct (eSIMManagerApp.store app !! r0) as [e0 |] eqn:Hr0.
  2:{ rewrite simulate_idle
        by (intros r e Hr He; rewrite Hsel in Hr; injection Hr as <-; congruence).
      cbn [fst]. repeat split; try assumption; intros r e Hr He; congruence. }
  destruct (String.eqb_spec (eSIM.profile_state e0) "Active") as [Hact | Hidle].
  - rewrite (simulate_fires app w r0 e0 Hsel Hr0 Hact). cbn [fst].
    cbn [eSIMManagerApp.set_store eSIMManagerApp.esims eSIMManagerApp.selected_esim
         eSIMManagerApp.store].
    split; [ reflexivity | ]. split; [ assumption | ].
    split; [ apply length_insert | ].
    split; [ intros r Hne; apply list_lookup_insert_ne; congruence | ].
    split; [ intros r e Hr He Hne; injection Hr as <-; congruence | ].
    intros r e Hr He _. injection Hr as <-.
    assert (e = e0) as -> by congruence.
    destruct (add_data_usage_frame (tick_amount w) e0 (after_draw w)
                (tick_amount_digits w))
      as (Husage & Hevents & Hstate & Hop & Hid).
    eexists _, (tick_amount w), _.
    split; [ apply list_lookup_insert_eq; eapply lookup_lt_Some; eassumption | ].
    split; [ apply tick_amount_range | ].
    split; [ exact Husage | ].
    split; [ exact Hevents | ].
    split; [ exact Hstate | ].
    split; [ exact Hop | exact Hid ].
  - rewrite simulate_idle
      by (intros r e Hr He; rewrite Hsel in Hr; injection Hr as <-; congruence).
    cbn [fst]. split; [ reflexivity | ]. split; [ assumption | ].
    split; [ reflexivity | ]. split; [ reflexivity | ].
    split; [ intros r e _ He _; exact He | ].
    intros r e Hr He Hact. injection Hr as <-. congruence.
Qed.

Lemma C10_ticker_frame_witness :
  exists e' : eSIM.t,
    eSIMManagerApp.store
      (eSIMManagerApp.simulate_data_usage sample_app sample_world).1 !! 0
    = Some e'
    /\ (eSIM.data_usage sample_first < eSIM.data_usage e')%Z
    /\ eSIM.operator e' = "Orange".
Proof.
  destruct (C10_ticker_frame sample_app sample_world) as (_ & _ & _ & _ & _ & Hfires).
  destruct (Hfires 0 sample_first eq_refl eq_refl eq_refl)
    as (e' & k & ev & Hlook & Hk & Husage & _ & _ & Hop & _).
  exists e'. split; [ exact Hlook | ].
  split; [ lia | rewrite Hop; reflexivity ].
Defined.





(** ** Selection and creation *)

Lemma getitem_head {A : Type} (x : A) (l : list A) : Py.getitem (x :: l) 0 = Py.Returns x.
Proof.
  unfold Py.getitem. cbn [length].
  change (0 <? 0)%Z with false. cbv iota.
  replace (Z.of_nat (S (length l)) <=? 0)%Z with false
    by (symmetry; apply Z.leb_gt; lia).
  reflexivity.
Qed.

Lemma getitem_out_of_range {A : Type} (l : list A) (i : N) :
  length l <= N.to_nat i -> Py.getitem l (Z.of_N i) = Py.IndexError.
Proof.
  intros Hge. unfold Py.getitem.
  assert (Hneg : (Z.of_N i <? 0)%Z = false) by (apply Z.ltb_ge; lia).
  rewrite Hneg. cbv zeta iota. rewrite Hneg.
  replace (Z.of_nat (length l) <=? Z.of_N i)%Z with true
    by (symmetry; apply Z.leb_le; lia).
  rewrite orb_true_r. reflexivity.
Qed.

Lemma getitem_in_range {A : Type} (l : list A) (i : N) :
  N.to_nat i < length l ->
  exists a : A, l !! N.to_nat i = Some a /\ Py.getitem l (Z.of_N i) = Py.Returns a.
Proof.
  intros Hlt. unfold Py.getitem.
  assert (Hneg : (Z.of_N i <? 0)%Z = false) by (apply Z.ltb_ge; lia).
  rewrite Hneg. cbv zeta iota. rewrite Hneg.
  replace (Z.of_nat (length l) <=? Z.of_N i)%Z with false
    by (symmetry; apply Z.leb_gt; lia).
  cbn [orb]. replace (Z.to_nat (Z.of_N i)) with (N.to_nat i) by lia.
  destruct (lookup_lt_is_Some_2 l (N.to_nat i) Hlt) as [a Ha].
  exists a. rewrite Ha. split; reflexivity.
Qed.

(** A negative subscript would count from the end; the listbox never
    reports one. *)
Remark getitem_negative_wraps : Py.getitem [10; 20; 30] (-1) = Py.Returns 30.
Proof. reflexivity. Qed.

Lemma create_new_esim_spec (operator : string) (app : eSIMManagerApp.t) (w : World) :
  Py.truthy (Some operator) = true ->
  exists (e : eSIM.t) (w' : World),
    eSIMManagerApp.create_new_esim (Some operator) app w
    = (eSIMManagerApp.mk
         (eSIMManagerApp.store app ++ [e])
         (eSIMManagerApp.esims app ++ [length (eSIMManagerApp.store app)])
         (Some (length (eSIMManagerApp.store app))),
       w')
    /\ eSIM.operator e = operator
    /\ eSIM.profile_state e = "Inactive"
    /\ eSIM.data_usage e = 0%Z.
Proof.
  intros Ht. unfold eSIMManagerApp.create_new_esim. rewrite Ht.
  unfold eSIMManagerApp.new_eSIM, mbind, M_bind, mret, M_ret.
  destruct (init_spec None None None (Some operator) w)
    as (i & c & m & k & o & w' & ->).
  rewrite Ht. eexists _, _. split; [ reflexivity | ]. repeat split.
Qed.

(** C7. With [n] profiles in the registry and [index] the position the
    listbox reports: if [index] is not below [n], the subscript raises
    [IndexError], the handler swallows it and the state, selection included,
    is what it was; if [index] is below [n], the selection becomes the
    [index]-th element of [esims].  In particular, after creating "Orange"
    and then "SFR" in an empty registry, selecting position 1 makes the
    selected profile's operator "SFR" (position 0: "Orange"), and selecting
    position 5 fails and changes nothing. *)
Theorem C7_select :
  (forall (app : eSIMManagerApp.t) (index : N) (rest : list N),
      length (eSIMManagerApp.esims app) <= N.to_nat index ->
      eSIMManagerApp.try_select (index :: rest) app = Py.IndexError
      /\ eSIMManagerApp.on_esim_select (index :: rest) app = app)
  /\ (forall (app : eSIMManagerApp.t) (index : N) (rest : list N),
        N.to_nat index < length (eSIMManagerApp.esims app) ->
        exists r : eSIMManagerApp.ref,
          eSIMManagerApp.esims app !! N.to_nat index = Some r
          /\ eSIMManagerApp.on_esim_select (index :: rest) app
             = eSIMManagerApp.set_selected_esim (Some r) app)
  /\ (forall w : World,
        let r1 := eSIMManagerApp.create_new_esim (Some "Orange") empty_app w in
        let r2 := eSIMManagerApp.create_new_esim (Some "SFR") r1.1 r1.2 in
        length (eSIMManagerApp.esims r2.1) = 2
        /\ eSIM.operator <$> selected_profile (eSIMManagerApp.on_esim_select [1%N] r2.1)
           = Some "SFR"
        /\ eSIM.operator <$> selected_profile (eSIMManagerApp.on_esim_select [0%N] r2.1)
           = Some "Orange"
        /\ eSIMManagerApp.try_select [5%N] r2.1 = Py.IndexError
        /\ eSIMManagerApp.on_esim_select [5%N] r2.1 = r2.1).
Proof.
  split; [ | split ].
  - intros app index rest Hge.
    assert (Hbody : eSIMManagerApp.try_select (index :: rest) app = Py.IndexError).
    { unfold eSIMManagerApp.try_select.
      rewrite getitem_head, (getitem_out_of_range _ _ Hge). reflexivity. }
    split; [ exact Hbody | ].
    unfold eSIMManagerApp.on_esim_select. rewrite Hbody. reflexivity.
  - intros app index rest Hlt.
    destruct (getitem_in_range _ _ Hlt) as (r & Hr & Hget).
    exists r. split; [ exact Hr | ].
    unfold eSIMManagerApp.on_esim_select, eSIMManagerApp.try_select.
    rewrite getitem_head, Hget. reflexivity.
  - intros w r1 r2. subst r2 r1.
    destruct (create_new_esim_spec "Orange" empty_app w eq_refl)
      as (e1 & w1 & -> & Hop1 & _).
    cbn [fst snd].
    destruct (create_new_esim_spec "SFR"
                (eSIMManagerApp.mk
                   (eSIMManagerApp.store empty_app ++ [e1])
                   (eSIMManagerApp.esims empty_app
                      ++ [length (eSIMManagerApp.store empty_app)])
                   (Some (length (eSIMManagerApp.store empty_app)))) w1 eq_refl)
      as (e2 & w2 & -> & Hop2 & _).
    cbn [fst eSIMManagerApp.store eSIMManagerApp.esims empty_app app length].
    split; [ reflexivity | ].
    split; [ change (Some (eSIM.operator e2) = Some "SFR"); rewrite Hop2; reflexivity | ].
    split; [ change (Some (eSIM.operator e1) = Some "Orange"); rewrite Hop1; reflexivity | ].
    split; reflexivity.
Qed.

Lemma C7_select_witness :
  eSIMManagerApp.on_esim_select [5%N] sample_app = sample_app
  /\ eSIMManagerApp.selected_esim (eSIMManagerApp.on_esim_select [1%N] sample_app)
     = Some 1.
Proof.
  destruct C7_select as (Hout & Hin & _).
  split.
  - apply (Hout sample_app 5%N []). vm_compute. lia.
  - destruct (Hin sample_app 1%N []) as (r & Hr & ->); [ vm_compute; lia | ].
    cbn in Hr. injection Hr as <-. reflexivity.
Defined.

(** ** The usage counter along runs *)

Lemma activate_usage (e : eSIM.t) (w : World) :
  eSIM.data_usage (eSIM.activate e w).1.2 = eSIM.data_usage e.
Proof.
  unfold eSIM.activate. destruct (negb _); [ | reflexivity ].
  unfold mbind, M_bind. rewrite log_event_eq. reflexivity.
Qed.

Lemma deactivate_usage (e : eSIM.t) (w : World) :
  eSIM.data_usage (eSIM.deactivate e w).1.2 = eSIM.data_usage e.
Proof.
  unfold eSIM.deactivate. destruct (negb _); [ | reflexivity ].
  unfold mbind, M_bind. rewrite log_event_eq. reflexivity.
Qed.

Lemma disable_usage (e : eSIM.t) (w : World) :
  eSIM.data_usage (eSIM.disable e w).1.2 = eSIM.data_usage e.
Proof.
  unfold eSIM.disable. destruct (negb _); [ | reflexivity ].
  unfold mbind, M_bind. rewrite log_event_eq. reflexivity.
Qed.

Lemma drop_flag_eq (f : eSIM.t -> M (bool * eSIM.t)) (e : eSIM.t) (w : World) :
  ((out ← f e; mret out.2) w).1 = (f e w).1.2.
Proof. unfold mbind, M_bind, mret, M_ret. destruct (f e w) as [[b e'] w']. reflexivity. Qed.

(** What each method does to the counter. *)
Lemma invoke_usage (m : method) (e : eSIM.t) (w : World) :
  eSIM.data_usage (invoke m e w).1
  = match m with
    | AddDataUsage amount => (eSIM.data_usage e + amount)%Z
    | ResetDataUsage => 0%Z
    | _ => eSIM.data_usage e
    end.
Proof.
  destruct m; cbn [invoke].
  - rewrite drop_flag_eq. apply activate_usage.
  - rewrite drop_flag_eq. apply deactivate_usage.
  - rewrite drop_flag_eq. apply disable_usage.
  - apply add_data_usage_always.
  - apply reset_data_usage_always.
  - rewrite change_operator_eq. reflexivity.
  - rewrite log_event_eq. reflexivity.
Qed.

Lemma invoke_nonneg (m : method) (e : eSIM.t) (w : World) :
  method_benign m -> (0 <= eSIM.data_usage e)%Z ->
  (0 <= eSIM.data_usage (invoke m e w).1)%Z.
Proof. intros Hm He. rewrite invoke_usage. destruct m; cbn in Hm; lia. Qed.

Lemma invoke_monotone (m : method) (e : eSIM.t) (w : World) :
  method_benign m -> method_is_reset m = false ->
  (eSIM.data_usage e <= eSIM.data_usage (invoke m e w).1)%Z.
Proof.
  intros Hm Hr. rewrite invoke_usage.
  destruct m; cbn in Hm, Hr; first [ lia | discriminate ].
Qed.

Lemma usage_le_refl (s : list eSIM.t) : usage_le s s.
Proof. intros r e Hr. exists e. split; [ exact Hr | lia ]. Qed.

Lemma usage_le_append (s : list eSIM.t) (x : eSIM.t) : usage_le s (s ++ [x]).
Proof.
  intros r e Hr. exists e. split; [ | lia ].
  rewrite lookup_app_l; [ exact Hr | ]. eapply lookup_lt_Some. exact Hr.
Qed.

Lemma usage_le_insert (s : list eSIM.t) (r : nat) (e x : eSIM.t) :
  s !! r = Some e -> (eSIM.data_usage e <= eSIM.data_usage x)%Z ->
  usage_le s (<[r := x]> s).
Proof.
  intros Hr Hle r' e' Hr'. destruct (Nat.eq_dec r r') as [<- | Hne].
  - exists x. split.
    + apply list_lookup_insert_eq. eapply lookup_lt_Some. exact Hr.
    + pose proof (eq_trans (eq_sym Hr) Hr') as Heq. injection Heq as <-. exact Hle.
  - exists e'. split; [ | lia ]. rewrite list_lookup_insert_ne by exact Hne. exact Hr'.
Qed.

Lemma on_esim_select_store (curselection : list N) (app : eSIMManagerApp.t) :
  eSIMManagerApp.store (eSIMManagerApp.on_esim_select curselection app)
  = eSIMManagerApp.store app.
Proof.
  unfold eSIMManagerApp.on_esim_select, eSIMManagerApp.try_select.
  destruct (Py.getitem curselection 0) as [index |]; [ | reflexivity ].
  destruct (Py.getitem (eSIMManagerApp.esims app) (Z.of_N index)); reflexivity.
Qed.

Lemma call_bool_change (c : command) (m : method) (f : eSIM.t -> M (bool * eSIM.t))
    (r : nat) (app : eSIMManagerApp.t) (w : World) :
  (forall e w0, (f e w0).1.2 = (invoke m e w0).1) ->
  method_benign m -> method_is_reset m = false ->
  store_change c (eSIMManagerApp.store app)
    (eSIMManagerApp.store
       (('(_, self) ← eSIMManagerApp.call_bool r f app; mret self) w).1).
Proof.
  intros Hf Hb Hr.
  destruct (eSIMManagerApp.store app !! r) as [e |] eqn:Hlook.
  - unfold mbind, M_bind. rewrite (call_bool_eq r f app e w Hlook). cbn.
    apply (Invoked c _ _ r e m w Hlook); [ rewrite Hf; reflexivity | auto | auto ].
  - unfold mbind, M_bind. rewrite (call_bool_dangling r f app w Hlook).
    apply Untouched. reflexivity.
Qed.

Lemma call_change (c : command) (m : method) (r : nat)
    (app : eSIMManagerApp.t) (w : World) :
  (benign c -> method_benign m) ->
  (is_reset c = false -> method_is_reset m = false) ->
  store_change c (eSIMManagerApp.store app)
    (eSIMManagerApp.store (eSIMManagerApp.call r (invoke m) app w).1).
Proof.
  intros Hb Hr.
  destruct (eSIMManagerApp.store app !! r) as [e |] eqn:Hlook.
  - rewrite (call_eq r _ app e w Hlook). cbn.
    apply (Invoked c _ _ r e m w Hlook); [ reflexivity | auto | auto ].
  - rewrite (call_dangling r _ app w Hlook). apply Untouched. reflexivity.
Qed.

Lemma step_change (c : command) (app : eSIMManagerApp.t) (w : World) :
  store_change c (eSIMManagerApp.store app) (eSIMManagerApp.store (step c app w).1).
Proof.
  destruct c as [r m | curselection | | | confirm | answer | answer | |]; cbn [step].
  - apply call_change; auto.
  - apply Untouched. apply on_esim_select_store.
  - unfold eSIMManagerApp.activate_esim.
    destruct (eSIMManagerApp.selected_esim app) as [r |]; [ | apply Untouched; reflexivity ].
    apply (call_bool_change _ Activate); [ | exact I | reflexivity ].
    intros e w0. cbn [invoke]. rewrite drop_flag_eq. reflexivity.
  - unfold eSIMManagerApp.deactivate_esim.
    destruct (eSIMManagerApp.selected_esim app) as [r |]; [ | apply Untouched; reflexivity ].
    apply (call_bool_change _ Deactivate); [ | exact I | reflexivity ].
    intros e w0. cbn [invoke]. rewrite drop_flag_eq. reflexivity.
  - unfold eSIMManagerApp.disable_esim.
    destruct (eSIMManagerApp.selected_esim app) as [r |]; [ | apply Untouched; reflexivity ].
    destruct confirm; cbn [negb]; [ | apply Untouched; reflexivity ].
    apply (call_bool_change _ Disable); [ | exact I | reflexivity ].
    intros e w0. cbn [invoke]. rewrite drop_flag_eq. reflexivity.
  - destruct answer as [operator |]; [ | apply Untouched; reflexivity ].
    destruct (Py.truthy (Some operator)) eqn:Ht.
    + destruct (create_new_esim_spec operator app w Ht) as (e & w' & -> & _ & _ & Hu).
      apply (Created _ _ _ e); [ reflexivity | exact Hu ].
    + unfold eSIMManagerApp.create_new_esim. rewrite Ht. apply Untouched. reflexivity.
  - unfold eSIMManagerApp.change_operator.
    destruct (eSIMManagerApp.selected_esim app) as [r |]; [ | apply Untouched; reflexivity ].
    destruct answer as [new_operator |]; [ | apply Untouched; reflexivity ].
    destruct (Py.truthy (Some new_operator)); [ | apply Untouched; reflexivity ].
    apply (call_change _ (ChangeOperator new_operator)); intros _; [ exact I | reflexivity ].
  - unfold eSIMManagerApp.reset_data.
    destruct (eSIMManagerApp.selected_esim app) as [r |]; [ | apply Untouched; reflexivity ].
    apply (call_change _ ResetDataUsage); [ intros _; exact I | discriminate ].
  - destruct (eSIMManagerApp.selected_esim app) as [r |] eqn:Hsel.
    2:{ rewrite simulate_idle by (intros r e Hr; rewrite Hsel in Hr; discriminate).
        apply Untouched. reflexivity. }
    destruct (eSIMManagerApp.store app !! r) as [e |] eqn:Hr.
    2:{ rewrite simulate_idle
          by (intros r1 e1 H1 H2; rewrite Hsel in H1; injection H1 as <-;
              rewrite Hr in H2; discriminate).
        apply Untouched. reflexivity. }
    destruct (String.eqb_spec (eSIM.profile_state e) "Active") as [Hact | Hidle].
    + rewrite (simulate_fires app w r e Hsel Hr Hact).
      apply (Invoked _ _ _ r e (AddDataUsage (tick_amount w)) (after_draw w) Hr).
      * reflexivity.
      * intros _. cbn. pose proof (tick_amount_range w). lia.
      * reflexivity.
    + rewrite simulate_idle
        by (intros r1 e1 H1 H2; rewrite Hsel in H1; injection H1 as <-;
            rewrite Hr in H2; injection H2 as <-; exact Hidle).
      apply Untouched. reflexivity.
Qed.

Lemma step_nonneg (c : command) (app : eSIMManagerApp.t) (w : World) :
  benign c -> usage_nonneg app -> usage_nonneg (step c app w).1.
Proof.
  intros Hb Hinv. unfold usage_nonneg in *.
  destruct (step_change c app w) as [-> | e -> Hu | r e m w0 Hr -> Hm _].
  - exact Hinv.
  - apply Forall_app. split; [ exact Hinv | ].
    constructor; [ rewrite Hu; lia | constructor ].
  - apply Forall_insert; [ exact Hinv | ].
    apply invoke_nonneg; [ auto | ].
    rewrite Forall_lookup in Hinv. exact (Hinv r e Hr).
Qed.

Lemma step_monotone (c : command) (app : eSIMManagerApp.t) (w : World) :
  benign c -> is_reset c = false ->
  usage_le (eSIMManagerApp.store app) (eSIMManagerApp.store (step c app w).1).
Proof.
  intros Hb Hnr.
  destruct (step_change c app w) as [-> | e -> Hu | r e m w0 Hr -> Hm Hreset].
  - apply usage_le_refl.
  - apply usage_le_append.
  - apply (usage_le_insert _ r e); [ exact Hr | ].
    apply invoke_monotone; auto.
Qed.

Lemma run_nonneg (cs : list command) :
  Forall benign cs ->
  forall (app : eSIMManagerApp.t) (w : World),
    usage_nonneg app -> usage_nonneg (run cs app w).1.
Proof.
  induction 1 as [| c cs Hc _ IH]; intros app w Hinv; [ exact Hinv | ].
  cbn [run]. unfold mbind, M_bind.
  pose proof (step_nonneg c app w Hc Hinv) as Hstep.
  destruct (step c app w) as [app' w']. apply IH. exact Hstep.
Qed.

(** The initial state of the application. *)
Lemma new_eSIM_nonneg (operator : string) (app : eSIMManagerApp.t) (w : World) :
  usage_nonneg app -> usage_nonneg (eSIMManagerApp.new_eSIM operator app w).1.2.
Proof.
  intros Hinv. unfold eSIMManagerApp.new_eSIM, mbind, M_bind, mret, M_ret.
  destruct (init_spec None None None (Some operator) w) as (i & c & m & k & o & w' & ->).
  cbn [fst snd eSIMManagerApp.alloc]. unfold usage_nonneg in *.
  cbn [eSIMManagerApp.set_store eSIMManagerApp.store].
  apply Forall_app. split; [ exact Hinv | ].
  constructor; [ cbn; lia | constructor ].
Qed.

Lemma call_bool_nonneg (r : nat) (f : eSIM.t -> M (bool * eSIM.t))
    (app : eSIMManagerApp.t) (w : World) :
  (forall e w0, eSIM.data_usage (f e w0).1.2 = eSIM.data_usage e) ->
  usage_nonneg app -> usage_nonneg (eSIMManagerApp.call_bool r f app w).1.2.
Proof.
  intros Hf Hinv. unfold usage_nonneg in *.
  destruct (eSIMManagerApp.store app !! r) as [e |] eqn:Hr.
  - rewrite (call_bool_eq r f app e w Hr). cbn [fst snd eSIMManagerApp.set_store
      eSIMManagerApp.store].
    apply Forall_insert; [ exact Hinv | ].
    rewrite Hf. rewrite Forall_lookup in Hinv. exact (Hinv r e Hr).
  - rewrite (call_bool_dangling r f app w Hr). exact Hinv.
Qed.

Lemma call_add_nonneg (r : nat) (amount : Z) (app : eSIMManagerApp.t) (w : World) :
  (0 <= amount)%Z ->
  usage_nonneg app ->
  usage_nonneg (eSIMManagerApp.call r (eSIM.add_data_usage amount) app w).1.
Proof.
  intros Ha Hinv. exact (step_nonneg (Direct r (AddDataUsage amount)) app w Ha Hinv).
Qed.

Lemma create_demo_esims_nonneg (app : eSIMManagerApp.t) (w : World) :
  usage_nonneg app -> usage_nonneg (eSIMManagerApp.create_demo_esims app w).1.
Proof.
  intros H0. unfold eSIMManagerApp.create_demo_esims, mbind, M_bind, mret, M_ret.
  pose proof (new_eSIM_nonneg "Orange" app w H0) as H1.
  destruct (eSIMManagerApp.new_eSIM "Orange" app w) as [[esim1 a1] w1]. cbn [fst snd] in H1.
  pose proof (call_bool_nonneg esim1 eSIM.activate a1 w1 activate_usage H1) as H2.
  destruct (eSIMManagerApp.call_bool esim1 eSIM.activate a1 w1) as [[b2 a2] w2].
  cbn [fst snd] in H2.
  pose proof (call_add_nonneg esim1 1250 a2 w2 ltac:(lia) H2) as H3.
  destruct (eSIMManagerApp.call esim1 (eSIM.add_data_usage 1250) a2 w2) as [a3 w3].
  cbn [fst] in H3.
  pose proof (new_eSIM_nonneg "SFR" a3 w3 H3) as H4.
  destruct (eSIMManagerApp.new_eSIM "SFR" a3 w3) as [[esim2 a4] w4]. cbn [fst snd] in H4.
  pose proof (new_eSIM_nonneg "Bouygues Telecom" a4 w4 H4) as H5.
  destruct (eSIMManagerApp.new_eSIM "Bouygues Telecom" a4 w4) as [[esim3 a5] w5].
  cbn [fst snd] in H5.
  pose proof (call_bool_nonneg esim3 eSIM.activate a5 w5 activate_usage H5) as H6.
  destruct (eSIMManagerApp.call_bool esim3 eSIM.activate a5 w5) as [[b6 a6] w6].
  cbn [fst snd] in H6.
  pose proof (call_add_nonneg esim3 450 a6 w6 ltac:(lia) H6) as H7.
  destruct (eSIMManagerApp.call esim3 (eSIM.add_data_usage 450) a6 w6) as [a7 w7].
  cbn [fst] in H7. exact H7.
Qed.

Lemma init_nonneg (w : World) : usage_nonneg (eSIMManagerApp.__init__ w).1.
Proof.
  unfold eSIMManagerApp.__init__, mbind, M_bind.
  pose proof (create_demo_esims_nonneg (eSIMManagerApp.mk [] [] None) w
                ltac:(constructor)) as H.
  destruct (eSIMManagerApp.create_demo_esims (eSIMManagerApp.mk [] [] None) w)
    as [app w'].
  cbn [fst] in H.
  apply (step_nonneg SimulateDataUsage); [ exact I | ].
  destruct (eSIMManagerApp.esims app); exact H.
Qed.

(** C3, as the code has it. Every object starts with [data_usage = 0], and
    the application starts with no negative counter.  Along any sequence of
    commands (methods called on any object, handlers, ticker firings) in
    which every amount passed to [add_data_usage] is an int and none is
    negative, no counter is negative after any command of the sequence; and
    a command of that kind other than a reset lowers no counter.  This holds
    whether or not a call raises on the conversion limit. *)
Theorem C3_usage_nonneg_monotone :
  (forall (imsi iccid msisdn operator : option string) (w : World),
      eSIM.data_usage (eSIM.__init__ imsi iccid msisdn operator w).1 = 0%Z)
  /\ (forall w : World, usage_nonneg (eSIMManagerApp.__init__ w).1)
  /\ (forall (cs : list command) (app : eSIMManagerApp.t) (w : World),
        usage_nonneg app -> Forall benign cs ->
        forall n : nat, usage_nonneg (run (take n cs) app w).1)
  /\ (forall (c : command) (app : eSIMManagerApp.t) (w : World),
        benign c -> is_reset c = false ->
        usage_le (eSIMManagerApp.store app) (eSIMManagerApp.store (step c app w).1)).
Proof.
  split; [ | split; [ | split ] ].
  - intros imsi iccid msisdn operator w.
    destruct (init_spec imsi iccid msisdn operator w) as (i & c & m & k & o & w' & ->).
    reflexivity.
  - exact init_nonneg.
  - intros cs app w Hinv Hcs n.
    apply run_nonneg; [ | exact Hinv ].
    apply Forall_take. exact Hcs.
  - exact step_monotone.
Qed.

Lemma C3_usage_nonneg_monotone_witness :
  usage_nonneg
    (run (take 3 [SimulateDataUsage; Direct 1 (AddDataUsage 7); ResetData;
                  Direct 2 Disable]) sample_app sample_world).1
  /\ usage_le (eSIMManagerApp.store sample_app)
       (eSIMManagerApp.store (step (Direct 1 (AddDataUsage 7)) sample_app sample_world).1).
Proof.
  destruct C3_usage_nonneg_monotone as (_ & _ & Hrun & Hstep).
  split.
  - apply Hrun.
    + unfold usage_nonneg. repeat constructor; cbn; lia.
    + repeat constructor. cbn. lia.
  - apply Hstep; [ cbn; lia | reflexivity ].
Defined.

(** C3, as stated, fails: [add_data_usage] is part of the public surface and
    takes any amount, so calling it with -5 on the second profile of the
    initial state (usage 0) leaves that counter at -5. *)
Lemma C3_negative_amount_breaks_invariant :
  usage_nonneg sample_app
  /\ ~ usage_nonneg (run [Direct 1 (AddDataUsage (-5))] sample_app sample_world).1.
Proof.
  split.
  - unfold usage_nonneg. repeat constructor; cbn; lia.
  - unfold usage_nonneg. intros H. rewrite Forall_lookup in H.
    specialize (H 1 _ eq_refl). vm_compute in H. apply H. reflexivity.
Qed.

(** * Further properties of the code *)

(** ** The other two transitions *)

Lemma deactivate_idle (e : eSIM.t) (w : World) :
  eSIM.profile_state e = "Inactive" -> eSIM.deactivate e w = ((false, e), w).
Proof. intros H. unfold eSIM.deactivate. rewrite H. reflexivity. Qed.

Lemma disable_fires (e : eSIM.t) (w : World) :
  eSIM.profile_state e <> "Disabled" ->
  eSIM.disable e w
  = ((true, eSIM.set_events
              (eSIM.events e
                 ++ [eSIM.entry (stamp w) "Désactivation définitive du profil"])
              (eSIM.set_profile_state "Disabled" e)),
     after_now w).
Proof.
  intros H. unfold eSIM.disable.
  apply string_eqb_neq in H. rewrite H.
  unfold mbind, M_bind. rewrite log_event_eq. reflexivity.
Qed.

Lemma disable_idle (e : eSIM.t) (w : World) :
  eSIM.profile_state e = "Disabled" -> eSIM.disable e w = ((false, e), w).
Proof. intros H. unfold eSIM.disable. rewrite H. reflexivity. Qed.

(** X1. [deactivate] returns [True] exactly when the state is not
    "Inactive"; it then sets the state to "Inactive" and appends the single
    event "[timestamp] Désactivation du profil", touching nothing else; on an
    "Inactive" profile it returns [False] and changes neither the profile nor
    the clock. *)
Theorem X1_deactivate (e : eSIM.t) (w : World) :
  let ok := (eSIM.deactivate e w).1.1 in
  let e' := (eSIM.deactivate e w).1.2 in
  (ok = true <-> eSIM.profile_state e <> "Inactive")
  /\ (ok = true ->
      eSIM.profile_state e' = "Inactive"
      /\ eSIM.events e'
         = eSIM.events e ++ ["[" +:+ stamp w +:+ "] Désactivation du profil"]
      /\ eSIM.operator e' = eSIM.operator e
      /\ eSIM.data_usage e' = eSIM.data_usage e
      /\ same_identity e e')
  /\ (eSIM.profile_state e = "Inactive" -> eSIM.deactivate e w = ((false, e), w)).
Proof.
  intros ok e'. subst ok e'.
  destruct (String.eqb_spec (eSIM.profile_state e) "Inactive") as [Hin | Hne].
  - rewrite (deactivate_idle e w Hin). cbn.
    split; [ split; [ discriminate | congruence ] | ].
    split; [ discriminate | reflexivity ].
  - rewrite (deactivate_fires e w Hne). cbn.
    split; [ split; auto | ].
    split; [ intros _; repeat split | intros H; contradiction ].
Qed.

Lemma X1_deactivate_witness :
  (eSIM.deactivate sample_first sample_world).1.1 = true
  /\ eSIM.profile_state (eSIM.deactivate sample_first sample_world).1.2 = "Inactive"
  /\ eSIM.events (eSIM.deactivate sample_first sample_world).1.2
     = eSIM.events sample_first ++ ["[t0] Désactivation du profil"]
  /\ eSIM.deactivate sample_profile sample_world = ((false, sample_profile), sample_world).
Proof.
  destruct (X1_deactivate sample_first sample_world) as (Hiff & Hdoes & _).
  destruct (X1_deactivate sample_profile sample_world) as (_ & _ & Hidle).
  assert (Hok : (eSIM.deactivate sample_first sample_world).1.1 = true)
    by (apply Hiff; discriminate).
  destruct (Hdoes Hok) as (Hstate & Hevents & _).
  split; [ exact Hok | ]. split; [ exact Hstate | ].
  split; [ rewrite Hevents; reflexivity | apply Hidle; reflexivity ].
Defined.

(** X2. [disable] returns [True] exactly when the state is not "Disabled"
    (so from "Inactive" and from "Active" alike); it then sets the state to
    "Disabled" and appends the single event
    "[timestamp] Désactivation définitive du profil", keeping operator, usage, identifiers, keys and limit: the
    profile is not erased.  On a "Disabled" profile it returns [False] and
    changes neither the profile nor the clock. *)
Theorem X2_disable (e : eSIM.t) (w : World) :
  let ok := (eSIM.disable e w).1.1 in
  let e' := (eSIM.disable e w).1.2 in
  (ok = true <-> eSIM.profile_state e <> "Disabled")
  /\ (eSIM.profile_state e = "Inactive" \/ eSIM.profile_state e = "Active" -> ok = true)
  /\ (ok = true ->
      eSIM.profile_state e' = "Disabled"
      /\ eSIM.events e'
         = eSIM.events e
             ++ ["[" +:+ stamp w +:+ "] Désactivation définitive du profil"]
      /\ eSIM.operator e' = eSIM.operator e
      /\ eSIM.data_usage e' = eSIM.data_usage e
      /\ same_identity e e')
  /\ (eSIM.profile_state e = "Disabled" -> eSIM.disable e w = ((false, e), w)).
Proof.
  intros ok e'. subst ok e'.
  destruct (String.eqb_spec (eSIM.profile_state e) "Disabled") as [Hdis | Hne].
  - rewrite (disable_idle e w Hdis). cbn.
    split; [ split; [ discriminate | congruence ] | ].
    split; [ intros [H | H]; rewrite H in Hdis; discriminate | ].
    split; [ discriminate | reflexivity ].
  - rewrite (disable_fires e w Hne). cbn.
    split; [ split; auto | ].
    split; [ auto | ].
    split; [ intros _; repeat split | intros H; contradiction ].
Qed.

Lemma X2_disable_witness :
  (eSIM.disable sample_first sample_world).1.1 = true
  /\ eSIM.profile_state (eSIM.disable sample_first sample_world).1.2 = "Disabled"
  /\ eSIM.events (eSIM.disable sample_first sample_world).1.2
     = eSIM.events sample_first ++ ["[t0] Désactivation définitive du profil"]
  /\ eSIM.disable sample_disabled sample_world = ((false, sample_disabled), sample_world).
Proof.
  destruct (X2_disable sample_first sample_world) as (_ & Hfrom & Hdoes & _).
  destruct (X2_disable sample_disabled sample_world) as (_ & _ & _ & Hidle).
  assert (Hok : (eSIM.disable sample_first sample_world).1.1 = true)
    by (apply Hfrom; right; reflexivity).
  destruct (Hdoes Hok) as (Hstate & Hevents & _).
  split; [ exact Hok | ]. split; [ exact Hstate | ].
  split; [ rewrite Hevents; reflexivity | apply Hidle; reflexivity ].
Defined.

(** X3. Whatever it returns, a transition leaves the profile in its target
    state, and calling the same transition again straight away is a no-op:
    the second call returns [False] and changes neither the profile, its log
    included, nor the clock. *)
Theorem X3_transitions_settle (e : eSIM.t) (w : World) :
  (let r := eSIM.activate e w in
   eSIM.profile_state r.1.2 = "Active"
   /\ eSIM.activate r.1.2 r.2 = ((false, r.1.2), r.2))
  /\ (let r := eSIM.deactivate e w in
      eSIM.profile_state r.1.2 = "Inactive"
      /\ eSIM.deactivate r.1.2 r.2 = ((false, r.1.2), r.2))
  /\ (let r := eSIM.disable e w in
      eSIM.profile_state r.1.2 = "Disabled"
      /\ eSIM.disable r.1.2 r.2 = ((false, r.1.2), r.2)).
Proof.
  split; [ | split ].
  - intros r. subst r.
    assert (Hst : eSIM.profile_state (eSIM.activate e w).1.2 = "Active").
    { destruct (String.eqb_spec (eSIM.profile_state e) "Active") as [H | H].
      - rewrite (activate_idle e w H). exact H.
      - rewrite (activate_fires e w H). reflexivity. }
    split; [ exact Hst | apply activate_idle; exact Hst ].
  - intros r. subst r.
    assert (Hst : eSIM.profile_state (eSIM.deactivate e w).1.2 = "Inactive").
    { destruct (String.eqb_spec (eSIM.profile_state e) "Inactive") as [H | H].
      - rewrite (deactivate_idle e w H). exact H.
      - rewrite (deactivate_fires e w H). reflexivity. }
    split; [ exact Hst | apply deactivate_idle; exact Hst ].
  - intros r. subst r.
    assert (Hst : eSIM.profile_state (eSIM.disable e w).1.2 = "Disabled").
    { destruct (String.eqb_spec (eSIM.profile_state e) "Disabled") as [H | H].
      - rewrite (disable_idle e w H). exact H.
      - rewrite (disable_fires e w H). reflexivity. }
    split; [ exact Hst | apply disable_idle; exact Hst ].
Qed.

(** ** The constructor *)

Lemma or_else_given (s : string) (d : M string) (w : World) :
  s <> "" -> or_else (Some s) d w = (s, w).
Proof.
  intros Hs. unfold or_else, Py.truthy.
  apply String.eqb_neq in Hs. rewrite Hs. reflexivity.
Qed.

Lemma or_else_falsy (x : option string) (d : M string) :
  Py.truthy x = false -> or_else x d = d.
Proof.
  intros Hx. unfold or_else. destruct x as [v |]; [ | reflexivity ].
  rewrite Hx. reflexivity.
Qed.

(** [eSIM(...)] step by step: [r1] to [r5] are the outcomes of the five
    values computed before the creation event is logged. *)
Lemma init_unfold (imsi iccid msisdn operator : option string) (w : World) :
  let r1 := or_else imsi eSIM._generate_imsi w in
  let r2 := or_else iccid eSIM._generate_iccid r1.2 in
  let r3 := or_else msisdn eSIM._generate_msisdn r2.2 in
  let r4 := eSIM._generate_auth_key r3.2 in
  let r5 := eSIM._generate_auth_key r4.2 in
  eSIM.__init__ imsi iccid msisdn operator w
  = (eSIM.mk r1.1 r2.1 r3.1
       (if Py.truthy operator then default "" operator else "OpérateurDemo")
       "Inactive" r4.1 r5.1 0 10000
       [eSIM.entry (stamp r5.2) "Création de l'eSIM"],
     after_now r5.2).
Proof.
  intros r1 r2 r3 r4 r5. subst r5 r4 r3 r2 r1.
  unfold eSIM.__init__, mbind, M_bind.
  destruct (or_else imsi eSIM._generate_imsi w) as [i w1].
  destruct (or_else iccid eSIM._generate_iccid (i, w1).2) as [c w2] eqn:E2.
  cbn [snd] in E2. rewrite E2.
  destruct (or_else msisdn eSIM._generate_msisdn (c, w2).2) as [m w3] eqn:E3.
  cbn [snd] in E3. rewrite E3.
  rewrite or_else_pure.
  destruct (eSIM._generate_auth_key (m, w3).2) as [k w4] eqn:E4.
  cbn [snd] in E4. rewrite E4.
  destruct (eSIM._generate_auth_key (k, w4).2) as [o w5] eqn:E5.
  cbn [snd] in E5. rewrite E5.
  rewrite log_event_eq. reflexivity.
Qed.

Lemma or_else_cases (x : option string) (d : M string) (P : string -> Prop) (w : World) :
  (forall w0, P (d w0).1) ->
  (forall s, x = Some s -> s <> "" -> or_else x d w = (s, w))
  /\ (Py.truthy x = false -> P (or_else x d w).1).
Proof.
  intros Hd. split.
  - intros s -> Hs. apply or_else_given. exact Hs.
  - intros Hx. rewrite (or_else_falsy x d Hx). apply Hd.
Qed.

Lemma truthy_given (x : option string) :
  Py.truthy x = true -> exists s : string, x = Some s /\ s <> "".
Proof.
  destruct x as [s |]; [ | discriminate ].
  intros H. exists s. split; [ reflexivity | ].
  unfold Py.truthy in H. apply string_eqb_neq. exact H.
Qed.

Lemma replicateM_keeps {A B : Type} (f : World -> B) (m : M A) :
  (forall w, f (m w).2 = f w) ->
  forall n w, f (replicateM n m w).2 = f w.
Proof.
  intros Hm n. induction n as [| n IH]; intros w; [ reflexivity | ].
  cbn [replicateM]. unfold mbind, M_bind, mret, M_ret.
  specialize (Hm w). destruct (m w) as [x w1]. specialize (IH w1).
  destruct (replicateM n m w1) as [xs w2]. cbn [snd] in *. congruence.
Qed.

Lemma auth_key_keeps_prng (w : World) :
  prng (eSIM._generate_auth_key w).2 = prng w.
Proof.
  unfold eSIM._generate_auth_key, uuid.uuid4, uuid.os_urandom.
  unfold mbind at 1 2. unfold M_bind at 1 2. unfold mret at 1 2. unfold M_ret at 1 2.
  assert (Hkeep : prng (replicateM 16 (r ← draw_urandom; mret (r mod 256)%N) w).2 = prng w).
  { apply (replicateM_keeps prng). intros w0.
    unfold mbind, M_bind, mret, M_ret, draw_urandom.
    destruct (draw (urandom w0)) as [r g]. reflexivity. }
  destruct (replicateM 16 _ w) as [bs w']. exact Hkeep.
Qed.

Lemma after_now_keeps_prng (w : World) : prng (after_now w) = prng w.
Proof. unfold after_now, now. destruct (draw (clock w)) as [t c]. reflexivity. Qed.

(** X4. The arguments of [eSIM(...)]: an identifier given as a non-empty
    string is kept verbatim; one left out, or given as the empty string, is
    replaced by a generated one of the usual shape; likewise the operator,
    whose replacement is "OpérateurDemo".  Both keys are always generated.
    The new profile is "Inactive", has used nothing, has the limit 10000 and
    a log made of the creation event alone.  With the three identifiers
    given, the [random] module is not drawn from. *)
Theorem X4_constructor_arguments (imsi iccid msisdn operator : option string) (w : World) :
  let e := (eSIM.__init__ imsi iccid msisdn operator w).1 in
  (forall s, imsi = Some s -> s <> "" -> eSIM.imsi e = s)
  /\ (Py.truthy imsi = false -> imsi_ok (eSIM.imsi e))
  /\ (forall s, iccid = Some s -> s <> "" -> eSIM.iccid e = s)
  /\ (Py.truthy iccid = false -> iccid_ok (eSIM.iccid e))
  /\ (forall s, msisdn = Some s -> s <> "" -> eSIM.msisdn e = s)
  /\ (Py.truthy msisdn = false -> msisdn_ok (eSIM.msisdn e))
  /\ (forall s, operator = Some s -> s <> "" -> eSIM.operator e = s)
  /\ (Py.truthy operator = false -> eSIM.operator e = "OpérateurDemo")
  /\ lower_hex_of_length 32 (eSIM.ki e) = true
  /\ lower_hex_of_length 32 (eSIM.opc e) = true
  /\ eSIM.profile_state e = "Inactive"
  /\ eSIM.data_usage e = 0%Z
  /\ eSIM.data_limit e = 10000%Z
  /\ (exists timestamp, eSIM.events e = [eSIM.entry timestamp "Création de l'eSIM"])
  /\ (Py.truthy imsi = true -> Py.truthy iccid = true -> Py.truthy msisdn = true ->
      prng (eSIM.__init__ imsi iccid msisdn operator w).2 = prng w).
Proof.
  intros e. subst e.
  pose proof (init_unfold imsi iccid msisdn operator w) as Hinit.
  cbv zeta in Hinit. rewrite Hinit. clear Hinit.
  destruct (or_else_cases imsi eSIM._generate_imsi imsi_ok w imsi_generated_ok)
    as [Hi1 Hi2].
  destruct (or_else imsi eSIM._generate_imsi w) as [i w1]. cbn [fst snd] in *.
  destruct (or_else_cases iccid eSIM._generate_iccid iccid_ok w1 iccid_generated_ok)
    as [Hc1 Hc2].
  destruct (or_else iccid eSIM._generate_iccid w1) as [c w2]. cbn [fst snd] in *.
  destruct (or_else_cases msisdn eSIM._generate_msisdn msisdn_ok w2 msisdn_generated_ok)
    as [Hm1 Hm2].
  destruct (or_else msisdn eSIM._generate_msisdn w2) as [m w3]. cbn [fst snd] in *.
  pose proof (auth_key_shape w3) as Hk. pose proof (auth_key_keeps_prng w3) as Hkp.
  destruct (eSIM._generate_auth_key w3) as [k w4]. cbn [fst snd] in *.
  pose proof (auth_key_shape w4) as Ho. pose proof (auth_key_keeps_prng w4) as Hop.
  destruct (eSIM._generate_auth_key w4) as [o w5]. cbn [fst snd] in *.
  cbn [eSIM.imsi eSIM.iccid eSIM.msisdn eSIM.operator eSIM.ki eSIM.opc
       eSIM.profile_state eSIM.data_usage eSIM.data_limit eSIM.events].
  split; [ intros s Hs Hne; specialize (Hi1 s Hs Hne); congruence | ].
  split; [ exact Hi2 | ].
  split; [ intros s Hs Hne; specialize (Hc1 s Hs Hne); congruence | ].
  split; [ exact Hc2 | ].
  split; [ intros s Hs Hne; specialize (Hm1 s Hs Hne); congruence | ].
  split; [ exact Hm2 | ].
  split.
  { intros s -> Hne. unfold Py.truthy.
    apply String.eqb_neq in Hne. rewrite Hne. reflexivity. }
  split; [ intros Hf; rewrite Hf; reflexivity | ].
  split; [ exact Hk | ].
  split; [ exact Ho | ].
  split; [ reflexivity | ].
  split; [ reflexivity | ].
  split; [ reflexivity | ].
  split; [ eexists; reflexivity | ].
  intros Ti Tc Tm.
  destruct (truthy_given imsi Ti) as (si & Esi & Nsi).
  destruct (truthy_given iccid Tc) as (sc & Esc & Nsc).
  destruct (truthy_given msisdn Tm) as (sm & Esm & Nsm).
  specialize (Hi1 si Esi Nsi). specialize (Hc1 sc Esc Nsc). specialize (Hm1 sm Esm Nsm).
  rewrite after_now_keeps_prng, Hop, Hkp. congruence.
Qed.

Lemma X4_constructor_arguments_witness :
  eSIM.imsi (eSIM.__init__ (Some "208011234567890") (Some "") None (Some "Free")
               sample_world).1
  = "208011234567890"
  /\ iccid_ok (eSIM.iccid (eSIM.__init__ (Some "208011234567890") (Some "") None
                             (Some "Free") sample_world).1)
  /\ eSIM.operator (eSIM.__init__ (Some "208011234567890") (Some "") None
                      (Some "Free") sample_world).1
     = "Free".
Proof.
  destruct (X4_constructor_arguments (Some "208011234567890") (Some "") None
              (Some "Free") sample_world)
    as (Hi & _ & _ & Hc & _ & _ & Ho & _).
  split; [ apply Hi; [ reflexivity | discriminate ] | ].
  split; [ apply Hc; reflexivity | apply Ho; [ reflexivity | discriminate ] ].
Defined.

(** ** What a method, and a command, can do to an object *)

Lemma invoke_summary (m : method) (e : eSIM.t) (w : World) :
  same_identity e (invoke m e w).1
  /\ logged_at_most_once e (invoke m e w).1
  /\ (valid_state (eSIM.profile_state e) ->
      valid_state (eSIM.profile_state (invoke m e w).1)).
Proof.
  destruct m; cbn [invoke].
  - rewrite drop_flag_eq.
    destruct (String.eqb_spec (eSIM.profile_state e) "Active") as [H | H].
    + rewrite (activate_idle e w H). cbn [fst snd].
      split; [ apply same_identity_refl | split; [ left; reflexivity | auto ] ].
    + rewrite (activate_fires e w H). cbn [fst snd].
      split; [ repeat split | ].
      split; [ right; eexists; reflexivity | intros _; right; left; reflexivity ].
  - rewrite drop_flag_eq.
    destruct (String.eqb_spec (eSIM.profile_state e) "Inactive") as [H | H].
    + rewrite (deactivate_idle e w H). cbn [fst snd].
      split; [ apply same_identity_refl | split; [ left; reflexivity | auto ] ].
    + rewrite (deactivate_fires e w H). cbn [fst snd].
      split; [ repeat split | ].
      split; [ right; eexists; reflexivity | intros _; left; reflexivity ].
  - rewrite drop_flag_eq.
    destruct (String.eqb_spec (eSIM.profile_state e) "Disabled") as [H | H].
    + rewrite (disable_idle e w H). cbn [fst snd].
      split; [ apply same_identity_refl | split; [ left; reflexivity | auto ] ].
    + rewrite (disable_fires e w H). cbn [fst snd].
      split; [ repeat split | ].
      split; [ right; eexists; reflexivity | intros _; right; right; reflexivity ].
  - destruct (add_data_usage_always amount e w) as (_ & Hstate & _ & Hid & Hlog).
    split; [ exact Hid | split; [ exact Hlog | rewrite Hstate; auto ] ].
  - destruct (reset_data_usage_always e w) as (_ & Hstate & _ & Hid & Hlog).
    split; [ exact Hid | split; [ exact Hlog | rewrite Hstate; auto ] ].
  - rewrite change_operator_eq. cbn [fst].
    split; [ repeat split | split; [ right; eexists; reflexivity | auto ] ].
  - rewrite log_event_eq. cbn [fst].
    split; [ repeat split | split; [ right; eexists; reflexivity | auto ] ].
Qed.

Lemma new_eSIM_eq (operator : string) (app : eSIMManagerApp.t) (w : World) :
  Py.truthy (Some operator) = true ->
  exists (e : eSIM.t) (w' : World),
    eSIMManagerApp.new_eSIM operator app w
    = ((length (eSIMManagerApp.store app),
        eSIMManagerApp.set_store (eSIMManagerApp.store app ++ [e]) app), w')
    /\ fresh_profile operator e.
Proof.
  intros Ht. unfold eSIMManagerApp.new_eSIM, mbind, M_bind, mret, M_ret.
  destruct (init_spec None None None (Some operator) w)
    as (i & c & m & k & o & w' & ->).
  rewrite Ht. eexists _, _. split; [ reflexivity | ].
  repeat split. eexists. reflexivity.
Qed.

Lemma create_new_esim_skips (answer : option string) (app : eSIMManagerApp.t) (w : World) :
  Py.truthy answer = false ->
  eSIMManagerApp.create_new_esim answer app w = (app, w).
Proof.
  intros Hf. unfold eSIMManagerApp.create_new_esim.
  destruct answer as [operator |]; [ rewrite Hf | ]; reflexivity.
Qed.

Lemma create_new_esim_adds (operator : string) (app : eSIMManagerApp.t) (w : World) :
  Py.truthy (Some operator) = true ->
  exists (e : eSIM.t) (w' : World),
    eSIMManagerApp.create_new_esim (Some operator) app w
    = (eSIMManagerApp.mk
         (eSIMManagerApp.store app ++ [e])
         (eSIMManagerApp.esims app ++ [length (eSIMManagerApp.store app)])
         (Some (length (eSIMManagerApp.store app))),
       w')
    /\ fresh_profile operator e.
Proof.
  intros Ht. unfold eSIMManagerApp.create_new_esim. rewrite Ht.
  unfold mbind, M_bind, mret, M_ret.
  destruct (new_eSIM_eq operator app w Ht) as (e & w' & -> & Hfresh).
  exists e, w'. split; [ reflexivity | exact Hfresh ].
Qed.

Lemma call_effect (r : nat) (m : method) (app : eSIMManagerApp.t) (w : World) :
  store_effect (eSIMManagerApp.store app)
    (eSIMManagerApp.store (eSIMManagerApp.call r (invoke m) app w).1).
Proof.
  destruct (eSIMManagerApp.store app !! r) as [e |] eqn:Hlook.
  - rewrite (call_eq r _ app e w Hlook). cbn.
    apply (Replaced _ _ r e m w Hlook). reflexivity.
  - rewrite (call_dangling r _ app w Hlook). apply Kept. reflexivity.
Qed.

Lemma call_bool_effect (m : method) (f : eSIM.t -> M (bool * eSIM.t))
    (r : nat) (app : eSIMManagerApp.t) (w : World) :
  (forall e w0, (f e w0).1.2 = (invoke m e w0).1) ->
  store_effect (eSIMManagerApp.store app)
    (eSIMManagerApp.store
       (('(_, self) ← eSIMManagerApp.call_bool r f app; mret self) w).1).
Proof.
  intros Hf.
  destruct (eSIMManagerApp.store app !! r) as [e |] eqn:Hlook.
  - unfold mbind, M_bind. rewrite (call_bool_eq r f app e w Hlook). cbn.
    apply (Replaced _ _ r e m w Hlook). rewrite Hf. reflexivity.
  - unfold mbind, M_bind. rewrite (call_bool_dangling r f app w Hlook).
    apply Kept. reflexivity.
Qed.

Lemma invoke_transition_eq (e : eSIM.t) (w : World) :
  (eSIM.activate e w).1.2 = (invoke Activate e w).1
  /\ (eSIM.deactivate e w).1.2 = (invoke Deactivate e w).1
  /\ (eSIM.disable e w).1.2 = (invoke Disable e w).1.
Proof. cbn [invoke]. rewrite !drop_flag_eq. repeat split. Qed.

Lemma step_effect (c : command) (app : eSIMManagerApp.t) (w : World) :
  store_effect (eSIMManagerApp.store app) (eSIMManagerApp.store (step c app w).1).
Proof.
  destruct c as [r m | curselection | | | confirm | answer | answer | |]; cbn [step].
  - apply call_effect.
  - apply Kept. apply on_esim_select_store.
  - unfold eSIMManagerApp.activate_esim.
    destruct (eSIMManagerApp.selected_esim app) as [r |]; [ | apply Kept; reflexivity ].
    apply (call_bool_effect Activate). intros e w0. apply invoke_transition_eq.
  - unfold eSIMManagerApp.deactivate_esim.
    destruct (eSIMManagerApp.selected_esim app) as [r |]; [ | apply Kept; reflexivity ].
    apply (call_bool_effect Deactivate). intros e w0. apply invoke_transition_eq.
  - unfold eSIMManagerApp.disable_esim.
    destruct (eSIMManagerApp.selected_esim app) as [r |]; [ | apply Kept; reflexivity ].
    destruct confirm; cbn [negb]; [ | apply Kept; reflexivity ].
    apply (call_bool_effect Disable). intros e w0. apply invoke_transition_eq.
  - destruct (Py.truthy answer) eqn:Ht.
    + destruct (truthy_given answer Ht) as (operator & -> & _).
      destruct (create_new_esim_adds operator app w Ht) as (e & w' & -> & Hfresh).
      apply (Appended _ _ operator e); [ reflexivity | exact Hfresh ].
    + rewrite (create_new_esim_skips answer app w Ht). apply Kept. reflexivity.
  - unfold eSIMManagerApp.change_operator.
    destruct (eSIMManagerApp.selected_esim app) as [r |]; [ | apply Kept; reflexivity ].
    destruct answer as [new_operator |]; [ | apply Kept; reflexivity ].
    destruct (Py.truthy (Some new_operator)); [ | apply Kept; reflexivity ].
    apply (call_effect r (ChangeOperator new_operator)).
  - unfold eSIMManagerApp.reset_data.
    destruct (eSIMManagerApp.selected_esim app) as [r |]; [ | apply Kept; reflexivity ].
    apply (call_effect r ResetDataUsage).
  - destruct (eSIMManagerApp.selected_esim app) as [r |] eqn:Hsel.
    2:{ rewrite simulate_idle by (intros r e Hr; rewrite Hsel in Hr; discriminate).
        apply Kept. reflexivity. }
    destruct (eSIMManagerApp.store app !! r) as [e |] eqn:Hr.
    2:{ rewrite simulate_idle
          by (intros r1 e1 H1 H2; rewrite Hsel in H1; injection H1 as <-;
              rewrite Hr in H2; discriminate).
        apply Kept. reflexivity. }
    destruct (String.eqb_spec (eSIM.profile_state e) "Active") as [Hact | Hidle].
    + rewrite (simulate_fires app w r e Hsel Hr Hact).
      apply (Replaced _ _ r e (AddDataUsage (tick_amount w)) (after_draw w) Hr).
      reflexivity.
    + rewrite simulate_idle
        by (intros r1 e1 H1 H2; rewrite Hsel in H1; injection H1 as <-;
            rewrite Hr in H2; injection H2 as <-; exact Hidle).
      apply Kept. reflexivity.
Qed.

(** Relations between the objects before and after. *)
Lemma objects_related_refl (R : eSIM.t -> eSIM.t -> Prop) (s : list eSIM.t) :
  (forall e, R e e) -> objects_related R s s.
Proof. intros HR r e Hr. exists e. split; [ exact Hr | apply HR ]. Qed.

Lemma objects_related_trans (R : eSIM.t -> eSIM.t -> Prop) (s1 s2 s3 : list eSIM.t) :
  (forall a b c, R a b -> R b c -> R a c) ->
  objects_related R s1 s2 -> objects_related R s2 s3 -> objects_related R s1 s3.
Proof.
  intros HR H12 H23 r e Hr.
  destruct (H12 r e Hr) as (e2 & Hr2 & HR12).
  destruct (H23 r e2 Hr2) as (e3 & Hr3 & HR23).
  exists e3. split; [ exact Hr3 | eapply HR; eassumption ].
Qed.

Lemma step_related (R : eSIM.t -> eSIM.t -> Prop) :
  (forall e, R e e) ->
  (forall m e w, R e (invoke m e w).1) ->
  forall c app w,
    objects_related R (eSIMManagerApp.store app) (eSIMManagerApp.store (step c app w).1).
Proof.
  intros Hrefl Hinv c app w.
  destruct (step_effect c app w) as [-> | operator e0 -> _ | r0 e0 m w0 Hr0 ->].
  - apply objects_related_refl. exact Hrefl.
  - intros r e Hr. exists e. split; [ | apply Hrefl ].
    rewrite lookup_app_l; [ exact Hr | ]. eapply lookup_lt_Some. exact Hr.
  - intros r e Hr. destruct (Nat.eq_dec r0 r) as [<- | Hne].
    + exists (invoke m e0 w0).1. split.
      * apply list_lookup_insert_eq. eapply lookup_lt_Some. exact Hr0.
      * pose proof (eq_trans (eq_sym Hr0) Hr) as Heq. injection Heq as <-. apply Hinv.
    + exists e. split; [ | apply Hrefl ].
      rewrite list_lookup_insert_ne by exact Hne. exact Hr.
Qed.

Lemma run_related (R : eSIM.t -> eSIM.t -> Prop) :
  (forall e, R e e) ->
  (forall a b c, R a b -> R b c -> R a c) ->
  (forall m e w, R e (invoke m e w).1) ->
  forall cs app w,
    objects_related R (eSIMManagerApp.store app) (eSIMManagerApp.store (run cs app w).1).
Proof.
  intros Hrefl Htrans Hinv cs.
  induction cs as [| c cs IH]; intros app w.
  - apply objects_related_refl. exact Hrefl.
  - cbn [run]. unfold mbind, M_bind.
    pose proof (step_related R Hrefl Hinv c app w) as Hstep.
    destruct (step c app w) as [app' w'].
    eapply objects_related_trans; [ exact Htrans | exact Hstep | apply IH ].
Qed.

Lemma step_forall (P : eSIM.t -> Prop) :
  (forall m e w, P e -> P (invoke m e w).1) ->
  (forall operator e, fresh_profile operator e -> P e) ->
  forall c app w,
    Forall P (eSIMManagerApp.store app) ->
    Forall P (eSIMManagerApp.store (step c app w).1).
Proof.
  intros Hinv Hfresh c app w Hall.
  destruct (step_effect c app w) as [-> | operator e0 -> Hf | r0 e0 m w0 Hr0 ->].
  - exact Hall.
  - apply Forall_app. split; [ exact Hall | ].
    constructor; [ eapply Hfresh; exact Hf | constructor ].
  - apply Forall_insert; [ exact Hall | ].
    apply Hinv. rewrite Forall_lookup in Hall. exact (Hall r0 e0 Hr0).
Qed.

Lemma run_forall (P : eSIM.t -> Prop) :
  (forall m e w, P e -> P (invoke m e w).1) ->
  (forall operator e, fresh_profile operator e -> P e) ->
  forall cs app w,
    Forall P (eSIMManagerApp.store app) ->
    Forall P (eSIMManagerApp.store (run cs app w).1).
Proof.
  intros Hinv Hfresh cs. induction cs as [| c cs IH]; intros app w Hall; [ exact Hall | ].
  cbn [run]. unfold mbind, M_bind.
  pose proof (step_forall P Hinv Hfresh c app w Hall) as Hstep.
  destruct (step c app w) as [app' w']. apply IH. exact Hstep.
Qed.

(** ** The initial state *)

(** A fresh profile once activated and charged with [amount]. *)
Lemma activated_then_charged (operator : string) (e : eSIM.t) (w : World) (amount : Z) :
  Py.digits amount <= 4300 ->
  fresh_profile operator e ->
  profile_is operator "Active" amount 3
    (eSIM.add_data_usage amount (eSIM.activate e w).1.2 (eSIM.activate e w).2).1.
Proof.
  intros Hdigits (Hop & Hst & Hu & Hl & ts & Hev).
  rewrite (activate_fires e w) by (rewrite Hst; discriminate).
  cbn [fst snd]. rewrite add_data_usage_eq by exact Hdigits. cbn [fst].
  unfold profile_is. cbn. rewrite Hop, Hu, Hl, Hev. repeat split.
Qed.

Lemma fresh_profile_is (operator : string) (e : eSIM.t) :
  fresh_profile operator e -> profile_is operator "Inactive" 0 1 e.
Proof.
  intros (Hop & Hst & Hu & Hl & ts & Hev).
  unfold profile_is. rewrite Hev. repeat split; assumption.
Qed.

Lemma create_demo_esims_eq (w : World) :
  exists (e1 e2 e3 : eSIM.t) (w' : World),
    eSIMManagerApp.create_demo_esims (eSIMManagerApp.mk [] [] None) w
    = (eSIMManagerApp.mk [e1; e2; e3] [0; 1; 2] None, w')
    /\ profile_is "Orange" "Active" 1250 3 e1
    /\ profile_is "SFR" "Inactive" 0 1 e2
    /\ profile_is "Bouygues Telecom" "Active" 450 3 e3.
Proof.
  unfold eSIMManagerApp.create_demo_esims, mbind, M_bind, mret, M_ret.
  destruct (new_eSIM_eq "Orange" (eSIMManagerApp.mk [] [] None) w eq_refl)
    as (e1 & w1 & -> & F1).
  unfold eSIMManagerApp.set_store.
  cbn [eSIMManagerApp.store length app eSIMManagerApp.esims eSIMManagerApp.selected_esim].
  rewrite (call_bool_eq 0 eSIM.activate (eSIMManagerApp.mk [e1] [] None) e1 w1 eq_refl).
  unfold eSIMManagerApp.set_store.
  cbn [eSIMManagerApp.store eSIMManagerApp.esims eSIMManagerApp.selected_esim
       insert list_insert].
  assert (D1 : Py.digits 1250 <= 4300) by (vm_compute; lia).
  assert (D3 : Py.digits 450 <= 4300) by (vm_compute; lia).
  pose proof (activated_then_charged "Orange" e1 w1 1250 D1 F1) as P1.
  set (a1 := (eSIM.activate e1 w1).1.2) in *.
  set (wa := (eSIM.activate e1 w1).2) in *.
  rewrite (call_eq 0 (eSIM.add_data_usage 1250) (eSIMManagerApp.mk [a1] [] None) a1 wa eq_refl).
  unfold eSIMManagerApp.set_store.
  cbn [eSIMManagerApp.store eSIMManagerApp.esims eSIMManagerApp.selected_esim
       insert list_insert].
  set (c1 := (eSIM.add_data_usage 1250 a1 wa).1) in *.
  set (wc := (eSIM.add_data_usage 1250 a1 wa).2).
  destruct (new_eSIM_eq "SFR" (eSIMManagerApp.mk [c1] [] None) wc eq_refl)
    as (e2 & w2 & -> & F2).
  unfold eSIMManagerApp.set_store.
  cbn [eSIMManagerApp.store length app eSIMManagerApp.esims eSIMManagerApp.selected_esim].
  destruct (new_eSIM_eq "Bouygues Telecom" (eSIMManagerApp.mk [c1; e2] [] None) w2 eq_refl)
    as (e3 & w3 & -> & F3).
  unfold eSIMManagerApp.set_store.
  cbn [eSIMManagerApp.store length app eSIMManagerApp.esims eSIMManagerApp.selected_esim].
  rewrite (call_bool_eq 2 eSIM.activate (eSIMManagerApp.mk [c1; e2; e3] [] None) e3 w3 eq_refl).
  unfold eSIMManagerApp.set_store.
  cbn [eSIMManagerApp.store eSIMManagerApp.esims eSIMManagerApp.selected_esim
       insert list_insert].
  pose proof (activated_then_charged "Bouygues Telecom" e3 w3 450 D3 F3) as P3.
  set (a3 := (eSIM.activate e3 w3).1.2) in *.
  set (wa3 := (eSIM.activate e3 w3).2) in *.
  rewrite (call_eq 2 (eSIM.add_data_usage 450) (eSIMManagerApp.mk [c1; e2; a3] [] None) a3 wa3 eq_refl).
  unfold eSIMManagerApp.set_store, eSIMManagerApp.set_esims.
  cbn [eSIMManagerApp.store eSIMManagerApp.esims eSIMManagerApp.selected_esim
       insert list_insert].
  eexists _, _, _, _. split; [ reflexivity | ].
  split; [ exact P1 | ]. split; [ apply fresh_profile_is; exact F2 | exact P3 ].
Qed.

Lemma init_state (w : World) :
  exists (e1 e2 e3 : eSIM.t) (k : Z),
    (eSIMManagerApp.__init__ w).1 = eSIMManagerApp.mk [e1; e2; e3] [0; 1; 2] (Some 0)
    /\ (1 <= k <= 20)%Z
    /\ profile_is "Orange" "Active" (1250 + k) 4 e1
    /\ profile_is "SFR" "Inactive" 0 1 e2
    /\ profile_is "Bouygues Telecom" "Active" 450 3 e3.
Proof.
  unfold eSIMManagerApp.__init__, mbind, M_bind.
  destruct (create_demo_esims_eq w) as (e1 & e2 & e3 & w' & -> & P1 & P2 & P3).
  cbn [eSIMManagerApp.esims]. unfold eSIMManagerApp.set_selected_esim.
  cbn [eSIMManagerApp.store eSIMManagerApp.esims]. cbv beta iota zeta.
  destruct P1 as (Hop & Hst & Hu & Hl & Hn).
  pose proof (simulate_fires (eSIMManagerApp.mk [e1; e2; e3] [0; 1; 2] (Some 0)) w' 0 e1
                eq_refl eq_refl Hst) as Hfire.
  unfold eSIMManagerApp.set_store in Hfire.
  cbn [eSIMManagerApp.store eSIMManagerApp.esims eSIMManagerApp.selected_esim
       insert list_insert] in Hfire.
  destruct (add_data_usage_frame (tick_amount w') e1 (after_draw w')
              (tick_amount_digits w'))
    as (Husage & Hevents & Hstate & Hoper & Hid).
  exists (eSIM.add_data_usage (tick_amount w') e1 (after_draw w')).1, e2, e3,
    (tick_amount w').
  split; [ exact (f_equal fst Hfire) | ].
  split; [ apply tick_amount_range | ].
  split; [ | split; assumption ].
  unfold profile_is. rewrite Husage, Hevents, Hstate, Hoper, length_app, Hu, Hn, Hop, Hst.
  destruct Hid as (_ & _ & _ & _ & _ & ->). rewrite Hl. repeat split.
Qed.

(** X5. When the application starts, for every outcome of the random sources
    and every clock: the registry lists three profiles in the order Orange,
    SFR, Bouygues Telecom, the first one selected; Orange is "Active" with
    1250 plus the first ticker amount (between 1 and 20) and four logged
    events, because the ticker fires once during start-up; SFR is
    "Inactive" with no usage and one event; Bouygues Telecom is "Active"
    with 450 and three events, untouched by that firing. *)
Theorem X5_initial_state (w : World) :
  exists (e1 e2 e3 : eSIM.t) (k : Z),
    (eSIMManagerApp.__init__ w).1 = eSIMManagerApp.mk [e1; e2; e3] [0; 1; 2] (Some 0)
    /\ selected_profile (eSIMManagerApp.__init__ w).1 = Some e1
    /\ (1 <= k <= 20)%Z
    /\ profile_is "Orange" "Active" (1250 + k) 4 e1
    /\ profile_is "SFR" "Inactive" 0 1 e2
    /\ profile_is "Bouygues Telecom" "Active" 450 3 e3.
Proof.
  destruct (init_state w) as (e1 & e2 & e3 & k & Heq & Hk & P1 & P2 & P3).
  exists e1, e2, e3, k. rewrite Heq.
  split; [ reflexivity | ]. split; [ reflexivity | ].
  split; [ exact Hk | ]. split; [ exact P1 | ]. split; [ exact P2 | exact P3 ].
Qed.

(** ** What never changes, what only grows *)

Lemma same_identity_trans (a b c : eSIM.t) :
  same_identity a b -> same_identity b c -> same_identity a c.
Proof.
  unfold same_identity.
  intros (H1 & H2 & H3 & H4 & H5 & H6) (K1 & K2 & K3 & K4 & K5 & K6).
  repeat split; congruence.
Qed.

(** X6. Objects are never removed and their identity never changes: an
    object of the store is still there, at the same place, after any
    sequence of commands (methods called on any object, handlers, ticker
    firings, creations), with the same IMSI, ICCID, MSISDN, Ki, OPc and data
    limit. *)
Theorem X6_identity_is_immutable
    (cs : list command) (app : eSIMManagerApp.t) (w : World)
    (r : eSIMManagerApp.ref) (e : eSIM.t) :
  eSIMManagerApp.store app !! r = Some e ->
  exists e' : eSIM.t,
    eSIMManagerApp.store (run cs app w).1 !! r = Some e'
    /\ same_identity e e'.
Proof.
  apply (run_related same_identity same_identity_refl same_identity_trans).
  intros m e0 w0. apply invoke_summary.
Qed.

Lemma X6_identity_is_immutable_witness :
  exists e' : eSIM.t,
    eSIMManagerApp.store
      (run [DisableEsim true; Direct 0 (ChangeOperator "Free"); ResetData;
            CreateNewEsim (Some "Free"); SimulateDataUsage]
         sample_app sample_world).1 !! 0
    = Some e'
    /\ same_identity sample_first e'.
Proof.
  apply (X6_identity_is_immutable _ sample_app sample_world 0 sample_first).
  reflexivity.
Defined.

Lemma log_extends_refl (e : eSIM.t) : log_extends e e.
Proof. exists []. rewrite app_nil_r. reflexivity. Qed.

Lemma log_extends_trans (a b c : eSIM.t) :
  log_extends a b -> log_extends b c -> log_extends a c.
Proof.
  intros [m1 H1] [m2 H2]. exists (m1 ++ m2). rewrite H2, H1, app_assoc. reflexivity.
Qed.

Lemma logged_once_extends (e e' : eSIM.t) : logged_at_most_once e e' -> log_extends e e'.
Proof.
  intros [H | [ev H]].
  - exists []. rewrite H, app_nil_r. reflexivity.
  - exists [ev]. exact H.
Qed.

(** X7. The log is append-only.  One command leaves the log of every
    object either as it was or with exactly one entry added at the end; so
    after any sequence of commands the log of every object starts with what
    it held before: no entry is ever removed, reordered or rewritten. *)
Theorem X7_log_is_append_only :
  (forall (c : command) (app : eSIMManagerApp.t) (w : World)
          (r : eSIMManagerApp.ref) (e : eSIM.t),
      eSIMManagerApp.store app !! r = Some e ->
      exists e' : eSIM.t,
        eSIMManagerApp.store (step c app w).1 !! r = Some e'
        /\ (eSIM.events e' = eSIM.events e
            \/ exists ev : string, eSIM.events e' = eSIM.events e ++ [ev]))
  /\ (forall (cs : list command) (app : eSIMManagerApp.t) (w : World)
             (r : eSIMManagerApp.ref) (e : eSIM.t),
        eSIMManagerApp.store app !! r = Some e ->
        exists (e' : eSIM.t) (more : list string),
          eSIMManagerApp.store (run cs app w).1 !! r = Some e'
          /\ eSIM.events e' = eSIM.events e ++ more).
Proof.
  split.
  - intros c app w.
    apply (step_related logged_at_most_once).
    + intros e. left. reflexivity.
    + intros m e w0. apply invoke_summary.
  - intros cs app w r e Hr.
    destruct (run_related log_extends log_extends_refl log_extends_trans
                (fun m e0 w0 => logged_once_extends _ _
                                  (proj1 (proj2 (invoke_summary m e0 w0))))
                cs app w r e Hr) as (e' & Hr' & more & Hmore).
    exists e', more. split; assumption.
Qed.

Lemma X7_log_is_append_only_witness :
  exists (e' : eSIM.t) (more : list string),
    eSIMManagerApp.store
      (run [ActivateEsim; DeactivateEsim; ResetData] sample_app sample_world).1 !! 0
    = Some e'
    /\ eSIM.events e' = eSIM.events sample_first ++ more.
Proof.
  destruct X7_log_is_append_only as [_ Hrun].
  apply (Hrun _ sample_app sample_world 0 sample_first). reflexivity.
Defined.

(** X8. The state is always one of "Inactive", "Active", "Disabled": this
    holds of every object when the application starts, and any sequence of
    commands keeps it. *)
Theorem X8_state_is_one_of_three :
  (forall w : World, states_valid (eSIMManagerApp.__init__ w).1)
  /\ (forall (cs : list command) (app : eSIMManagerApp.t) (w : World),
        states_valid app -> states_valid (run cs app w).1).
Proof.
  split.
  - intros w. unfold states_valid.
    destruct (init_state w) as (e1 & e2 & e3 & k & -> & _ & P1 & P2 & P3).
    destruct P1 as (_ & S1 & _). destruct P2 as (_ & S2 & _). destruct P3 as (_ & S3 & _).
    cbn [eSIMManagerApp.store]. unfold valid_state.
    apply Forall_cons. split; [ rewrite S1; auto | ].
    apply Forall_cons. split; [ rewrite S2; auto | ].
    apply Forall_cons. split; [ rewrite S3; auto | apply Forall_nil; exact I ].
  - intros cs app w. unfold states_valid.
    apply (run_forall (fun e => valid_state (eSIM.profile_state e))).
    + intros m e w0. apply invoke_summary.
    + intros operator e (_ & Hst & _). left. exact Hst.
Qed.

Lemma X8_state_is_one_of_three_witness :
  states_valid
    (run [DisableEsim true; ActivateEsim; Direct 1 Disable] sample_app sample_world).1.
Proof.
  destruct X8_state_is_one_of_three as [_ Hrun].
  apply Hrun. unfold states_valid, valid_state.
  apply Forall_cons. split; [ cbn; auto | ].
  apply Forall_cons. split; [ cbn; auto | ].
  apply Forall_cons. split; [ cbn; auto | apply Forall_nil; exact I ].
Defined.

(** X9. The data limit is 10000 on every object when the application
    starts and after any sequence of commands: nothing ever assigns it, so
    the division by [data_limit] made when the details are displayed never
    divides by zero. *)
Theorem X9_limit_stays_default :
  (forall w : World, limits_default (eSIMManagerApp.__init__ w).1)
  /\ (forall (cs : list command) (app : eSIMManagerApp.t) (w : World),
        limits_default app ->
        limits_default (run cs app w).1
        /\ Forall (fun e => eSIM.data_limit e <> 0%Z)
             (eSIMManagerApp.store (run cs app w).1)).
Proof.
  assert (Hrun : forall cs app w, limits_default app -> limits_default (run cs app w).1).
  { intros cs app w. unfold limits_default.
    apply (run_forall (fun e => eSIM.data_limit e = 10000%Z)).
    - intros m e w0 He.
      destruct (invoke_summary m e w0) as ((_ & _ & _ & _ & _ & Hl) & _).
      congruence.
    - intros operator e (_ & _ & _ & Hl & _). exact Hl. }
  split.
  - intros w. unfold limits_default.
    destruct (init_state w) as (e1 & e2 & e3 & k & -> & _ & P1 & P2 & P3).
    destruct P1 as (_ & _ & _ & L1 & _). destruct P2 as (_ & _ & _ & L2 & _).
    destruct P3 as (_ & _ & _ & L3 & _).
    cbn [eSIMManagerApp.store]. repeat constructor; assumption.
  - intros cs app w Hinv. specialize (Hrun cs app w Hinv).
    split; [ exact Hrun | ].
    unfold limits_default in Hrun. eapply Forall_impl; [ exact Hrun | ].
    intros e He. cbn in He. rewrite He. discriminate.
Qed.

Lemma X9_limit_stays_default_witness :
  limits_default
    (run [CreateNewEsim (Some "Free"); ResetData; SimulateDataUsage]
       sample_app sample_world).1.
Proof.
  destruct X9_limit_stays_default as [_ Hrun].
  apply Hrun. unfold limits_default. repeat constructor.
Defined.

(** ** Handlers act on the selected profile only *)

Lemma handler_effect (c : command) (app : eSIMManagerApp.t) (w : World) :
  is_handler c = true ->
  (step c app w).1 = app
  \/ exists (r : nat) (e : eSIM.t) (m : method) (w0 : World),
       eSIMManagerApp.selected_esim app = Some r
       /\ eSIMManagerApp.store app !! r = Some e
       /\ (step c app w).1
          = eSIMManagerApp.set_store
              (<[r := (invoke m e w0).1]> (eSIMManagerApp.store app)) app.
Proof.
  set (P := fun x : eSIMManagerApp.t =>
              x = app
              \/ exists (r : nat) (e : eSIM.t) (m : method) (w0 : World),
                   eSIMManagerApp.selected_esim app = Some r
                   /\ eSIMManagerApp.store app !! r = Some e
                   /\ x = eSIMManagerApp.set_store
                            (<[r := (invoke m e w0).1]> (eSIMManagerApp.store app)) app).
  change (is_handler c = true -> P (step c app w).1).
  assert (Hbool : forall (m : method) (f : eSIM.t -> M (bool * eSIM.t)) (r : nat),
             eSIMManagerApp.selected_esim app = Some r ->
             (forall e w0, (f e w0).1.2 = (invoke m e w0).1) ->
             P (('(_, self) ← eSIMManagerApp.call_bool r f app; mret self) w).1).
  { intros m f r Hsel Hf. unfold P.
    destruct (eSIMManagerApp.store app !! r) as [e |] eqn:Hr.
    - right. exists r, e, m, w. split; [ exact Hsel | split; [ exact Hr | ] ].
      unfold mbind, M_bind. rewrite (call_bool_eq r f app e w Hr). cbn.
      rewrite Hf. reflexivity.
    - left. unfold mbind, M_bind. rewrite (call_bool_dangling r f app w Hr). reflexivity. }
  assert (Hcall : forall (m : method) (r : nat),
             eSIMManagerApp.selected_esim app = Some r ->
             P (eSIMManagerApp.call r (invoke m) app w).1).
  { intros m r Hsel. unfold P.
    destruct (eSIMManagerApp.store app !! r) as [e |] eqn:Hr.
    - right. exists r, e, m, w. split; [ exact Hsel | split; [ exact Hr | ] ].
      rewrite (call_eq r _ app e w Hr). reflexivity.
    - left. rewrite (call_dangling r _ app w Hr). reflexivity. }
  intros Hc.
  destruct c as [r m | curselection | | | confirm | answer | answer | |];
    try discriminate Hc; cbn [step].
  - unfold eSIMManagerApp.activate_esim.
    destruct (eSIMManagerApp.selected_esim app) as [r |] eqn:Hsel0; [ | left; reflexivity ].
    apply (Hbool Activate _ r eq_refl). intros e w0. apply invoke_transition_eq.
  - unfold eSIMManagerApp.deactivate_esim.
    destruct (eSIMManagerApp.selected_esim app) as [r |] eqn:Hsel0; [ | left; reflexivity ].
    apply (Hbool Deactivate _ r eq_refl). intros e w0. apply invoke_transition_eq.
  - unfold eSIMManagerApp.disable_esim.
    destruct (eSIMManagerApp.selected_esim app) as [r |] eqn:Hsel0; [ | left; reflexivity ].
    destruct confirm; cbn [negb]; [ | left; reflexivity ].
    apply (Hbool Disable _ r eq_refl). intros e w0. apply invoke_transition_eq.
  - unfold eSIMManagerApp.change_operator.
    destruct (eSIMManagerApp.selected_esim app) as [r |] eqn:Hsel0; [ | left; reflexivity ].
    destruct answer as [new_operator |]; [ | left; reflexivity ].
    destruct (Py.truthy (Some new_operator)); [ | left; reflexivity ].
    apply (Hcall (ChangeOperator new_operator) r eq_refl).
  - unfold eSIMManagerApp.reset_data.
    destruct (eSIMManagerApp.selected_esim app) as [r |] eqn:Hsel0; [ | left; reflexivity ].
    apply (Hcall ResetDataUsage r eq_refl).
  - destruct (eSIMManagerApp.selected_esim app) as [r |] eqn:Hsel.
    2:{ left. rewrite simulate_idle; [ reflexivity | ].
        intros r e Hr. rewrite Hsel in Hr. discriminate. }
    destruct (eSIMManagerApp.store app !! r) as [e |] eqn:Hr.
    2:{ left. rewrite simulate_idle; [ reflexivity | ].
        intros r1 e1 H1 H2. rewrite Hsel in H1. injection H1 as <-.
        rewrite Hr in H2. discriminate. }
    destruct (String.eqb_spec (eSIM.profile_state e) "Active") as [Hact | Hidle].
    + right. exists r, e, (AddDataUsage (tick_amount w)), (after_draw w).
      split; [ reflexivity | split; [ exact Hr | ] ].
      rewrite (simulate_fires app w r e Hsel Hr Hact). reflexivity.
    + left. rewrite simulate_idle; [ reflexivity | ].
      intros r1 e1 H1 H2. rewrite Hsel in H1. injection H1 as <-.
      rewrite Hr in H2. injection H2 as <-. exact Hidle.
Qed.

Lemma handler_without_selection (c : command) (app : eSIMManagerApp.t) (w : World) :
  is_handler c = true ->
  eSIMManagerApp.selected_esim app = None ->
  step c app w = (app, w).
Proof.
  intros Hc Hsel.
  destruct c as [r m | curselection | | | confirm | answer | answer | |];
    try discriminate Hc; cbn [step].
  - unfold eSIMManagerApp.activate_esim. rewrite Hsel. reflexivity.
  - unfold eSIMManagerApp.deactivate_esim. rewrite Hsel. reflexivity.
  - unfold eSIMManagerApp.disable_esim. rewrite Hsel. reflexivity.
  - unfold eSIMManagerApp.change_operator. rewrite Hsel. reflexivity.
  - unfold eSIMManagerApp.reset_data. rewrite Hsel. reflexivity.
  - unfold eSIMManagerApp.simulate_data_usage. rewrite Hsel. reflexivity.
Qed.

(** X10. The handlers "Activer", "Désactiver", "Supprimer", "Changer
    d'opérateur", "Réinitialiser données" and the ticker act on the selected
    profile only: the list of profiles, the selection and the number of
    objects are unchanged, and so is every object other than the selected
    one.  Without a selection they do nothing at all: the state is unchanged,
    the clock is not read and nothing is drawn.  The same holds of
    "Supprimer" when the confirmation is declined, and of "Changer
    d'opérateur" when the dialog is cancelled or left empty. *)
Theorem X10_handlers_touch_selected_only (c : command) (app : eSIMManagerApp.t) (w : World) :
  is_handler c = true ->
  let app' := (step c app w).1 in
  eSIMManagerApp.esims app' = eSIMManagerApp.esims app
  /\ eSIMManagerApp.selected_esim app' = eSIMManagerApp.selected_esim app
  /\ length (eSIMManagerApp.store app') = length (eSIMManagerApp.store app)
  /\ (forall r : eSIMManagerApp.ref,
        eSIMManagerApp.selected_esim app <> Some r ->
        eSIMManagerApp.store app' !! r = eSIMManagerApp.store app !! r)
  /\ (eSIMManagerApp.selected_esim app = None -> step c app w = (app, w))
  /\ step (DisableEsim false) app w = (app, w)
  /\ step (ChangeOperatorOfSelected None) app w = (app, w)
  /\ step (ChangeOperatorOfSelected (Some "")) app w = (app, w).
Proof.
  intros Hc app'. subst app'.
  assert (Hframe :
    eSIMManagerApp.esims (step c app w).1 = eSIMManagerApp.esims app
    /\ eSIMManagerApp.selected_esim (step c app w).1 = eSIMManagerApp.selected_esim app
    /\ length (eSIMManagerApp.store (step c app w).1) = length (eSIMManagerApp.store app)
    /\ (forall r : eSIMManagerApp.ref,
          eSIMManagerApp.selected_esim app <> Some r ->
          eSIMManagerApp.store (step c app w).1 !! r = eSIMManagerApp.store app !! r)).
  { destruct (handler_effect c app w Hc) as [-> | (r0 & e & m & w0 & Hsel & Hr & ->)].
    - repeat split.
    - cbn [eSIMManagerApp.set_store eSIMManagerApp.esims eSIMManagerApp.selected_esim
           eSIMManagerApp.store].
      split; [ reflexivity | ]. split; [ reflexivity | ].
      split; [ apply length_insert | ].
      intros r Hne. apply list_lookup_insert_ne.
      intros Heq. apply Hne. rewrite Hsel, Heq. reflexivity. }
  destruct Hframe as (H1 & H2 & H3 & H4).
  split; [ exact H1 | ]. split; [ exact H2 | ]. split; [ exact H3 | ].
  split; [ exact H4 | ].
  split; [ apply handler_without_selection; exact Hc | ].
  cbn [step]. unfold eSIMManagerApp.disable_esim, eSIMManagerApp.change_operator.
  destruct (eSIMManagerApp.selected_esim app); repeat split.
Qed.

Lemma X10_handlers_touch_selected_only_witness :
  eSIMManagerApp.store (step ResetData sample_app sample_world).1 !! 2 = Some sample_third
  /\ step ActivateEsim empty_app sample_world = (empty_app, sample_world).
Proof.
  destruct (X10_handlers_touch_selected_only ResetData sample_app sample_world eq_refl)
    as (_ & _ & _ & Hother & _).
  destruct (X10_handlers_touch_selected_only ActivateEsim empty_app sample_world eq_refl)
    as (_ & _ & _ & _ & Hnone & _).
  split.
  - rewrite Hother; [ reflexivity | discriminate ].
  - apply Hnone. reflexivity.
Defined.

(** ** Selecting and creating *)

Lemma getitem_Returns_In {A : Type} (l : list A) (i : Z) (a : A) :
  Py.getitem l i = Py.Returns a -> In a l.
Proof.
  unfold Py.getitem. cbv zeta.
  destruct (_ || _); [ discriminate | ].
  destruct (l !! _) as [x |] eqn:Hx; [ | discriminate ].
  intros Heq. injection Heq as <-.
  apply list_elem_of_In. eapply list_elem_of_lookup_2. exact Hx.
Qed.

Lemma on_esim_select_cases (curselection : list N) (app : eSIMManagerApp.t) :
  eSIMManagerApp.on_esim_select curselection app = app
  \/ exists r : eSIMManagerApp.ref,
       In r (eSIMManagerApp.esims app)
       /\ eSIMManagerApp.on_esim_select curselection app
          = eSIMManagerApp.set_selected_esim (Some r) app.
Proof.
  unfold eSIMManagerApp.on_esim_select, eSIMManagerApp.try_select.
  destruct (Py.getitem curselection 0) as [index |]; [ | left; reflexivity ].
  destruct (Py.getitem (eSIMManagerApp.esims app) (Z.of_N index)) as [r |] eqn:Hr;
    [ | left; reflexivity ].
  right. exists r. split; [ | reflexivity ].
  eapply getitem_Returns_In. exact Hr.
Qed.

(** X11. Selecting a row never touches the profiles: [on_esim_select]
    leaves the store and the list [esims] as they are, whatever the listbox
    reports.  The selection it leaves is either the previous one or a profile
    of the list; with nothing highlighted (an empty tuple) the state is
    unchanged; and handling the same report twice is the same as handling it
    once. *)
Theorem X11_select_is_safe (curselection : list N) (app : eSIMManagerApp.t) :
  let app' := eSIMManagerApp.on_esim_select curselection app in
  eSIMManagerApp.store app' = eSIMManagerApp.store app
  /\ eSIMManagerApp.esims app' = eSIMManagerApp.esims app
  /\ (eSIMManagerApp.selected_esim app' = eSIMManagerApp.selected_esim app
      \/ exists r : eSIMManagerApp.ref,
           In r (eSIMManagerApp.esims app)
           /\ eSIMManagerApp.selected_esim app' = Some r)
  /\ eSIMManagerApp.on_esim_select [] app = app
  /\ eSIMManagerApp.on_esim_select curselection app' = app'.
Proof.
  intros app'. subst app'.
  split; [ apply on_esim_select_store | ].
  assert (Hesims : eSIMManagerApp.esims (eSIMManagerApp.on_esim_select curselection app)
                   = eSIMManagerApp.esims app).
  { destruct (on_esim_select_cases curselection app) as [-> | (r & _ & ->)]; reflexivity. }
  split; [ exact Hesims | ].
  split.
  { destruct (on_esim_select_cases curselection app) as [-> | (r & Hin & ->)].
    - left. reflexivity.
    - right. exists r. split; [ exact Hin | reflexivity ]. }
  split; [ reflexivity | ].
  unfold eSIMManagerApp.on_esim_select at 1. unfold eSIMManagerApp.try_select at 1.
  rewrite Hesims.
  unfold eSIMManagerApp.on_esim_select, eSIMManagerApp.try_select.
  destruct (Py.getitem curselection 0) as [index |]; [ | reflexivity ].
  destruct (Py.getitem (eSIMManagerApp.esims app) (Z.of_N index)) as [r |]; reflexivity.
Qed.

(** X12. "Nouvelle eSIM".  When the dialog is cancelled or left empty,
    nothing changes: no profile is created, the clock is not read, nothing is
    drawn.  With a non-empty operator name, the profile that
    [eSIM(operator=name)] builds is added at the end of the store and of the
    list, and becomes the selection; it is "Inactive", has used nothing,
    carries the creation event alone; and every profile that existed is still
    there, unchanged. *)
Theorem X12_create_new_esim (operator : string) (app : eSIMManagerApp.t) (w : World) :
  eSIMManagerApp.create_new_esim None app w = (app, w)
  /\ eSIMManagerApp.create_new_esim (Some "") app w = (app, w)
  /\ (operator <> "" ->
      let built := eSIM.__init__ None None None (Some operator) w in
      let n := length (eSIMManagerApp.store app) in
      eSIMManagerApp.create_new_esim (Some operator) app w
      = (eSIMManagerApp.mk (eSIMManagerApp.store app ++ [built.1])
           (eSIMManagerApp.esims app ++ [n]) (Some n),
         built.2)
      /\ selected_profile (eSIMManagerApp.create_new_esim (Some operator) app w).1
         = Some built.1
      /\ fresh_profile operator built.1
      /\ forall (r : eSIMManagerApp.ref) (e : eSIM.t),
           eSIMManagerApp.store app !! r = Some e ->
           eSIMManagerApp.store (eSIMManagerApp.create_new_esim (Some operator) app w).1
             !! r
           = Some e).
Proof.
  split; [ reflexivity | ]. split; [ reflexivity | ].
  intros Hne built n. subst built n.
  assert (Ht : Py.truthy (Some operator) = true).
  { unfold Py.truthy. apply string_eqb_neq. exact Hne. }
  assert (Heq : eSIMManagerApp.create_new_esim (Some operator) app w
                = (eSIMManagerApp.mk
                     (eSIMManagerApp.store app
                        ++ [(eSIM.__init__ None None None (Some operator) w).1])
                     (eSIMManagerApp.esims app ++ [length (eSIMManagerApp.store app)])
                     (Some (length (eSIMManagerApp.store app))),
                   (eSIM.__init__ None None None (Some operator) w).2)).
  { unfold eSIMManagerApp.create_new_esim. rewrite Ht.
    unfold eSIMManagerApp.new_eSIM, mbind, M_bind, mret, M_ret.
    destruct (eSIM.__init__ None None None (Some operator) w) as [e w']. reflexivity. }
  rewrite Heq. cbn [fst].
  split; [ reflexivity | ].
  split.
  { unfold selected_profile.
    cbn [eSIMManagerApp.selected_esim eSIMManagerApp.store].
    rewrite lookup_app_r by lia. rewrite Nat.sub_diag. reflexivity. }
  split.
  { destruct (init_spec None None None (Some operator) w)
      as (i & c & m & k & o & w' & ->).
    rewrite Ht. cbn [fst]. repeat split. eexists. reflexivity. }
  intros r e Hr. cbn [eSIMManagerApp.store].
  rewrite lookup_app_l; [ exact Hr | ]. eapply lookup_lt_Some. exact Hr.
Qed.

Lemma X12_create_new_esim_witness :
  eSIM.operator <$> selected_profile
    (eSIMManagerApp.create_new_esim (Some "Free") sample_app sample_world).1
  = Some "Free"
  /\ eSIMManagerApp.store
       (eSIMManagerApp.create_new_esim (Some "Free") sample_app sample_world).1 !! 2
     = Some sample_third.
Proof.
  destruct (X12_create_new_esim "Free" sample_app sample_world) as (_ & _ & Hadd).
  destruct (Hadd ltac:(discriminate)) as (_ & Hsel & Hfresh & Hold).
  split.
  - rewrite Hsel. cbn [fmap option_fmap option_map].
    destruct Hfresh as (-> & _). reflexivity.
  - apply Hold. reflexivity.
Defined.

(** ** References *)

Lemma call_frame (r : nat) (f : eSIM.t -> M eSIM.t) (app : eSIMManagerApp.t) (w : World) :
  eSIMManagerApp.esims (eSIMManagerApp.call r f app w).1 = eSIMManagerApp.esims app
  /\ eSIMManagerApp.selected_esim (eSIMManagerApp.call r f app w).1
     = eSIMManagerApp.selected_esim app
  /\ length (eSIMManagerApp.store (eSIMManagerApp.call r f app w).1)
     = length (eSIMManagerApp.store app).
Proof.
  destruct (eSIMManagerApp.store app !! r) as [e |] eqn:Hr.
  - rewrite (call_eq r f app e w Hr). cbn. rewrite length_insert. repeat split.
  - rewrite (call_dangling r f app w Hr). repeat split.
Qed.

(** A command either keeps the list and the number of objects, leaving a
    selection that is the previous one or a listed profile, or adds one
    object, lists it last and selects it. *)
Lemma step_shape (c : command) (app : eSIMManagerApp.t) (w : World) :
  (eSIMManagerApp.esims (step c app w).1 = eSIMManagerApp.esims app
   /\ length (eSIMManagerApp.store (step c app w).1) = length (eSIMManagerApp.store app)
   /\ (eSIMManagerApp.selected_esim (step c app w).1 = eSIMManagerApp.selected_esim app
       \/ exists r : nat,
            In r (eSIMManagerApp.esims app)
            /\ eSIMManagerApp.selected_esim (step c app w).1 = Some r))
  \/ (eSIMManagerApp.esims (step c app w).1
      = eSIMManagerApp.esims app ++ [length (eSIMManagerApp.store app)]
      /\ length (eSIMManagerApp.store (step c app w).1)
         = S (length (eSIMManagerApp.store app))
      /\ eSIMManagerApp.selected_esim (step c app w).1
         = Some (length (eSIMManagerApp.store app))).
Proof.
  destruct (is_handler c) eqn:Hc.
  { left. destruct (handler_effect c app w Hc) as [-> | (r0 & e & m & w0 & _ & _ & ->)].
    - split; [ reflexivity | split; [ reflexivity | left; reflexivity ] ].
    - cbn. rewrite length_insert.
      split; [ reflexivity | split; [ reflexivity | left; reflexivity ] ]. }
  destruct c as [r m | curselection | | | confirm | answer | answer | |];
    try discriminate Hc; cbn [step].
  - left. destruct (call_frame r (invoke m) app w) as (H1 & H2 & H3).
    split; [ exact H1 | split; [ exact H3 | left; exact H2 ] ].
  - left. unfold mret, M_ret. cbn [fst].
    destruct (on_esim_select_cases curselection app) as [-> | (r & Hin & ->)].
    + split; [ reflexivity | split; [ reflexivity | left; reflexivity ] ].
    + split; [ reflexivity | split; [ reflexivity | ] ].
      right. exists r. split; [ exact Hin | reflexivity ].
  - destruct (Py.truthy answer) eqn:Ht.
    + right. destruct (truthy_given answer Ht) as (operator & -> & _).
      destruct (create_new_esim_adds operator app w Ht) as (e & w' & -> & _).
      cbn. rewrite length_app. cbn. split; [ reflexivity | split; [ lia | reflexivity ] ].
    + left. rewrite (create_new_esim_skips answer app w Ht).
      split; [ reflexivity | split; [ reflexivity | left; reflexivity ] ].
Qed.

Lemma step_refs_sound (c : command) (app : eSIMManagerApp.t) (w : World) :
  refs_sound app -> refs_sound (step c app w).1.
Proof.
  intros [Hlist Hsel]. unfold refs_sound.
  destruct (step_shape c app w) as [(He & Hn & Hs) | (He & Hn & Hs)].
  - rewrite He, Hn. split; [ exact Hlist | ].
    intros r Hr. destruct Hs as [Hs | (r' & Hin & Hs)].
    + apply Hsel. rewrite <- Hs. exact Hr.
    + rewrite Hs in Hr. injection Hr as <-.
      rewrite Hlist in Hin. apply in_seq in Hin. lia.
  - rewrite He, Hn, Hlist. split; [ rewrite seq_S; reflexivity | ].
    intros r Hr. rewrite Hs in Hr. injection Hr as <-. lia.
Qed.

Lemma run_refs_sound (cs : list command) :
  forall (app : eSIMManagerApp.t) (w : World),
    refs_sound app -> refs_sound (run cs app w).1.
Proof.
  induction cs as [| c cs IH]; intros app w Hinv; [ exact Hinv | ].
  cbn [run]. unfold mbind, M_bind.
  pose proof (step_refs_sound c app w Hinv) as Hstep.
  destruct (step c app w) as [app' w']. apply IH. exact Hstep.
Qed.

Lemma run_keeps_selection (cs : list command) :
  forall (app : eSIMManagerApp.t) (w : World),
    is_Some (eSIMManagerApp.selected_esim app) ->
    is_Some (eSIMManagerApp.selected_esim (run cs app w).1).
Proof.
  induction cs as [| c cs IH]; intros app w Hsel; [ exact Hsel | ].
  cbn [run]. unfold mbind, M_bind.
  assert (Hstep : is_Some (eSIMManagerApp.selected_esim (step c app w).1)).
  { destruct (step_shape c app w) as [(_ & _ & [Hs | (r & _ & Hs)]) | (_ & _ & Hs)];
      rewrite Hs; [ exact Hsel | eexists; reflexivity | eexists; reflexivity ]. }
  destruct (step c app w) as [app' w']. apply IH. exact Hstep.
Qed.

(** X13. References stay sound.  When the application starts, and after
    any sequence of commands run from a state where this holds, [esims] lists
    every object created so far exactly once, in creation order; so no
    profile is listed twice, every listed reference resolves to an object,
    and the selection, if any, is a listed profile.  Moreover a selection is
    never cleared: once some profile is selected, some profile is selected
    after any sequence of commands. *)
Theorem X13_references_stay_sound :
  refs_sound empty_app
  /\ (forall w : World, refs_sound (eSIMManagerApp.__init__ w).1)
  /\ (forall (cs : list command) (app : eSIMManagerApp.t) (w : World),
        refs_sound app ->
        let app' := (run cs app w).1 in
        refs_sound app'
        /\ NoDup (eSIMManagerApp.esims app')
        /\ (forall r, In r (eSIMManagerApp.esims app') ->
                      is_Some (eSIMManagerApp.store app' !! r))
        /\ (forall r, eSIMManagerApp.selected_esim app' = Some r ->
                      In r (eSIMManagerApp.esims app'))
        /\ (is_Some (eSIMManagerApp.selected_esim app) ->
            is_Some (eSIMManagerApp.selected_esim app'))).
Proof.
  split; [ | split ].
  - split; [ reflexivity | intros r Hr; discriminate Hr ].
  - intros w. destruct (init_state w) as (e1 & e2 & e3 & k & -> & _).
    split; [ reflexivity | ].
    intros r Hr. cbn in Hr. injection Hr as <-. cbn. lia.
  - intros cs app w Hinv app'. subst app'.
    pose proof (run_refs_sound cs app w Hinv) as [Hlist Hsel].
    split; [ split; assumption | ].
    split; [ rewrite Hlist; apply NoDup_ListNoDup, seq_NoDup | ].
    split.
    { intros r Hin. rewrite Hlist in Hin. apply in_seq in Hin.
      apply lookup_lt_is_Some. lia. }
    split.
    { intros r Hr. rewrite Hlist. apply in_seq. specialize (Hsel r Hr). lia. }
    apply run_keeps_selection.
Qed.

Lemma X13_references_stay_sound_witness :
  NoDup (eSIMManagerApp.esims
           (run [CreateNewEsim (Some "Free"); OnEsimSelect [7%N]; DisableEsim true]
              sample_app sample_world).1)
  /\ is_Some (eSIMManagerApp.selected_esim
                (run [CreateNewEsim (Some "Free"); OnEsimSelect [7%N]; DisableEsim true]
                   sample_app sample_world).1).
Proof.
  destruct X13_references_stay_sound as (_ & _ & Hrun).
  assert (Hsound : refs_sound sample_app).
  { split; [ reflexivity | ]. intros r Hr. cbn in Hr. injection Hr as <-. cbn. lia. }
  destruct (Hrun [CreateNewEsim (Some "Free"); OnEsimSelect [7%N]; DisableEsim true]
              sample_app sample_world Hsound) as (_ & Hnodup & _ & _ & Hkeep).
  split; [ exact Hnodup | apply Hkeep; eexists; reflexivity ].
Defined.

(** ** Repeated firings of the ticker *)

Lemma run_ticks_idle (n : nat) (app : eSIMManagerApp.t) (w : World) :
  (forall r e, eSIMManagerApp.selected_esim app = Some r ->
               eSIMManagerApp.store app !! r = Some e ->
               eSIM.profile_state e <> "Active") ->
  run (replicate n SimulateDataUsage) app w = (app, w).
Proof.
  intros Hidle. induction n as [| n IH]; [ reflexivity | ].
  cbn [replicate run step]. unfold mbind, M_bind.
  rewrite (simulate_idle app w Hidle). exact IH.
Qed.

Lemma run_ticks_active (n : nat) :
  forall (app : eSIMManagerApp.t) (w : World) (r : eSIMManagerApp.ref) (e : eSIM.t),
    eSIMManagerApp.selected_esim app = Some r ->
    eSIMManagerApp.store app !! r = Some e ->
    eSIM.profile_state e = "Active" ->
    exists e' : eSIM.t,
      eSIMManagerApp.store (run (replicate n SimulateDataUsage) app w).1 !! r = Some e'
      /\ (eSIM.data_usage e + Z.of_nat n <= eSIM.data_usage e'
          <= eSIM.data_usage e + 20 * Z.of_nat n)%Z
      /\ length (eSIM.events e') = length (eSIM.events e) + n
      /\ eSIM.profile_state e' = "Active"
      /\ eSIM.operator e' = eSIM.operator e
      /\ forall r' : eSIMManagerApp.ref,
           r' <> r ->
           eSIMManagerApp.store (run (replicate n SimulateDataUsage) app w).1 !! r'
           = eSIMManagerApp.store app !! r'.
Proof.
  induction n as [| n IH]; intros app w r e Hsel Hr Hact.
  - exists e. cbn [replicate run]. unfold mret, M_ret. cbn [fst].
    split; [ exact Hr | ]. split; [ lia | ]. split; [ lia | ].
    split; [ exact Hact | ]. split; [ reflexivity | ]. intros r' _. reflexivity.
  - cbn [replicate run step]. unfold mbind, M_bind.
    rewrite (simulate_fires app w r e Hsel Hr Hact).
    destruct (add_data_usage_frame (tick_amount w) e (after_draw w)
                (tick_amount_digits w))
      as (Husage & Hevents & Hstate & Hoper & _).
    pose proof (tick_amount_range w) as Hk.
    set (e1 := (eSIM.add_data_usage (tick_amount w) e (after_draw w)).1) in *.
    set (app1 := eSIMManagerApp.set_store (<[r := e1]> (eSIMManagerApp.store app)) app).
    assert (Hr1 : eSIMManagerApp.store app1 !! r = Some e1).
    { unfold app1. cbn [eSIMManagerApp.set_store eSIMManagerApp.store].
      apply list_lookup_insert_eq. eapply lookup_lt_Some. exact Hr. }
    assert (Hsel1 : eSIMManagerApp.selected_esim app1 = Some r) by exact Hsel.
    assert (Hact1 : eSIM.profile_state e1 = "Active") by (rewrite Hstate; exact Hact).
    destruct (IH app1 (after_now (after_draw w)) r e1 Hsel1 Hr1 Hact1)
      as (e' & Hlook & Hbounds & Hlen & Hst & Hop & Hothers).
    exists e'. split; [ exact Hlook | ].
    split; [ rewrite Husage in Hbounds; lia | ].
    split; [ rewrite Hlen, Hevents, length_app; cbn [length]; lia | ].
    split; [ exact Hst | ].
    split; [ rewrite Hop; exact Hoper | ].
    intros r' Hne. rewrite (Hothers r' Hne).
    unfold app1. cbn [eSIMManagerApp.set_store eSIMManagerApp.store].
    apply list_lookup_insert_ne. auto.
Qed.

(** X14. [n] firings of the ticker in a row.  If the selected profile is
    "Active", its [data_usage] grows by at least [n] and at most [20 * n],
    its log gains exactly [n] events, it stays "Active" with the same
    operator, and every other object is untouched.  If there is no selection,
    or the selected profile is not "Active", the [n] firings change nothing
    and consume nothing (no random draw, no clock reading). *)
Theorem X14_repeated_firings
    (n : nat) (app : eSIMManagerApp.t) (w : World) (r : eSIMManagerApp.ref) (e : eSIM.t) :
  eSIMManagerApp.selected_esim app = Some r ->
  eSIMManagerApp.store app !! r = Some e ->
  (eSIM.profile_state e = "Active" ->
   exists e' : eSIM.t,
     eSIMManagerApp.store (run (replicate n SimulateDataUsage) app w).1 !! r = Some e'
     /\ (eSIM.data_usage e + Z.of_nat n <= eSIM.data_usage e'
         <= eSIM.data_usage e + 20 * Z.of_nat n)%Z
     /\ length (eSIM.events e') = length (eSIM.events e) + n
     /\ eSIM.profile_state e' = "Active"
     /\ eSIM.operator e' = eSIM.operator e
     /\ forall r' : eSIMManagerApp.ref,
          r' <> r ->
          eSIMManagerApp.store (run (replicate n SimulateDataUsage) app w).1 !! r'
          = eSIMManagerApp.store app !! r')
  /\ (eSIM.profile_state e <> "Active" ->
      run (replicate n SimulateDataUsage) app w = (app, w)).
Proof.
  intros Hsel Hr. split.
  - intros Hact. apply run_ticks_active; assumption.
  - intros Hidle. apply run_ticks_idle.
    intros r1 e1 H1 H2. rewrite Hsel in H1. injection H1 as <-.
    pose proof (eq_trans (eq_sym Hr) H2) as Heq. injection Heq as <-. exact Hidle.
Qed.

Lemma X14_repeated_firings_witness :
  (exists e' : eSIM.t,
      eSIMManagerApp.store
        (run (replicate 5 SimulateDataUsage) sample_app sample_world).1 !! 0
      = Some e'
      /\ (eSIM.data_usage sample_first + 5 <= eSIM.data_usage e'
          <= eSIM.data_usage sample_first + 100)%Z)
  /\ run (replicate 5 SimulateDataUsage)
       (eSIMManagerApp.on_esim_select [1%N] sample_app) sample_world
     = (eSIMManagerApp.on_esim_select [1%N] sample_app, sample_world).
Proof.
  split.
  - destruct (X14_repeated_firings 5 sample_app sample_world 0 sample_first
                eq_refl eq_refl) as [Hact _].
    destruct (Hact eq_refl) as (e' & Hlook & Hbounds & _).
    exists e'. split; [ exact Hlook | exact Hbounds ].
  - destruct (X14_repeated_firings 5 (eSIMManagerApp.on_esim_select [1%N] sample_app)
                sample_world 1 (nth 1 (eSIMManagerApp.store sample_app) sample_profile)
                eq_refl eq_refl) as [_ Hidle].
    apply Hidle. discriminate.
Defined.

(** ** What is displayed *)

Lemma omap_rows (s pre : list eSIM.t) :
  omap (fun r => eSIMManagerApp.row <$> (pre ++ s) !! r) (seq (length pre) (length s))
  = eSIMManagerApp.row <$> s.
Proof.
  revert pre. induction s as [| x s IH]; intros pre; [ reflexivity | ].
  cbn [length seq omap list_omap].
  rewrite list_lookup_middle by reflexivity. cbn [fmap option_fmap option_map].
  rewrite fmap_cons. f_equal.
  specialize (IH (pre ++ [x])).
  rewrite <- app_assoc, length_app in IH. cbn [app length] in IH.
  rewrite Nat.add_1_r in IH. exact IH.
Qed.

Lemma rows_of_sound (app : eSIMManagerApp.t) :
  refs_sound app ->
  eSIMManagerApp.update_esim_list app = eSIMManagerApp.row <$> eSIMManagerApp.store app.
Proof.
  intros [Hlist _]. unfold eSIMManagerApp.update_esim_list. rewrite Hlist.
  exact (omap_rows (eSIMManagerApp.store app) []).
Qed.

(** X15. The listbox and the selection agree.  In a state with sound
    references, [update_esim_list] shows one row per profile, in the order of
    the list, each reading "operator (state)"; and when the listbox reports
    the position of any of these rows, [on_esim_select] makes the very
    profile that row displays the selected one.  What the refresh of the
    display does after that assignment is not part of this statement. *)
Theorem X15_rows_match_selection (app : eSIMManagerApp.t) :
  refs_sound app ->
  length (eSIMManagerApp.update_esim_list app) = length (eSIMManagerApp.esims app)
  /\ forall (i : nat) (line : string),
       eSIMManagerApp.update_esim_list app !! i = Some line ->
       exists (r : eSIMManagerApp.ref) (e : eSIM.t),
         eSIMManagerApp.esims app !! i = Some r
         /\ eSIMManagerApp.store app !! r = Some e
         /\ line = eSIM.operator e +:+ " (" +:+ eSIM.profile_state e +:+ ")"
         /\ eSIMManagerApp.selected_esim (eSIMManagerApp.on_esim_select [N.of_nat i] app)
            = Some r
         /\ selected_profile (eSIMManagerApp.on_esim_select [N.of_nat i] app) = Some e.
Proof.
  intros Hsound. pose proof Hsound as [Hlist _].
  rewrite (rows_of_sound app Hsound).
  split; [ rewrite length_fmap, Hlist, length_seq; reflexivity | ].
  intros i line Hline.
  apply list_lookup_fmap_Some in Hline. destruct Hline as (e & Hline & He).
  assert (Hi : i < length (eSIMManagerApp.store app))
    by (eapply lookup_lt_Some; exact He).
  assert (Hesim : eSIMManagerApp.esims app !! i = Some i).
  { rewrite Hlist. apply lookup_seq. split; [ reflexivity | exact Hi ]. }
  exists i, e. split; [ exact Hesim | ]. split; [ exact He | ].
  split; [ exact Hline | ].
  assert (Hbody : eSIMManagerApp.try_select [N.of_nat i] app
                  = Py.Returns (eSIMManagerApp.set_selected_esim (Some i) app)).
  { unfold eSIMManagerApp.try_select. rewrite getitem_head.
    destruct (getitem_in_range (eSIMManagerApp.esims app) (N.of_nat i)) as (a & Ha & ->).
    - rewrite Nat2N.id, Hlist, length_seq. exact Hi.
    - rewrite Nat2N.id in Ha.
      pose proof (eq_trans (eq_sym Hesim) Ha) as Heq. injection Heq as <-. reflexivity. }
  unfold eSIMManagerApp.on_esim_select. rewrite Hbody.
  split; [ reflexivity | ].
  unfold selected_profile. cbn. exact He.
Qed.

Lemma X15_rows_match_selection_witness :
  eSIMManagerApp.update_esim_list sample_app
  = ["Orange (Active)"; "SFR (Inactive)"; "Bouygues Telecom (Active)"]
  /\ exists e : eSIM.t,
       selected_profile (eSIMManagerApp.on_esim_select [N.of_nat 2] sample_app) = Some e
       /\ "Bouygues Telecom (Active)"
          = eSIM.operator e +:+ " (" +:+ eSIM.profile_state e +:+ ")".
Proof.
  assert (Hsound : refs_sound sample_app).
  { split; [ reflexivity | ]. intros r Hr. cbn in Hr. injection Hr as <-. cbn. lia. }
  split; [ reflexivity | ].
  destruct (X15_rows_match_selection sample_app Hsound) as [_ Hrows].
  destruct (Hrows 2 "Bouygues Telecom (Active)" eq_refl)
    as (r & e & _ & _ & Hline & _ & Hsel).
  exists e. split; [ exact Hsel | exact Hline ].
Defined.

Lemma join_app (l1 l2 : list string) : Py.join (l1 ++ l2) = Py.join l1 +:+ Py.join l2.
Proof.
  induction l1 as [| x l1 IH]; [ reflexivity | ].
  cbn [app]. rewrite !join_cons, IH, string_append_assoc. reflexivity.
Qed.

Lemma append_empty_r (s : string) : s +:+ "" = s.
Proof.
  induction s as [| ch s IH]; [ reflexivity | ].
  rewrite append_cons, IH. reflexivity.
Qed.

(** X16. The displayed history only grows.  Without a selection
    [update_history] leaves the widget as it is.  In a state with sound
    references, after any sequence of commands that ends with the same
    selection, the refreshed history text is the previous refreshed text with
    more text appended: what was displayed for a profile is never retracted
    or altered. *)
Theorem X16_history_only_grows :
  (forall (text : string) (app : eSIMManagerApp.t),
      eSIMManagerApp.selected_esim app = None ->
      eSIMManagerApp.update_history text app = text)
  /\ (forall (cs : list command) (app : eSIMManagerApp.t) (w : World) (text : string),
        refs_sound app ->
        eSIMManagerApp.selected_esim (run cs app w).1 = eSIMManagerApp.selected_esim app ->
        exists more : string,
          eSIMManagerApp.update_history text (run cs app w).1
          = eSIMManagerApp.update_history text app +:+ more).
Proof.
  split.
  - intros text app Hsel. unfold eSIMManagerApp.update_history. rewrite Hsel. reflexivity.
  - intros cs app w text [_ Hvalid] Hsame.
    unfold eSIMManagerApp.update_history. rewrite Hsame.
    destruct (eSIMManagerApp.selected_esim app) as [r |] eqn:Hsel.
    2:{ exists "". rewrite append_empty_r. reflexivity. }
    destruct (lookup_lt_is_Some_2 (eSIMManagerApp.store app) r (Hvalid r eq_refl))
      as [e He].
    destruct (run_related log_extends log_extends_refl log_extends_trans
                (fun m e0 w0 => logged_once_extends _ _
                                  (proj1 (proj2 (invoke_summary m e0 w0))))
                cs app w r e He) as (e' & He' & more & Hmore).
    exists (Py.join ((fun event => event +:+ String (ascii_of_nat 10) "") <$> more)).
    unfold eSIMManagerApp.ref in *.
    rewrite He, He', Hmore, fmap_app, join_app. reflexivity.
Qed.

Lemma X16_history_only_grows_witness :
  exists more : string,
    eSIMManagerApp.update_history ""
      (run [DeactivateEsim; Direct 0 (AddDataUsage 3); CreateNewEsim None]
         sample_app sample_world).1
    = eSIMManagerApp.update_history "" sample_app +:+ more.
Proof.
  destruct X16_history_only_grows as [_ Hgrow].
  apply Hgrow; [ | reflexivity ].
  split; [ reflexivity | ]. intros r Hr. cbn in Hr. injection Hr as <-. cbn. lia.
Defined.

Lemma substring_prefix (p rest : string) :
  String.substring 0 (String.length p) (p +:+ rest) = p.
Proof.
  induction p as [| ch p IH].
  - cbn [String.length]. rewrite append_empty. destruct rest; reflexivity.
  - rewrite append_cons. cbn [String.length String.substring]. rewrite IH. reflexivity.
Qed.

Lemma substring_whole (s : string) : String.substring 0 (String.length s) s = s.
Proof.
  induction s as [| ch s IH]; [ reflexivity | ].
  cbn [String.length String.substring]. rewrite IH. reflexivity.
Qed.

Lemma substring_suffix (x s : string) :
  String.substring (String.length x) (String.length s) (x +:+ s) = s.
Proof.
  induction x as [| ch x IH].
  - rewrite append_empty. apply substring_whole.
  - rewrite append_cons. cbn [String.length String.substring]. exact IH.
Qed.

Lemma split_at (n : nat) (s : string) :
  n <= String.length s ->
  exists a b : string, s = a +:+ b /\ String.length a = n.
Proof.
  revert s. induction n as [| n IH]; intros s Hn.
  - exists "", s. split; reflexivity.
  - destruct s as [| ch s]; [ cbn in Hn; lia | ].
    cbn [String.length] in Hn.
    destruct (IH s ltac:(lia)) as (a & b & -> & Ha).
    exists (String ch a), b. split; [ reflexivity | cbn [String.length]; lia ].
Qed.

Lemma masked_key_eq (p m s : string) :
  String.length p = 8 -> String.length s = 8 ->
  eSIMManagerApp.masked_key (p +:+ m +:+ s) = p +:+ "..." +:+ s.
Proof.
  intros Hp Hs.
  assert (Hpre : Py.slice_to 8 (p +:+ m +:+ s) = p).
  { unfold Py.slice_to. pose proof (substring_prefix p (m +:+ s)) as H.
    rewrite Hp in H. exact H. }
  assert (Hsuf : Py.slice_last 8 (p +:+ m +:+ s) = s).
  { unfold Py.slice_last. rewrite <- string_append_assoc.
    pose proof (substring_suffix (p +:+ m) s) as H. rewrite Hs in H.
    replace (String.length ((p +:+ m) +:+ s) - 8) with (String.length (p +:+ m))
      by (rewrite (append_length (p +:+ m) s); lia).
    exact H. }
  unfold eSIMManagerApp.masked_key. rewrite Hpre, Hsuf. reflexivity.
Qed.

(** X17. How a key is displayed: of a key made of 8 characters, any middle
    part and 8 more characters, the details show the first 8, three dots and
    the last 8, whatever the middle part is.  A generated key has 32
    characters, so its 16 middle characters never reach the screen and the
    displayed form has 19 characters. *)
Theorem X17_keys_are_masked :
  (forall p m s : string,
      String.length p = 8 -> String.length s = 8 ->
      eSIMManagerApp.masked_key (p +:+ m +:+ s) = p +:+ "..." +:+ s)
  /\ (forall w : World,
        exists p m s : string,
          (eSIM._generate_auth_key w).1 = p +:+ m +:+ s
          /\ String.length p = 8 /\ String.length m = 16 /\ String.length s = 8
          /\ eSIMManagerApp.masked_key (eSIM._generate_auth_key w).1 = p +:+ "..." +:+ s
          /\ String.length (eSIMManagerApp.masked_key (eSIM._generate_auth_key w).1) = 19).
Proof.
  split; [ exact masked_key_eq | ].
  intros w. pose proof (auth_key_shape w) as Hshape.
  destruct (eSIM._generate_auth_key w) as [key w']. cbn [fst] in *.
  unfold lower_hex_of_length in Hshape. apply andb_true_iff in Hshape.
  destruct Hshape as [Hlen _]. apply Nat.eqb_eq in Hlen.
  destruct (split_at 8 key ltac:(lia)) as (p & rest & -> & Hp).
  rewrite append_length in Hlen.
  destruct (split_at 16 rest ltac:(lia)) as (m & s & -> & Hm).
  rewrite append_length in Hlen.
  assert (Hs : String.length s = 8) by lia.
  exists p, m, s. split; [ reflexivity | ].
  split; [ exact Hp | ]. split; [ exact Hm | ]. split; [ exact Hs | ].
  rewrite (masked_key_eq p m s Hp Hs).
  split; [ reflexivity | ].
  rewrite !append_length, Hp, Hs. reflexivity.
Qed.

Lemma X17_keys_are_masked_witness :
  eSIMManagerApp.masked_key ("01234567" +:+ "0123456789abcdef" +:+ "89abcdef")
  = "01234567" +:+ "..." +:+ "89abcdef".
Proof.
  destruct X17_keys_are_masked as [Hmask _].
  apply Hmask; reflexivity.
Defined.

(** X18. "Changer d'opérateur" as the user sees it.  In a state with sound
    references where a profile is selected, answering the dialog with a
    non-empty name renames that profile: its row in the listbox now reads
    "name (state)" while every other row is as before, its log gains the one
    event "[timestamp] Changement d'opérateur: old -> name", and its state,
    usage, identifiers, keys and limit are unchanged. *)
Theorem X18_operator_change_is_displayed
    (name : string) (app : eSIMManagerApp.t) (w : World)
    (r : eSIMManagerApp.ref) (e : eSIM.t) :
  refs_sound app ->
  eSIMManagerApp.selected_esim app = Some r ->
  eSIMManagerApp.store app !! r = Some e ->
  name <> "" ->
  let app' := (eSIMManagerApp.change_operator (Some name) app w).1 in
  eSIMManagerApp.update_esim_list app'
  = <[r := name +:+ " (" +:+ eSIM.profile_state e +:+ ")"]>
      (eSIMManagerApp.update_esim_list app)
  /\ exists e' : eSIM.t,
       eSIMManagerApp.store app' !! r = Some e'
       /\ eSIM.operator e' = name
       /\ eSIM.events e'
          = eSIM.events e
              ++ ["[" +:+ stamp w +:+ "] Changement d'opérateur: " +:+ eSIM.operator e
                    +:+ " -> " +:+ name]
       /\ eSIM.profile_state e' = eSIM.profile_state e
       /\ eSIM.data_usage e' = eSIM.data_usage e
       /\ same_identity e e'.
Proof.
  intros Hsound Hsel Hr Hname app'. subst app'.
  assert (Ht : Py.truthy (Some name) = true).
  { unfold Py.truthy. apply string_eqb_neq. exact Hname. }
  assert (Heq : (eSIMManagerApp.change_operator (Some name) app w).1
                = eSIMManagerApp.set_store
                    (<[r := (eSIM.change_operator name e w).1]> (eSIMManagerApp.store app))
                    app).
  { unfold eSIMManagerApp.change_operator. rewrite Hsel, Ht.
    rewrite (call_eq r _ app e w Hr). reflexivity. }
  rewrite Heq. rewrite change_operator_eq. cbn [fst].
  set (e' := eSIM.set_events _ _).
  assert (Hsound' : refs_sound
                      (eSIMManagerApp.set_store (<[r := e']> (eSIMManagerApp.store app)) app)).
  { destruct Hsound as [Hlist Hvalid]. split.
    - cbn. rewrite length_insert. exact Hlist.
    - intros r0 Hr0. cbn. rewrite length_insert. apply Hvalid. exact Hr0. }
  split.
  - rewrite (rows_of_sound _ Hsound'), (rows_of_sound app Hsound).
    cbn [eSIMManagerApp.set_store eSIMManagerApp.store].
    rewrite list_fmap_insert. reflexivity.
  - exists e'. cbn [eSIMManagerApp.set_store eSIMManagerApp.store].
    split; [ apply list_lookup_insert_eq; eapply lookup_lt_Some; exact Hr | ].
    subst e'. repeat split.
Qed.

Lemma X18_operator_change_is_displayed_witness :
  eSIMManagerApp.update_esim_list
    (eSIMManagerApp.change_operator (Some "Free") sample_app sample_world).1
  = ["Free (Active)"; "SFR (Inactive)"; "Bouygues Telecom (Active)"]
  /\ exists e' : eSIM.t,
       eSIMManagerApp.store
         (eSIMManagerApp.change_operator (Some "Free") sample_app sample_world).1 !! 0
       = Some e'
       /\ eSIM.events e'
          = eSIM.events sample_first ++ ["[t0] Changement d'opérateur: Orange -> Free"].
Proof.
  assert (Hsound : refs_sound sample_app).
  { split; [ reflexivity | ]. intros r Hr. cbn in Hr. injection Hr as <-. cbn. lia. }
  destruct (X18_operator_change_is_displayed "Free" sample_app sample_world 0
              sample_first Hsound eq_refl eq_refl ltac:(discriminate))
    as [Hrows (e' & Hlook & _ & Hevents & _)].
  split; [ rewrite Hrows; reflexivity | ].
  exists e'. split; [ exact Hlook | rewrite Hevents; reflexivity ].
Defined.

(** X19. [reset_data_usage] has no guard on the profile.  Where the counter
    has at most 4300 decimal digits the call returns, sets [data_usage] to 0
    and appends the one event
    "[timestamp] Réinitialisation du compteur de données (ancien: <old> Mo)",
    leaving state, operator, identifiers, keys and limit alone; resetting
    again straight away logs a second event, which records 0.  Where the
    counter has more digits, formatting the old value raises [ValueError]
    once the counter has been zeroed: the counter is 0, no event is logged
    and the clock is not read. *)
Theorem X19_reset_logs_or_raises (e : eSIM.t) (w : World) :
  (Py.digits (eSIM.data_usage e) <= 4300 ->
   let r1 := eSIM.reset_data_usage_call e w in
   let r2 := eSIM.reset_data_usage_call r1.1.2 r1.2 in
   r1.1.1 = Py.Ok tt
   /\ eSIM.data_usage r1.1.2 = 0%Z
   /\ eSIM.events r1.1.2
      = eSIM.events e
          ++ ["[" +:+ stamp w +:+ "] Réinitialisation du compteur de données (ancien: "
                +:+ Py.decimal (eSIM.data_usage e) +:+ " Mo)"]
   /\ eSIM.profile_state r1.1.2 = eSIM.profile_state e
   /\ eSIM.operator r1.1.2 = eSIM.operator e
   /\ same_identity e r1.1.2
   /\ r2.1.1 = Py.Ok tt
   /\ eSIM.data_usage r2.1.2 = 0%Z
   /\ eSIM.events r2.1.2
      = eSIM.events r1.1.2
          ++ ["[" +:+ stamp r1.2
                +:+ "] Réinitialisation du compteur de données (ancien: 0 Mo)"])
  /\ (4300 < Py.digits (eSIM.data_usage e) ->
      let r1 := eSIM.reset_data_usage_call e w in
      r1.1.1 = Py.ValueError
      /\ eSIM.data_usage r1.1.2 = 0%Z
      /\ eSIM.events r1.1.2 = eSIM.events e
      /\ eSIM.profile_state r1.1.2 = eSIM.profile_state e
      /\ eSIM.operator r1.1.2 = eSIM.operator e
      /\ same_identity e r1.1.2
      /\ r1.2 = w).
Proof.
  split.
  - intros Hdigits r1 r2. subst r2 r1.
    rewrite (reset_data_usage_call_returns e w Hdigits). cbn [fst snd].
    rewrite reset_data_usage_call_returns by (vm_compute; lia). cbn [fst snd].
    repeat split.
  - intros Hdigits r1. subst r1.
    rewrite (reset_data_usage_call_raises e w Hdigits). cbn [fst snd].
    repeat split.
Qed.

Lemma X19_reset_logs_or_raises_witness :
  (eSIM.reset_data_usage_call sample_first sample_world).1.1 = Py.Ok tt
  /\ eSIM.data_usage (eSIM.reset_data_usage_call sample_first sample_world).1.2 = 0%Z
  /\ eSIM.events (eSIM.reset_data_usage_call sample_first sample_world).1.2
     = eSIM.events sample_first
         ++ ["[t0] Réinitialisation du compteur de données (ancien: 1267 Mo)"].
Proof.
  destruct (X19_reset_logs_or_raises sample_first sample_world) as [Hreturns _].
  assert (Hdigits : Py.digits (eSIM.data_usage sample_first) <= 4300)
    by (vm_compute; lia).
  destruct (Hreturns Hdigits) as (Hok & Husage & Hevents & _).
  split; [ exact Hok | ]. split; [ exact Husage | ].
  rewrite Hevents. reflexivity.
Defined.

(** X20. The limit on the conversion of an [int] to text, seen from
    [add_data_usage]: an amount of more than 4300 decimal digits is added to
    [data_usage] and then formatting it raises [ValueError], so the counter
    holds the sum, no event is logged and the clock is not read.  The
    smallest such amount is 10 ^ 4300: it has 4301 digits, while
    10 ^ 4300 - 1 has 4300 and is logged. *)
Theorem X20_add_data_usage_beyond_limit (amount : Z) (e : eSIM.t) (w : World) :
  4300 < Py.digits amount ->
  let out := eSIM.add_data_usage_call amount e w in
  out.1.1 = Py.ValueError
  /\ eSIM.data_usage out.1.2 = (eSIM.data_usage e + amount)%Z
  /\ eSIM.events out.1.2 = eSIM.events e
  /\ eSIM.profile_state out.1.2 = eSIM.profile_state e
  /\ eSIM.operator out.1.2 = eSIM.operator e
  /\ same_identity e out.1.2
  /\ out.2 = w.
Proof.
  intros Hdigits out. subst out.
  rewrite (add_data_usage_call_raises amount e w Hdigits). cbn [fst snd].
  repeat split.
Qed.

Lemma X20_add_data_usage_beyond_limit_witness :
  Py.digits (10 ^ 4300 - 1) = 4300
  /\ Py.digits (10 ^ 4300) = 4301
  /\ (eSIM.add_data_usage_call (10 ^ 4300) sample_profile sample_world).1.1
     = Py.ValueError
  /\ eSIM.data_usage (eSIM.add_data_usage_call (10 ^ 4300) sample_profile sample_world).1.2
     = (10 ^ 4300)%Z
  /\ eSIM.events (eSIM.add_data_usage_call (10 ^ 4300) sample_profile sample_world).1.2
     = ["[t0] Création de l'eSIM"].
Proof.
  assert (Hdigits : Py.digits (10 ^ 4300) = 4301) by (vm_compute; reflexivity).
  split; [ vm_compute; reflexivity | ]. split; [ exact Hdigits | ].
  destruct (X20_add_data_usage_beyond_limit (10 ^ 4300) sample_profile sample_world)
    as (Hraises & Husage & Hevents & _); [ rewrite Hdigits; lia | ].
  split; [ exact Hraises | ]. split; [ rewrite Husage; reflexivity | ].
  rewrite Hevents. reflexivity.
Defined.
